(** * Random.org MCP server: request validation and error mapping

    A shallow embedding of [server.py].  Python values are a small dynamic
    universe, exceptions are results, and the tool functions run in a state
    monad whose state is the log of calls made to [_random_org_rpc].  The
    client is embedded a second time down to the HTTP exchange, with the
    requests posted as its state, and the catalogue of examples as the
    data it is. *)

From stdpp Require Import base gmap strings list pretty.
From Stdlib Require Import ZArith Lia Ascii Floats.
From Stdlib Require Uint63.

Set Warnings "-register-all,-inexact-float".
Set Default Proof Using "Type".
Open Scope Z_scope.

(** ** Python values

    The arguments of the tools arrive as decoded JSON.  Strings hold the
    UTF-8 bytes of a Python [str].  Floats are not part of this universe;
    the two float parameters of [generate_gaussians] are typed separately. *)

Inductive value : Type :=
| VNone
| VBool (b : bool)
| VInt (z : Z)
| VStr (s : string)
| VList (l : list value)
| VDict (d : gmap string value).

(** What a JSON-RPC parameter or an output field can hold. *)
Inductive json : Type :=
| JV (v : value)
| JFloat (x : float).

(** ** Exceptions

    Every [raise ValueError(...)] of the source has its own constructor,
    carrying the values its message interpolates. *)

Inductive message : Type :=
| PgrNotObject                                     (* line 108 *)
| PgrBoth                                          (* line 111 *)
| PgrDateNotStr                                    (* line 116 *)
| PgrDateFormat                                    (* line 120 *)
| PgrIdNotStr                                      (* line 126 *)
| PgrIdLength                                      (* line 128 *)
| PgrNeither                                       (* line 131 *)
| ListLength (name : string) (n : Z)               (* line 154 *)
| OutOfRange (name : string) (lo hi : Z) (val : value)   (* line 166 *)
| NotBool (name : string)                          (* line 170 *)
| BadBase (name : string)                          (* lines 174, 256 *)
| LengthsTotal (total : Z)                         (* lines 179, 317 *)
| Infeasible (i : Z) (domain : Z) (len : value)      (* line 213 *)
| InfeasibleAt (i : Z) (domain : Z) (len : value)    (* line 224 *)
| ReplacementLength                                (* line 219 *)
| SeqMinGtMax (i : nat) (mn mx : value)            (* line 339 *)
| IntegersN                                        (* line 248 *)
| IntegersMin                                      (* line 250 *)
| IntegersMax                                      (* line 252 *)
| IntegersMinGtMax                                 (* line 254 *)
| GaussMean                                        (* line 455 *)
| GaussStdDev                                      (* line 457 *)
| CharactersLength                                 (* line 514 *)
| BlobSizeDiv8                                     (* line 603 *)
| BlobTotal                                        (* line 605 *)
| BlobFormat.                                      (* line 607 *)

(** The ways the interpreter itself raises [TypeError] on these values,
    and the one explicit [raise TypeError] of [generate_strings]. *)
Inductive fault : Type :=
| NotOrderable
| NotSubscriptable
| BadIndexType
| UnsupportedOperand
| NotIterable
| NoLen
| Unhashable
| CharactersNotStr.                                (* line 512 *)

Inductive exn : Type :=
| ValueError (m : message)
| TypeError (f : fault)
| IndexError
| KeyError (k : string)
| AttributeError
| RuntimeError (text : string).

Inductive result (A : Type) : Type :=
| Ok (a : A)
| Raise (e : exn).
Arguments Ok {A} a.
Arguments Raise {A} e.

Definition is_ok {A} (r : result A) : bool :=
  match r with Ok _ => true | Raise _ => false end.

(** ** Sequencing

    Pure code lives in [result]; code that may call the service lives in
    [M S], which threads a state [S] and stops at the first exception. *)

Class Raising (m : Type → Type) := {
  ret : ∀ {A}, A → m A;
  bind : ∀ {A B}, m A → (A → m B) → m B;
  raise : ∀ {A}, exn → m A
}.

Declare Scope py_scope.
Delimit Scope py_scope with py.
Notation "x <- c ;; k" := (bind c (fun x => k))
  (at level 100, c at next level, right associativity) : py_scope.
Notation "c ;;; k" := (bind c (fun _ => k))
  (at level 100, right associativity) : py_scope.
Open Scope py_scope.

#[export] Instance result_raising : Raising result := {|
  ret A a := Ok a;
  bind A B c k := match c with Ok a => k a | Raise e => Raise e end;
  raise A e := Raise e
|}.

Definition M (S A : Type) : Type := S → result A * S.

#[export] Instance M_raising S : Raising (M S) := {|
  ret A a := fun s => (Ok a, s);
  bind A B c k := fun s =>
    match c s with
    | (Ok a, s') => k a s'
    | (Raise e, s') => (Raise e, s')
    end;
  raise A e := fun s => (Raise e, s)
|}.

(** A pure computation run inside [M S]. *)
Definition lift {S A} (r : result A) : M S A := fun s => (r, s).

(** [if not cond: raise e] *)
Definition guard `{Raising m} (cond : bool) (e : exn) : m unit :=
  if cond then ret tt else raise e.

(** [for x in xs: body(x)] *)
Fixpoint for_each `{Raising m} {A} (xs : list A) (body : A → m unit) : m unit :=
  match xs with
  | [] => ret tt
  | x :: xs' => body x ;;; for_each xs' body
  end.

(** ** Python built-ins on values *)

(** [bool] is a subclass of [int]: [True] counts as 1 in arithmetic and
    comparisons. *)
Definition as_int (v : value) : option Z :=
  match v with
  | VInt z => Some z
  | VBool b => Some (Z.b2z b)
  | _ => None
  end.

Definition is_list (v : value) : bool :=
  match v with VList _ => true | _ => false end.

(** [isinstance(v, bool)] *)
Definition is_bool (v : value) : bool :=
  match v with VBool _ => true | _ => false end.

(** [v is True], [v is False] *)
Definition is_True (v : value) : bool :=
  match v with VBool true => true | _ => false end.
Definition is_False (v : value) : bool :=
  match v with VBool false => true | _ => false end.

(** [[v] * n] *)
Definition py_repeat (v : value) (n : Z) : value :=
  VList (replicate (Z.to_nat n) v).

(** A byte of the form 10xxxxxx continues a code point. *)
Definition is_continuation (c : ascii) : bool :=
  let b := Z.of_nat (nat_of_ascii c) in (128 <=? b) && (b <? 192).

(** The code points of a string, each as its own bytes. *)
Fixpoint code_points (s : string) : list string :=
  match s with
  | EmptyString => []
  | String c s' =>
      match code_points s' with
      | String c' p :: ps =>
          if is_continuation c' then String c (String c' p) :: ps
          else String c EmptyString :: String c' p :: ps
      | ps => String c EmptyString :: ps
      end
  end.

(** [len(s)] for a [str] counts code points. *)
Definition str_len (s : string) : Z := Z.of_nat (length (code_points s)).

(** [len(v)] *)
Definition py_len (v : value) : result Z :=
  match v with
  | VList l => Ok (Z.of_nat (length l))
  | VStr s => Ok (str_len s)
  | VDict d => Ok (Z.of_nat (size d))
  | _ => Raise (TypeError NoLen)
  end.

(** [v[i]] for an integer [i]; negative indices count from the end. *)
Definition list_index {A} (l : list A) (i : Z) : result A :=
  let j := if i <? 0 then i + Z.of_nat (length l) else i in
  if j <? 0 then Raise IndexError
  else match l !! Z.to_nat j with
       | Some x => Ok x
       | None => Raise IndexError
       end.

Definition py_getitem (v : value) (i : Z) : result value :=
  match v with
  | VList l => list_index l i
  | VStr s => match list_index (code_points s) i with
              | Ok c => Ok (VStr c)
              | Raise e => Raise e
              end
  | VDict _ => Raise (KeyError (pretty i))
  | _ => Raise (TypeError NotSubscriptable)
  end.

(** [v[k]] for a string key [k]. *)
Definition py_getkey (v : value) (k : string) : result value :=
  match v with
  | VDict d => match d !! k with
               | Some x => Ok x
               | None => Raise (KeyError k)
               end
  | VList _ | VStr _ => Raise (TypeError BadIndexType)
  | _ => Raise (TypeError NotSubscriptable)
  end.

(** [v.get(k)] *)
Definition py_get (v : value) (k : string) : result value :=
  match v with
  | VDict d => Ok (default VNone (d !! k))
  | _ => Raise AttributeError
  end.

(** [a - b] *)
Definition py_sub (a b : value) : result Z :=
  match as_int a, as_int b with
  | Some x, Some y => Ok (x - y)
  | _, _ => Raise (TypeError UnsupportedOperand)
  end.

(** [a < b] with an integer on the left. *)
Definition py_int_lt (a : Z) (b : value) : result bool :=
  match as_int b with
  | Some y => Ok (a <? y)
  | None => Raise (TypeError NotOrderable)
  end.

(** [a > b]; where the source compares, both operands have passed
    [_validate_int_range], so only integers and booleans meet here. *)
Definition py_gt (a b : value) : result bool :=
  match as_int a, as_int b with
  | Some x, Some y => Ok (y <? x)
  | _, _ => Raise (TypeError NotOrderable)
  end.

(** [iter(v)] *)
Definition py_iter (v : value) : result (list value) :=
  match v with
  | VList l => Ok l
  | VStr s => Ok (VStr <$> code_points s)
  | VDict d => Ok (VStr <$> (map_to_list d).*1)
  | _ => Raise (TypeError NotIterable)
  end.

(** [sum(v)]: starts from 0 and adds the items in order. *)
Fixpoint sum_from (acc : Z) (items : list value) : result Z :=
  match items with
  | [] => Ok acc
  | x :: items' =>
      match as_int x with
      | Some z => sum_from (acc + z) items'
      | None => Raise (TypeError UnsupportedOperand)
      end
  end.

Definition py_sum (v : value) : result Z :=
  items <- py_iter v ;; sum_from 0 items.

(** [a == k] for an integer [k]. *)
Definition py_eq_int (a : value) (k : Z) : bool :=
  match as_int a with
  | Some z => z =? k
  | None => false
  end.

(** [f"{name}[{i}]"] *)
Definition item_name (name : string) (i : nat) : string :=
  name +:+ "[" +:+ pretty i +:+ "]".

(** [enumerate(l)] *)
Definition enumerate {A} (l : list A) : list (nat * A) :=
  imap (λ i x, (i, x)) l.

(** [lo <= x <= hi] *)
Definition in_range (lo x hi : Z) : bool := (lo <=? x) && (x <=? hi).

(** ** Domain validators (lines 164-179) *)

Definition _validate_int_range (val : value) (name : string) (lo hi : Z)
  : result unit :=
  match as_int val with
  | Some v =>
      guard (in_range lo v hi) (ValueError (OutOfRange name lo hi val))
  | None => Raise (TypeError NotOrderable)
  end.

Definition _validate_bool (val : value) (name : string) : result unit :=
  guard (is_bool val) (ValueError (NotBool name)).

Definition _validate_base (val : value) (name : string) : result unit :=
  guard (existsb (py_eq_int val) [2; 8; 10; 16]) (ValueError (BadBase name)).

Definition _validate_lengths_total (lengths : value) : result unit :=
  total <- py_sum lengths ;;
  guard (in_range 1 total 10000) (ValueError (LengthsTotal total)).

(** ** Field normalizer (lines 138-162)

    The validators are callables handed in by the caller, so the function
    is written once for every monad; [None] is an omitted validator. *)

Definition _ensure_scalar_or_list `{Raising m}
    (name : string) (value_ : value) (n : Z)
    (scalar_validator list_item_validator : option (value → string → m unit))
  : m (bool * value)%type :=
  match value_ with
  | VList l =>
      guard (Z.of_nat (length l) =? n) (ValueError (ListLength name n)) ;;;
      match list_item_validator with
      | Some validator =>
          for_each (enumerate l) (λ iv, validator iv.2 (item_name name iv.1))
      | None => ret tt
      end ;;;
      ret (false, value_)
  | _ =>
      match scalar_validator with
      | Some validator => validator value_ name
      | None => ret tt
      end ;;;
      ret (true, value_)
  end.

(** ** Feasibility checker (lines 181-226) *)

(** [range(n)] *)
Definition range (n : Z) : list Z := seqZ 0 n.

(** Lines 211-215 and 222-226: the size of the domain of sequence [i]
    against its length; [err] is the message of the loop at hand. *)
Definition check_domain (err : Z → Z → value → message)
    (L MIN MAX : value) (i : Z) : result unit :=
  hi <- py_getitem MAX i ;;
  lo <- py_getitem MIN i ;;
  d <- py_sub hi lo ;;
  let domain := d + 1 in
  len <- py_getitem L i ;;
  short <- py_int_lt domain len ;;
  guard (negb short) (ValueError (err i domain len)).

Definition _validate_no_replacement_feasible
    (is_uniform : bool) (length min_value max_value replacement : value) (n : Z)
  : result unit :=
  let L := if is_uniform then py_repeat length n else length in
  let MIN := if is_uniform then py_repeat min_value n else min_value in
  let MAX := if is_uniform then py_repeat max_value n else max_value in
  let R := if is_uniform then py_repeat replacement n else replacement in
  if is_bool R then
    if is_True R then Ok tt
    else for_each (range n) (check_domain Infeasible L MIN MAX)
  else
    k <- py_len R ;;
    guard (k =? n) (ValueError ReplacementLength) ;;;
    for_each (range n) (λ i,
      r <- py_getitem R i ;;
      if is_False r then check_domain InfeasibleAt L MIN MAX i else Ok tt).

(** [sep.join(l)] *)
Fixpoint py_join (sep : string) (l : list string) : string :=
  match l with
  | [] => ""
  | [x] => x
  | x :: l' => x +:+ sep +:+ py_join sep l'
  end.

(** [bool(d)] for a dict: empty is false. *)
Definition dict_truthy (d : gmap string value) : bool :=
  negb (Nat.eqb (size d) 0).

(** Lists and dicts cannot be dictionary keys. *)
Definition hashable (v : value) : bool :=
  match v with
  | VList _ | VDict _ => false
  | _ => true
  end.

(** [table.get(key, default)] for a table with integer keys. *)
Definition dict_get (table : gmap Z string) (key : value) (default_ : string)
  : result string :=
  if hashable key then
    Ok (match as_int key with
        | Some z => default default_ (table !! z)
        | None => default_
        end)
  else Raise (TypeError Unhashable).

(** One call made to [_random_org_rpc]. *)
Record rpc_call : Type := RpcCall {
  rpc_method : string;
  rpc_params : gmap string json
}.

(** ** Instances of what the server takes from its environment

    The least table of decimal digits, a stand-in for the interpreter's
    rendering of containers, and a service that is down. *)

Definition ascii_Nd (c : string) : bool :=
  bool_decide (c ∈ ["0"; "1"; "2"; "3"; "4"; "5"; "6"; "7"; "8"; "9"]).

Definition no_container_text (v : value) : string := "".

Definition service_down (log : list rpc_call) : result value :=
  Raise (RuntimeError "").

(** A result of the service: two values, and of the quota fields only the
    bits left. *)
Definition sample_random : gmap string value :=
  {[ "data" := VList [VInt 3; VInt 5] ]}.
Definition sample_result : gmap string value :=
  <[ "bitsLeft" := VInt 1000 ]> {[ "random" := VDict sample_random ]}.

(** A service that answers every call with that result. *)
Definition service_up (log : list rpc_call) : result value :=
  Ok (VDict sample_result).

Section Server.

(** [\d] of Python's [re] on [str] patterns: whether one code point is a
    decimal digit of the interpreter's Unicode tables. *)
Variable unicode_Nd : string → bool.
Hypothesis ascii_digits_Nd :
  ∀ c, c ∈ ["0"; "1"; "2"; "3"; "4"; "5"; "6"; "7"; "8"; "9"] →
       unicode_Nd c = true.

(** [str()] of a list or of a dict, the interpreter's own. *)
Variable str_container : value → string.

(** What [_random_org_rpc] returns or raises (missing key, transport,
    HTTP, parse and JSON-RPC errors), given all calls made so far. *)
Variable remote : list rpc_call → result value.

(** [f"{v}"] *)
Definition py_str (v : value) : string :=
  match v with
  | VNone => "None"
  | VBool true => "True"
  | VBool false => "False"
  | VInt z => pretty z
  | VStr s => s
  | v => str_container v
  end.

(** *** Error mapper (lines 28-56) *)

Definition hint_table : list (Z * string) := [
  (400, "请求参数不合法（400）。请检查 n/length/min/max/base 等是否在文档要求的范围内。");
  (401, "认证失败（401）。请检查 RANDOM_ORG_API_KEY 是否正确、是否已在 .env 中加载。");
  (402, "额度不足（402）。bitsLeft 或 requestsLeft 用尽，请更换/升级 API Key 或稍后再试。");
  (403, "权限受限（403）。可能是 Key 权限不足或被限制来源。");
  (413, "请求过大（413）。请减小 n 或 length 总和，或拆分请求。");
  (429, "请求过于频繁（429）。请按照 advisoryDelay 做退避重试。");
  (503, "服务暂不可用（503）。请稍后重试；可实现指数退避。");
  (-32600, "JSON-RPC 请求格式错误（-32600）。请检查 method/params/id 字段。");
  (-32601, "JSON-RPC 未知方法（-32601）。method 名称是否正确？");
  (-32602, "JSON-RPC 参数非法（-32602）。请检查各字段类型与取值范围。");
  (-32603, "JSON-RPC 内部错误（-32603）。请稍后重试或联系官方支持。")
].

Definition hints : gmap Z string := list_to_map hint_table.

Definition fallback_hint (code : value) (message_ : string) : string :=
  "调用失败（代码：" +:+ py_str code +:+ "）。原始信息：" +:+ message_.

Definition advisory_clause (v : value) : string :=
  "建议等待 " +:+ py_str v +:+ " ms 后再试。".
Definition bits_clause (v : value) : string :=
  "当前 bitsLeft=" +:+ py_str v +:+ "。".
Definition requests_clause (v : value) : string :=
  "当前 requestsLeft=" +:+ py_str v +:+ "。".

(** [if key in data: extra.append(clause(data[key]))] *)
Definition clause_of (data : gmap string value) (key : string)
    (clause : value → string) : list string :=
  match data !! key with
  | Some v => [clause v]
  | None => []
  end.

Definition extra_clauses (data : option (gmap string value)) : list string :=
  match data with
  | Some d =>
      if dict_truthy d then
        clause_of d "advisoryDelay" advisory_clause
        ++ clause_of d "bitsLeft" bits_clause
        ++ clause_of d "requestsLeft" requests_clause
      else []
  | None => []
  end.

Definition _map_random_org_error
    (code : value) (message_ : string) (data : option (gmap string value))
  : result string :=
  base_msg <- dict_get hints code (fallback_hint code message_) ;;
  let extra := extra_clauses data in
  Ok (py_join " " ([base_msg] ++ extra)).

(** *** Randomization-spec validator (lines 98-131) *)

(** [re.fullmatch(r"\d{4}-\d{2}-\d{2}", val)] *)
Definition fullmatch_date (val : string) : bool :=
  match code_points val with
  | [y1; y2; y3; y4; h1; m1; m2; h2; d1; d2] =>
      forallb unicode_Nd [y1; y2; y3; y4] && String.eqb h1 "-"
      && forallb unicode_Nd [m1; m2] && String.eqb h2 "-"
      && forallb unicode_Nd [d1; d2]
  | _ => false
  end.

(** [key in d] *)
Definition has_key (d : gmap string value) (key : string) : bool :=
  bool_decide (is_Some (d !! key)).

Definition _validate_pregenerated_randomization (pgr : value)
  : result (option (gmap string value)) :=
  match pgr with
  | VNone => Ok None
  | VDict d =>
      if has_key d "date" && has_key d "id" then Raise (ValueError PgrBoth)
      else
        match d !! "date" with
        | Some val =>
            match val with
            | VStr s =>
                guard (fullmatch_date s) (ValueError PgrDateFormat) ;;;
                Ok (Some {[ "date" := val ]})
            | _ => Raise (ValueError PgrDateNotStr)
            end
        | None =>
            match d !! "id" with
            | Some val =>
                match val with
                | VStr s =>
                    guard (in_range 1 (str_len s) 64)
                          (ValueError PgrIdLength) ;;;
                    Ok (Some {[ "id" := val ]})
                | _ => Raise (ValueError PgrIdNotStr)
                end
            | None => Raise (ValueError PgrNeither)
            end
        end
  | _ => Raise (ValueError PgrNotObject)
  end.

(** *** RPC client (lines 58-96)

    The call is recorded; what comes back is the service's business. *)

Definition _random_org_rpc (method : string) (params : gmap string json)
  : M (list rpc_call) value :=
  λ log, let log' := log ++ [RpcCall method params] in (remote log', log').

(** [if pgr is not None: params["pregeneratedRandomization"] = pgr] *)
Definition with_pgr (pgr : option (gmap string value))
    (params : gmap string json) : gmap string json :=
  match pgr with
  | Some p => <["pregeneratedRandomization" := JV (VDict p)]> params
  | None => params
  end.

(** [pgr or None] *)
Definition pgr_or_None (pgr : option (gmap string value)) : value :=
  match pgr with
  | Some p => if dict_truthy p then VDict p else VNone
  | None => VNone
  end.

(** [result["random"]["data"]] *)
Definition random_data (result_ : value) : result value :=
  random <- py_getkey result_ "random" ;; py_getkey random "data".

(** The output mapping shared by the tools: the payload under [primary],
    the echoed arguments, the randomization spec and the quota fields. *)
Definition reshape (primary : string) (echoed : list (string * json))
    (pgr : option (gmap string value)) (data_values result_ : value)
  : result (gmap string json) :=
  bitsUsed <- py_get result_ "bitsUsed" ;;
  bitsLeft <- py_get result_ "bitsLeft" ;;
  requestsLeft <- py_get result_ "requestsLeft" ;;
  advisoryDelay <- py_get result_ "advisoryDelay" ;;
  Ok (list_to_map
        ([(primary, JV data_values)] ++ echoed ++
         [("pregeneratedRandomization", JV (pgr_or_None pgr));
          ("bitsUsed", JV bitsUsed);
          ("bitsLeft", JV bitsLeft);
          ("requestsLeft", JV requestsLeft);
          ("advisoryDelay", JV advisoryDelay)])).

(** *** generate_integers (lines 230-286) *)

Definition generate_integers
    (n min_value max_value : Z) (replacement : value) (base : Z)
    (pregeneratedRandomization : value)
  : M (list rpc_call) (gmap string json) :=
  guard (in_range 1 n 10000) (ValueError IntegersN) ;;;
  guard (in_range (-1000000000) min_value 1000000000)
        (ValueError IntegersMin) ;;;
  guard (in_range (-1000000000) max_value 1000000000)
        (ValueError IntegersMax) ;;;
  guard (negb (max_value <? min_value)) (ValueError IntegersMinGtMax) ;;;
  guard (existsb (Z.eqb base) [2; 8; 10; 16]) (ValueError (BadBase "base")) ;;;
  pgr <- lift (_validate_pregenerated_randomization pregeneratedRandomization) ;;
  let params := with_pgr pgr (list_to_map [
    ("n", JV (VInt n)); ("min", JV (VInt min_value));
    ("max", JV (VInt max_value)); ("replacement", JV replacement);
    ("base", JV (VInt base))]) in
  result_ <- _random_org_rpc "generateIntegers" params ;;
  lift (data_values <- random_data result_ ;;
        reshape "values"
          [("base", JV (VInt base)); ("replacement", JV replacement)]
          pgr data_values result_).

(** *** generate_integer_sequences (lines 289-384) *)

(** [_as_list] (lines 332-333) *)
Definition _as_list (n : Z) (val : value) (is_scalar : bool) : value :=
  if is_scalar then py_repeat val n else val.

(** Lines 314-319: the cap on the sum of the lengths; [len] is what the
    normalizer returned for [length], so a scalar has passed the range check
    and [int()] only sees integers and booleans. *)
Definition lengths_total_check (n : Z) (len : bool * value) : result unit :=
  if len.1 then
    match as_int len.2 with
    | Some k =>
        let total := n * k in
        guard (in_range 1 total 10000) (ValueError (LengthsTotal total))
    | None => Raise (TypeError UnsupportedOperand)
    end
  else _validate_lengths_total len.2.

(** Lines 335-339: no sequence may have its minimum above its maximum. *)
Definition min_max_check (n : Z) (mn mx : bool * value) : result unit :=
  mins <- py_iter (_as_list n mn.2 mn.1) ;;
  maxs <- py_iter (_as_list n mx.2 mx.1) ;;
  for_each (enumerate (zip mins maxs)) (λ p,
    gt <- py_gt p.2.1 p.2.2 ;;
    guard (negb gt) (ValueError (SeqMinGtMax p.1 p.2.1 p.2.2))).

Definition int_range_validator {S} (lo hi : Z)
  : option (value → string → M S unit) :=
  Some (λ v nm, lift (_validate_int_range v nm lo hi)).

Definition generate_integer_sequences
    (n : Z) (length min_value max_value replacement base : value)
    (pregeneratedRandomization : value)
  : M (list rpc_call) (gmap string json) :=
  lift (_validate_int_range (VInt n) "n" 1 1000) ;;;
  len <- _ensure_scalar_or_list "length" length n
           (int_range_validator 1 10000) (int_range_validator 1 10000) ;;
  let is_len_scalar := len.1 in
  let length_v := len.2 in
  lift (lengths_total_check n len) ;;;
  mn <- _ensure_scalar_or_list "min" min_value n
          (int_range_validator (-1000000000) 1000000000)
          (int_range_validator (-1000000000) 1000000000) ;;
  let min_v := mn.2 in
  mx <- _ensure_scalar_or_list "max" max_value n
          (int_range_validator (-1000000000) 1000000000)
          (int_range_validator (-1000000000) 1000000000) ;;
  let max_v := mx.2 in
  lift (min_max_check n mn mx) ;;;
  rep <- _ensure_scalar_or_list "replacement" replacement n
           (Some (λ v nm, lift (_validate_bool v nm)))
           (Some (λ v nm, lift (_validate_bool v nm))) ;;
  let rep_v := rep.2 in
  bs <- _ensure_scalar_or_list "base" base n
          (Some (λ v nm, lift (_validate_base v nm)))
          (Some (λ v nm, lift (_validate_base v nm))) ;;
  let base_v := bs.2 in
  pgr <- lift (_validate_pregenerated_randomization pregeneratedRandomization) ;;
  lift (_validate_no_replacement_feasible
          is_len_scalar length_v min_v max_v rep_v n) ;;;
  let params := with_pgr pgr (list_to_map [
    ("n", JV (VInt n)); ("length", JV length_v); ("min", JV min_v);
    ("max", JV max_v); ("replacement", JV rep_v); ("base", JV base_v)]) in
  result_ <- _random_org_rpc "generateIntegerSequences" params ;;
  lift (data_values <- random_data result_ ;;
        reshape "sequences"
          [("base", JV base_v); ("replacement", JV rep_v)]
          pgr data_values result_).

(** *** generate_decimal_fractions (lines 388-429) *)

Definition generate_decimal_fractions
    (n decimalPlaces : Z) (replacement : value)
    (pregeneratedRandomization : value)
  : M (list rpc_call) (gmap string json) :=
  lift (_validate_int_range (VInt n) "n" 1 10000) ;;;
  lift (_validate_int_range (VInt decimalPlaces) "decimalPlaces" 1 14) ;;;
  lift (_validate_bool replacement "replacement") ;;;
  pgr <- lift (_validate_pregenerated_randomization pregeneratedRandomization) ;;
  let params := with_pgr pgr (list_to_map [
    ("n", JV (VInt n)); ("decimalPlaces", JV (VInt decimalPlaces));
    ("replacement", JV replacement)]) in
  result_ <- _random_org_rpc "generateDecimalFractions" params ;;
  lift (data_values <- random_data result_ ;;
        reshape "fractions"
          [("decimalPlaces", JV (VInt decimalPlaces));
           ("replacement", JV replacement)]
          pgr data_values result_).

(** *** generate_gaussians (lines 433-486) *)

(** [-1_000_000 <= x <= 1_000_000] on a float; false on NaN. *)
Definition float_in_range (x : float) : bool :=
  PrimFloat.leb (-1000000)%float x && PrimFloat.leb x 1000000%float.

Definition generate_gaussians
    (n : Z) (mean standardDeviation : float) (significantDigits : Z)
    (pregeneratedRandomization : value)
  : M (list rpc_call) (gmap string json) :=
  lift (_validate_int_range (VInt n) "n" 1 10000) ;;;
  guard (float_in_range mean) (ValueError GaussMean) ;;;
  guard (float_in_range standardDeviation) (ValueError GaussStdDev) ;;;
  lift (_validate_int_range (VInt significantDigits) "significantDigits" 2 14) ;;;
  pgr <- lift (_validate_pregenerated_randomization pregeneratedRandomization) ;;
  let params := with_pgr pgr (list_to_map [
    ("n", JV (VInt n)); ("mean", JFloat mean);
    ("standardDeviation", JFloat standardDeviation);
    ("significantDigits", JV (VInt significantDigits))]) in
  result_ <- _random_org_rpc "generateGaussians" params ;;
  lift (data_values <- random_data result_ ;;
        reshape "values"
          [("mean", JFloat mean);
           ("standardDeviation", JFloat standardDeviation);
           ("significantDigits", JV (VInt significantDigits))]
          pgr data_values result_).

(** *** generate_strings (lines 490-541) *)

(** Lines 511-514: the palette is a string of 1 to 128 characters. *)
Definition characters_check (characters : value) : result unit :=
  match characters with
  | VStr s => guard (in_range 1 (str_len s) 128) (ValueError CharactersLength)
  | _ => Raise (TypeError CharactersNotStr)
  end.

Definition generate_strings
    (n length : Z) (characters replacement : value)
    (pregeneratedRandomization : value)
  : M (list rpc_call) (gmap string json) :=
  lift (_validate_int_range (VInt n) "n" 1 10000) ;;;
  lift (_validate_int_range (VInt length) "length" 1 32) ;;;
  lift (characters_check characters) ;;;
  lift (_validate_bool replacement "replacement") ;;;
  pgr <- lift (_validate_pregenerated_randomization pregeneratedRandomization) ;;
  let params := with_pgr pgr (list_to_map [
    ("n", JV (VInt n)); ("length", JV (VInt length));
    ("characters", JV characters); ("replacement", JV replacement)]) in
  result_ <- _random_org_rpc "generateStrings" params ;;
  lift (data_values <- random_data result_ ;;
        reshape "strings"
          [("length", JV (VInt length)); ("characters", JV characters);
           ("replacement", JV replacement)]
          pgr data_values result_).

(** *** generate_uuids (lines 545-577) *)

Definition generate_uuids (n : Z) (pregeneratedRandomization : value)
  : M (list rpc_call) (gmap string json) :=
  lift (_validate_int_range (VInt n) "n" 1 1000) ;;;
  pgr <- lift (_validate_pregenerated_randomization pregeneratedRandomization) ;;
  let params := with_pgr pgr (list_to_map [("n", JV (VInt n))]) in
  result_ <- _random_org_rpc "generateUUIDs" params ;;
  lift (data_values <- random_data result_ ;;
        reshape "uuids" [] pgr data_values result_).

(** *** generate_blobs (lines 581-632) *)

Definition generate_blobs
    (n size : Z) (format : string) (pregeneratedRandomization : value)
  : M (list rpc_call) (gmap string json) :=
  lift (_validate_int_range (VInt n) "n" 1 100) ;;;
  lift (_validate_int_range (VInt size) "size" 1 1048576) ;;;
  guard (size mod 8 =? 0) (ValueError BlobSizeDiv8) ;;;
  guard (negb (1048576 <? n * size)) (ValueError BlobTotal) ;;;
  guard (existsb (String.eqb format) ["base64"; "hex"])
        (ValueError BlobFormat) ;;;
  pgr <- lift (_validate_pregenerated_randomization pregeneratedRandomization) ;;
  let params := with_pgr pgr (list_to_map [
    ("n", JV (VInt n)); ("size", JV (VInt size));
    ("format", JV (VStr format))]) in
  result_ <- _random_org_rpc "generateBlobs" params ;;
  lift (data_values <- random_data result_ ;;
        reshape "blobs"
          [("size", JV (VInt size)); ("format", JV (VStr format))]
          pgr data_values result_).

(** *** Validation phases

    The statements of each tool that come before its call to
    [_random_org_rpc], as one pure computation: the echoed arguments, the
    validated randomization spec and the parameter mapping of the call. *)

Definition request : Type :=
  (list (string * json) * option (gmap string value) * gmap string json)%type.

(** A tool whose validation is [req]: the call, then the output mapping. *)
Definition call_and_reshape (method primary : string) (req : result request)
  : M (list rpc_call) (gmap string json) :=
  r <- lift req ;;
  result_ <- _random_org_rpc method r.2 ;;
  lift (data_values <- random_data result_ ;;
        reshape primary r.1.1 r.1.2 data_values result_).

Definition integers_request
    (n min_value max_value : Z) (replacement : value) (base : Z)
    (pregeneratedRandomization : value) : result request :=
  guard (in_range 1 n 10000) (ValueError IntegersN) ;;;
  guard (in_range (-1000000000) min_value 1000000000)
        (ValueError IntegersMin) ;;;
  guard (in_range (-1000000000) max_value 1000000000)
        (ValueError IntegersMax) ;;;
  guard (negb (max_value <? min_value)) (ValueError IntegersMinGtMax) ;;;
  guard (existsb (Z.eqb base) [2; 8; 10; 16]) (ValueError (BadBase "base")) ;;;
  pgr <- _validate_pregenerated_randomization pregeneratedRandomization ;;
  Ok ([("base", JV (VInt base)); ("replacement", JV replacement)], pgr,
      with_pgr pgr (list_to_map [
        ("n", JV (VInt n)); ("min", JV (VInt min_value));
        ("max", JV (VInt max_value)); ("replacement", JV replacement);
        ("base", JV (VInt base))])).

Definition int_range_check (lo hi : Z)
  : option (value → string → result unit) :=
  Some (λ v nm, _validate_int_range v nm lo hi).

Definition sequences_request
    (n : Z) (length min_value max_value replacement base : value)
    (pregeneratedRandomization : value) : result request :=
  _validate_int_range (VInt n) "n" 1 1000 ;;;
  len <- _ensure_scalar_or_list "length" length n
           (int_range_check 1 10000) (int_range_check 1 10000) ;;
  lengths_total_check n len ;;;
  mn <- _ensure_scalar_or_list "min" min_value n
          (int_range_check (-1000000000) 1000000000)
          (int_range_check (-1000000000) 1000000000) ;;
  mx <- _ensure_scalar_or_list "max" max_value n
          (int_range_check (-1000000000) 1000000000)
          (int_range_check (-1000000000) 1000000000) ;;
  min_max_check n mn mx ;;;
  rep <- _ensure_scalar_or_list "replacement" replacement n
           (Some _validate_bool) (Some _validate_bool) ;;
  bs <- _ensure_scalar_or_list "base" base n
          (Some _validate_base) (Some _validate_base) ;;
  pgr <- _validate_pregenerated_randomization pregeneratedRandomization ;;
  _validate_no_replacement_feasible len.1 len.2 mn.2 mx.2 rep.2 n ;;;
  Ok ([("base", JV bs.2); ("replacement", JV rep.2)], pgr,
      with_pgr pgr (list_to_map [
        ("n", JV (VInt n)); ("length", JV len.2); ("min", JV mn.2);
        ("max", JV mx.2); ("replacement", JV rep.2); ("base", JV bs.2)])).

Definition decimal_fractions_request
    (n decimalPlaces : Z) (replacement : value)
    (pregeneratedRandomization : value) : result request :=
  _validate_int_range (VInt n) "n" 1 10000 ;;;
  _validate_int_range (VInt decimalPlaces) "decimalPlaces" 1 14 ;;;
  _validate_bool replacement "replacement" ;;;
  pgr <- _validate_pregenerated_randomization pregeneratedRandomization ;;
  Ok ([("decimalPlaces", JV (VInt decimalPlaces));
       ("replacement", JV replacement)], pgr,
      with_pgr pgr (list_to_map [
        ("n", JV (VInt n)); ("decimalPlaces", JV (VInt decimalPlaces));
        ("replacement", JV replacement)])).

Definition gaussians_request
    (n : Z) (mean standardDeviation : float) (significantDigits : Z)
    (pregeneratedRandomization : value) : result request :=
  _validate_int_range (VInt n) "n" 1 10000 ;;;
  guard (float_in_range mean) (ValueError GaussMean) ;;;
  guard (float_in_range standardDeviation) (ValueError GaussStdDev) ;;;
  _validate_int_range (VInt significantDigits) "significantDigits" 2 14 ;;;
  pgr <- _validate_pregenerated_randomization pregeneratedRandomization ;;
  Ok ([("mean", JFloat mean);
       ("standardDeviation", JFloat standardDeviation);
       ("significantDigits", JV (VInt significantDigits))], pgr,
      with_pgr pgr (list_to_map [
        ("n", JV (VInt n)); ("mean", JFloat mean);
        ("standardDeviation", JFloat standardDeviation);
        ("significantDigits", JV (VInt significantDigits))])).

Definition strings_request
    (n length : Z) (characters replacement : value)
    (pregeneratedRandomization : value) : result request :=
  _validate_int_range (VInt n) "n" 1 10000 ;;;
  _validate_int_range (VInt length) "length" 1 32 ;;;
  characters_check characters ;;;
  _validate_bool replacement "replacement" ;;;
  pgr <- _validate_pregenerated_randomization pregeneratedRandomization ;;
  Ok ([("length", JV (VInt length)); ("characters", JV characters);
       ("replacement", JV replacement)], pgr,
      with_pgr pgr (list_to_map [
        ("n", JV (VInt n)); ("length", JV (VInt length));
        ("characters", JV characters); ("replacement", JV replacement)])).

Definition uuids_request (n : Z) (pregeneratedRandomization : value)
  : result request :=
  _validate_int_range (VInt n) "n" 1 1000 ;;;
  pgr <- _validate_pregenerated_randomization pregeneratedRandomization ;;
  Ok ([], pgr, with_pgr pgr (list_to_map [("n", JV (VInt n))])).

Definition blobs_request
    (n size : Z) (format : string) (pregeneratedRandomization : value)
  : result request :=
  _validate_int_range (VInt n) "n" 1 100 ;;;
  _validate_int_range (VInt size) "size" 1 1048576 ;;;
  guard (size mod 8 =? 0) (ValueError BlobSizeDiv8) ;;;
  guard (negb (1048576 <? n * size)) (ValueError BlobTotal) ;;;
  guard (existsb (String.eqb format) ["base64"; "hex"])
        (ValueError BlobFormat) ;;;
  pgr <- _validate_pregenerated_randomization pregeneratedRandomization ;;
  Ok ([("size", JV (VInt size)); ("format", JV (VStr format))], pgr,
      with_pgr pgr (list_to_map [
        ("n", JV (VInt n)); ("size", JV (VInt size));
        ("format", JV (VStr format))])).

(** *** Notions the statements use *)

(** The two messages of the feasibility checker: the infeasible-sampling
    errors. *)
Definition infeasible (e : exn) : bool :=
  match e with
  | ValueError (Infeasible _ _ _) | ValueError (InfeasibleAt _ _ _) => true
  | _ => false
  end.

(** The sum of per-sequence lengths given as integers. *)
Definition sum_of (ks : list Z) : Z := foldr Z.add 0 ks.

(** [s * n] on a [str]. *)
Fixpoint string_times (s : string) (n : nat) : string :=
  match n with
  | O => ""
  | S n' => s +:+ string_times s n'
  end.

(** Whether [needle] occurs in [hay]: Python's [needle in hay]. *)
Fixpoint contains (needle hay : string) : bool :=
  String.prefix needle hay
  || match hay with
     | EmptyString => false
     | String _ hay' => contains needle hay'
     end.

(** The two ways a run of a tool from [log] can stand: ended in an
    exception with no call made, or one call made to [method]. *)
Definition failed_fast {A} (run : result A * list rpc_call)
    (log : list rpc_call) : Prop :=
  ∃ e, run = (Raise e, log).

Definition made_call {A} (run : result A * list rpc_call)
    (log : list rpc_call) (method : string) : Prop :=
  ∃ params, run.2 = log ++ [RpcCall method params].

(** *** The RPC client down to the wire (lines 58-96)

    [_random_org_rpc] above records the call and leaves the answer to
    [remote].  What follows is the body of the function: the key taken
    from the environment, the payload, the one HTTP exchange and the
    treatment of what comes back.  The state is the list of requests
    posted. *)

(** [bool(v)] *)
Definition truthy (v : value) : bool :=
  match v with
  | VNone => false
  | VBool b => b
  | VInt z => negb (z =? 0)
  | VStr s => negb (String.eqb s "")
  | VList l => match l with [] => false | _ => true end
  | VDict d => dict_truthy d
  end.

(** [key in v] for a string [key]: a key of a dict, an item of a list, a
    substring of a string. *)
Definition py_in (key : string) (v : value) : result bool :=
  match v with
  | VDict d => Ok (has_key d key)
  | VList l =>
      Ok (existsb (λ x, match x with
                        | VStr s => String.eqb s key
                        | _ => false
                        end) l)
  | VStr s => Ok (contains key s)
  | _ => Raise (TypeError NotIterable)
  end.

(** [v.get(k, d)] *)
Definition py_get_or (v : value) (k : string) (default_ : value)
  : result value :=
  match v with
  | VDict d => Ok (default default_ (d !! k))
  | _ => Raise AttributeError
  end.

(** Lines 12-13. *)
Definition RANDOM_ORG_ENDPOINT : string :=
  "https://api.random.org/json-rpc/4/invoke".
Definition API_KEY_ENV : string := "RANDOM_ORG_API_KEY".

(** The texts of lines 62, 83 and 86. *)
Definition missing_key_text : string :=
  "未检测到 API Key。请在项目根目录的 .env 中设置 " +:+ API_KEY_ENV
  +:+ "=你的密钥，并确保已 load_dotenv()。".
Definition network_text : string :=
  "网络请求失败：无法连接到 Random.org。请检查本机网络与防火墙。".
Definition parse_text : string :=
  "响应解析失败：收到的不是合法的 JSON。".

(** Lines 65-70. *)
Record payload : Type := Payload {
  payload_jsonrpc : string;
  payload_method : string;
  payload_params : gmap string json;
  payload_id : Z
}.

(** One [client.post(url, json=payload)]. *)
Record posted : Type := Posted {
  posted_url : string;
  posted_json : payload
}.

(** What the [try] block of lines 72-76 comes to: one of the three
    exceptions the function handles, or the decoded body. *)
Inductive exchange : Type :=
| HTTPStatusError (status_code : Z) (text : string)
| RequestError
| JSONDecodeError
| Decoded (data : value).

(** What the function reads from outside: the process environment, the
    clock in milliseconds and the network. *)
Record environment : Type := Environment {
  environ : gmap string string;
  clock_ms : Z;
  network : posted → exchange
}.

(** Lines 90-93: the text for the error object [err].  The message goes
    into the mapper's f-string, so it is passed as its [str()]. *)
Definition friendly_of (err : value) : result string :=
  code <- py_get err "code" ;;
  msg <- py_get_or err "message" (VStr "") ;;
  err_data <- py_get_or err "data" (VDict ∅) ;;
  _map_random_org_error code (py_str msg)
    (match err_data with VDict d => Some d | _ => None end).

(** [if "error" in data and data["error"]] (line 88) *)
Definition has_error (data : value) : result bool :=
  match py_in "error" data with
  | Ok true =>
      match py_getkey data "error" with
      | Ok e => Ok (truthy e)
      | Raise e => Raise e
      end
  | Ok false => Ok false
  | Raise e => Raise e
  end.

(** Lines 88-96, on the decoded body. *)
Definition rpc_response (data : value) : result value :=
  failed <- has_error data ;;
  if failed : bool then
    err <- py_getkey data "error" ;;
    friendly <- friendly_of err ;;
    Raise (RuntimeError friendly)
  else py_getkey data "result".

(** Lines 77-86 and on. *)
Definition rpc_exchange (outcome : exchange) : result value :=
  match outcome with
  | HTTPStatusError status_code text =>
      friendly <- _map_random_org_error (VInt status_code) text None ;;
      Raise (RuntimeError friendly)
  | RequestError => Raise (RuntimeError network_text)
  | JSONDecodeError => Raise (RuntimeError parse_text)
  | Decoded data => rpc_response data
  end.

(** [{"apiKey": api_key, **params}]: an entry of [params] under the same
    key comes later and wins. *)
Definition keyed_params (api_key : string) (params : gmap string json)
  : gmap string json :=
  params ∪ {[ "apiKey" := JV (VStr api_key) ]}.

Definition _random_org_rpc_wire
    (env : environment) (method : string) (params : gmap string json)
  : M (list posted) value :=
  match environ env !! API_KEY_ENV with
  | Some api_key =>
      if String.eqb api_key "" then raise (RuntimeError missing_key_text)
      else
        let sent := Posted RANDOM_ORG_ENDPOINT
                      (Payload "2.0" method (keyed_params api_key params)
                         (clock_ms env)) in
        λ wire, (rpc_exchange (network env sent), wire ++ [sent])
  | None => raise (RuntimeError missing_key_text)
  end.

(** *** get_usage (lines 636-641) *)

Definition get_usage : M (list rpc_call) value :=
  _random_org_rpc "getUsage" ∅.

(** *** The catalogue of examples (lines 659-818)

    The dict that [examples_resource] serializes: for each tool, in the
    order of the source, its examples, each a title and the arguments of a
    call by keyword. *)

Record example : Type := Example {
  title : string;
  arguments : list (string * json)
}.

Definition examples : list (string * list example) := [
  ("generate_blobs", [
     Example "基本示例：生成 2 个，每个 256 位（32 字节），默认 base64"
       [("n", JV (VInt 2)); ("size", JV (VInt 256))];
     Example "Hex 编码的随机 BLOB"
       [("n", JV (VInt 1)); ("size", JV (VInt 512));
        ("format", JV (VStr "hex"))];
     Example "历史随机化（按日期可重放）"
       [("n", JV (VInt 3)); ("size", JV (VInt 128));
        ("pregeneratedRandomization",
         JV (VDict {[ "date" := VStr "2024-06-01" ]}))];
     Example "历史随机化（自定义 ID 可共享）"
       [("n", JV (VInt 1)); ("size", JV (VInt 1024));
        ("pregeneratedRandomization",
         JV (VDict {[ "id" := VStr "PUBLIC-BLOBS-DEMO" ]}))]]);
  ("generate_uuids", [
     Example "基本示例：生成 5 个 UUIDv4"
       [("n", JV (VInt 5))];
     Example "历史随机化（按日期可重放）"
       [("n", JV (VInt 3));
        ("pregeneratedRandomization",
         JV (VDict {[ "date" := VStr "2024-06-01" ]}))];
     Example "历史随机化（自定义 ID 可共享）"
       [("n", JV (VInt 3));
        ("pregeneratedRandomization",
         JV (VDict {[ "id" := VStr "PUBLIC-UUIDS-DEMO" ]}))]]);
  ("generate_strings", [
     Example "基本示例：长度 12，可重复，从字母数字集中采样"
       [("n", JV (VInt 5)); ("length", JV (VInt 12));
        ("characters",
         JV (VStr
           "ABCDEFGHIJKLMNOPQRSTUVWXYZabcdefghijklmnopqrstuvwxyz0123456789"))];
     Example "不可重复（如抽奖券场景）"
       [("n", JV (VInt 10)); ("length", JV (VInt 8));
        ("characters", JV (VStr "ABCDEFGHJKLMNPQRSTUVWXYZ23456789"));
        ("replacement", JV (VBool false))];
     Example "历史随机化（按日期可重放）"
       [("n", JV (VInt 3)); ("length", JV (VInt 16));
        ("characters", JV (VStr "abcdef0123456789"));
        ("pregeneratedRandomization",
         JV (VDict {[ "date" := VStr "2024-06-01" ]}))];
     Example "历史随机化（自定义 ID 可共享）"
       [("n", JV (VInt 3)); ("length", JV (VInt 20));
        ("characters", JV (VStr "ABCDEFGHIJKLMNOPQRSTUVWXYZ"));
        ("pregeneratedRandomization",
         JV (VDict {[ "id" := VStr "PUBLIC-STRINGS-DEMO" ]}))]]);
  ("generate_gaussians", [
     Example "基本示例：N(0, 1) ，保留 6 位有效数字"
       [("n", JV (VInt 5)); ("mean", JV (VInt 0));
        ("standardDeviation", JV (VInt 1));
        ("significantDigits", JV (VInt 6))];
     Example "自定义均值/方差，历史随机化（按日期可重放）"
       [("n", JV (VInt 10)); ("mean", JFloat 100.5);
        ("standardDeviation", JV (VInt 20));
        ("significantDigits", JV (VInt 8));
        ("pregeneratedRandomization",
         JV (VDict {[ "date" := VStr "2024-06-01" ]}))];
     Example "历史随机化（自定义 ID 可共享）"
       [("n", JV (VInt 3)); ("mean", JFloat (-3.2));
        ("standardDeviation", JFloat 0.75);
        ("significantDigits", JV (VInt 10));
        ("pregeneratedRandomization",
         JV (VDict {[ "id" := VStr "PUBLIC-GAUSS-DEMO" ]}))]]);
  ("generate_decimal_fractions", [
     Example "基本示例（4 位小数，可重复）"
       [("n", JV (VInt 5)); ("decimalPlaces", JV (VInt 4))];
     Example "不可重复（相同小数不会重复出现）"
       [("n", JV (VInt 10)); ("decimalPlaces", JV (VInt 6));
        ("replacement", JV (VBool false))];
     Example "历史随机化（按日期可重放）"
       [("n", JV (VInt 3)); ("decimalPlaces", JV (VInt 8));
        ("pregeneratedRandomization",
         JV (VDict {[ "date" := VStr "2024-06-01" ]}))];
     Example "历史随机化（自定义 ID 可共享）"
       [("n", JV (VInt 3)); ("decimalPlaces", JV (VInt 8));
        ("pregeneratedRandomization",
         JV (VDict {[ "id" := VStr "PUBLIC-FRACTION-DEMO" ]}))]]);
  ("generate_integers", [
     Example "基本示例（十进制，可重复）"
       [("n", JV (VInt 5)); ("min_value", JV (VInt 1));
        ("max_value", JV (VInt 6))];
     Example "十六进制、不可重复"
       [("n", JV (VInt 8)); ("min_value", JV (VInt 0));
        ("max_value", JV (VInt 255)); ("replacement", JV (VBool false));
        ("base", JV (VInt 16))];
     Example "历史随机化（按日期可重放）"
       [("n", JV (VInt 4)); ("min_value", JV (VInt 1));
        ("max_value", JV (VInt 100));
        ("pregeneratedRandomization",
         JV (VDict {[ "date" := VStr "2024-01-01" ]}))];
     Example "历史随机化（自定义 ID 可共享）"
       [("n", JV (VInt 4)); ("min_value", JV (VInt 1));
        ("max_value", JV (VInt 100));
        ("pregeneratedRandomization",
         JV (VDict {[ "id" := VStr "PUBLIC-DRAW-EXAMPLE" ]}))]]);
  ("generate_integer_sequences", [
     Example "Uniform：3 组 × 5 个，范围 1..6"
       [("n", JV (VInt 3)); ("length", JV (VInt 5));
        ("min_value", JV (VInt 1)); ("max_value", JV (VInt 6));
        ("replacement", JV (VBool true)); ("base", JV (VInt 10))];
     Example "Multiform：每组不同参数"
       [("n", JV (VInt 3));
        ("length", JV (VList [VInt 4; VInt 6; VInt 3]));
        ("min_value", JV (VList [VInt 0; VInt 100; VInt (-5)]));
        ("max_value", JV (VList [VInt 7; VInt 105; VInt 5]));
        ("replacement", JV (VList [VBool false; VBool true; VBool false]));
        ("base", JV (VList [VInt 2; VInt 10; VInt 16]))];
     Example "Multiform + 历史随机化（ID）"
       [("n", JV (VInt 2));
        ("length", JV (VList [VInt 3; VInt 3]));
        ("min_value", JV (VList [VInt 1; VInt 50]));
        ("max_value", JV (VList [VInt 10; VInt 60]));
        ("replacement", JV (VList [VBool false; VBool true]));
        ("base", JV (VList [VInt 10; VInt 10]));
        ("pregeneratedRandomization",
         JV (VDict {[ "id" := VStr "PUBLIC-DRAW-2025-08-19" ]}))]])
].

(** *** Calls by keyword

    A tool called with [arguments] as its keyword arguments, up to the
    call of the service.  First every parameter takes the argument of its
    name, or the default of the signature; [None] stands for a call that
    never enters the body (a parameter without argument and without
    default, an argument no parameter takes) or whose arguments are not of
    the types the embedding gives the tool.  Then the validation phase of
    the tool runs on them.  An integer given for a float parameter is
    taken at its float value. *)

Definition as_Z (j : json) : option Z :=
  match j with JV (VInt z) => Some z | _ => None end.

Definition as_value (j : json) : option value :=
  match j with JV v => Some v | _ => None end.

Definition as_str (j : json) : option string :=
  match j with JV (VStr s) => Some s | _ => None end.

Definition float_of_int (z : Z) : float :=
  if z <? 0 then PrimFloat.opp (PrimFloat.of_uint63 (Uint63.of_Z (- z)))
  else PrimFloat.of_uint63 (Uint63.of_Z z).

Definition as_float (j : json) : option float :=
  match j with
  | JFloat x => Some x
  | JV (VInt z) =>
      if Z.abs z <=? 9007199254740992 then Some (float_of_int z) else None
  | _ => None
  end.

(** The argument of a parameter with a default. *)
Definition keyword (args : gmap string json) (name : string) (default_ : json)
  : json :=
  default default_ (args !! name).

(** Every argument is taken by one of the parameters [names]. *)
Definition only_keywords (arguments : list (string * json))
    (names : list string) : bool :=
  forallb (λ kv, bool_decide (kv.1 ∈ names)) arguments.

(** A tool with its parameters bound. *)
Inductive call : Type :=
| CallIntegers (n min_value max_value : Z) (replacement : value) (base : Z)
    (pregeneratedRandomization : value)
| CallSequences (n : Z) (length min_value max_value replacement base : value)
    (pregeneratedRandomization : value)
| CallDecimalFractions (n decimalPlaces : Z) (replacement : value)
    (pregeneratedRandomization : value)
| CallGaussians (n : Z) (mean standardDeviation : float)
    (significantDigits : Z) (pregeneratedRandomization : value)
| CallStrings (n length : Z) (characters replacement : value)
    (pregeneratedRandomization : value)
| CallUUIDs (n : Z) (pregeneratedRandomization : value)
| CallBlobs (n size : Z) (format : string)
    (pregeneratedRandomization : value).

(** The signatures of lines 230-237, 289-297, 388-393, 433-439, 490-496,
    545-548 and 581-586, with their defaults. *)
Definition bind_arguments (tool : string) (arguments : list (string * json))
  : option call :=
  let args : gmap string json := list_to_map arguments in
  let pgr := as_value (keyword args "pregeneratedRandomization" (JV VNone)) in
  if String.eqb tool "generate_integers" then
    if only_keywords arguments
         ["n"; "min_value"; "max_value"; "replacement"; "base";
          "pregeneratedRandomization"]
    then
      n ← args !! "n" ≫= as_Z;
      mn ← args !! "min_value" ≫= as_Z;
      mx ← args !! "max_value" ≫= as_Z;
      rep ← as_value (keyword args "replacement" (JV (VBool true)));
      base ← as_Z (keyword args "base" (JV (VInt 10)));
      p ← pgr;
      Some (CallIntegers n mn mx rep base p)
    else None
  else if String.eqb tool "generate_integer_sequences" then
    if only_keywords arguments
         ["n"; "length"; "min_value"; "max_value"; "replacement"; "base";
          "pregeneratedRandomization"]
    then
      n ← args !! "n" ≫= as_Z;
      len ← args !! "length" ≫= as_value;
      mn ← args !! "min_value" ≫= as_value;
      mx ← args !! "max_value" ≫= as_value;
      rep ← as_value (keyword args "replacement" (JV (VBool true)));
      base ← as_value (keyword args "base" (JV (VInt 10)));
      p ← pgr;
      Some (CallSequences n len mn mx rep base p)
    else None
  else if String.eqb tool "generate_decimal_fractions" then
    if only_keywords arguments
         ["n"; "decimalPlaces"; "replacement"; "pregeneratedRandomization"]
    then
      n ← args !! "n" ≫= as_Z;
      places ← args !! "decimalPlaces" ≫= as_Z;
      rep ← as_value (keyword args "replacement" (JV (VBool true)));
      p ← pgr;
      Some (CallDecimalFractions n places rep p)
    else None
  else if String.eqb tool "generate_gaussians" then
    if only_keywords arguments
         ["n"; "mean"; "standardDeviation"; "significantDigits";
          "pregeneratedRandomization"]
    then
      n ← args !! "n" ≫= as_Z;
      mean ← args !! "mean" ≫= as_float;
      sd ← args !! "standardDeviation" ≫= as_float;
      digits ← args !! "significantDigits" ≫= as_Z;
      p ← pgr;
      Some (CallGaussians n mean sd digits p)
    else None
  else if String.eqb tool "generate_strings" then
    if only_keywords arguments
         ["n"; "length"; "characters"; "replacement";
          "pregeneratedRandomization"]
    then
      n ← args !! "n" ≫= as_Z;
      len ← args !! "length" ≫= as_Z;
      chars ← args !! "characters" ≫= as_value;
      rep ← as_value (keyword args "replacement" (JV (VBool true)));
      p ← pgr;
      Some (CallStrings n len chars rep p)
    else None
  else if String.eqb tool "generate_uuids" then
    if only_keywords arguments ["n"; "pregeneratedRandomization"]
    then
      n ← args !! "n" ≫= as_Z;
      p ← pgr;
      Some (CallUUIDs n p)
    else None
  else if String.eqb tool "generate_blobs" then
    if only_keywords arguments
         ["n"; "size"; "format"; "pregeneratedRandomization"]
    then
      n ← args !! "n" ≫= as_Z;
      size ← args !! "size" ≫= as_Z;
      format ← as_str (keyword args "format" (JV (VStr "base64")));
      p ← pgr;
      Some (CallBlobs n size format p)
    else None
  else None.

(** The validation phase of a bound call. *)
Definition validation_of (c : call) : result request :=
  match c with
  | CallIntegers n mn mx rep base p => integers_request n mn mx rep base p
  | CallSequences n len mn mx rep base p =>
      sequences_request n len mn mx rep base p
  | CallDecimalFractions n places rep p =>
      decimal_fractions_request n places rep p
  | CallGaussians n mean sd digits p => gaussians_request n mean sd digits p
  | CallStrings n len chars rep p => strings_request n len chars rep p
  | CallUUIDs n p => uuids_request n p
  | CallBlobs n size format p => blobs_request n size format p
  end.

Definition keyword_call (tool : string) (arguments : list (string * json))
  : option (result request) :=
  validation_of <$> bind_arguments tool arguments.

(** *** Notions of the statements about the client and the fields *)

(** [remote] answers the call made from [log] as the client does in [env]
    with [wire] already posted. *)
Definition served_from (env : environment) (wire : list posted)
    (log : list rpc_call) : Prop :=
  ∀ method params,
    remote (log ++ [RpcCall method params])
    = (_random_org_rpc_wire env method params wire).1.

(** What a tool hands back from the result [res] of the service: the
    payload [data] under [primary], the echoed arguments, the
    randomization spec as validated, and the four quota fields, each the
    entry of [res] or [None]; and no other key. *)
Definition handed_back (out : gmap string json) (primary : string)
    (echoed : list (string * json)) (spec : option (gmap string value))
    (res : gmap string value) (data : value) : Prop :=
  out !! primary = Some (JV data)
  ∧ (∀ k v, (k, v) ∈ echoed → out !! k = Some v)
  ∧ out !! "pregeneratedRandomization"
    = Some (JV (match spec with Some d => VDict d | None => VNone end))
  ∧ (∀ k, k ∈ ["bitsUsed"; "bitsLeft"; "requestsLeft"; "advisoryDelay"] →
       out !! k = Some (JV (default VNone (res !! k))))
  ∧ (∀ k, is_Some (out !! k) →
       k ∈ primary :: echoed.*1
           ++ ["pregeneratedRandomization"; "bitsUsed"; "bitsLeft";
               "requestsLeft"; "advisoryDelay"]).

(** The values a field gives to the [n] sequences, in order: the items
    of a list, or [n] times the scalar, as [_as_list] has it. *)
Definition per_sequence (n : Z) (v : value) : list value :=
  match v with
  | VList l => l
  | _ => replicate (Z.to_nat n) v
  end.

(** The exceptions a validation step raises on purpose or through the
    interpreter: [ValueError] and [TypeError]. *)
Definition is_validation_error (e : exn) : bool :=
  match e with
  | ValueError _ | TypeError _ => true
  | _ => false
  end.

(** What the numbers in a message say, read as a statement: the total
    reported is over the cap, the value reported is outside the range
    reported, the minimum reported is above the maximum reported, the
    domain reported is smaller than the length reported. *)
Definition report_holds (e : exn) : Prop :=
  match e with
  | ValueError (LengthsTotal total) => 10000 < total
  | ValueError (OutOfRange _ lo hi val) =>
      ∃ z, as_int val = Some z ∧ ¬ lo <= z <= hi
  | ValueError (SeqMinGtMax _ mn mx) =>
      ∃ x y, as_int mn = Some x ∧ as_int mx = Some y ∧ y < x
  | ValueError (Infeasible _ domain len)
  | ValueError (InfeasibleAt _ domain len) =>
      ∃ k, as_int len = Some k ∧ domain < k
  | _ => True
  end.

(** An exception of validation with a true report. *)
Definition sound_error (e : exn) : Prop :=
  is_validation_error e = true ∧ report_holds e.

(** The ten ASCII digits. *)
Definition ascii_digit (c : ascii) : bool :=
  let b := Z.of_nat (nat_of_ascii c) in (48 <=? b) && (b <=? 57).

(** ** Properties *)

(** *** Loops and lifting *)

Lemma for_each_ok {A} (xs : list A) (body : A → result unit) :
  (∀ x, x ∈ xs → body x = Ok tt) → for_each xs body = Ok tt.
Proof.
  induction xs as [|x xs IH]; intros Hall; [reflexivity|].
  simpl. rewrite (Hall x) by apply list_elem_of_here.
  apply IH. intros y Hy. apply Hall. by apply list_elem_of_further.
Qed.

Lemma for_each_ext {A} (xs : list A) (f g : A → result unit) :
  (∀ x, x ∈ xs → f x = g x) → for_each xs f = for_each xs g.
Proof.
  induction xs as [|x xs IH]; intros Heq; [reflexivity|].
  simpl. rewrite (Heq x) by apply list_elem_of_here.
  rewrite IH; [reflexivity|].
  intros y Hy. apply Heq. by apply list_elem_of_further.
Qed.

Lemma for_each_lift {S A} (xs : list A) (body : A → result unit) (s : S) :
  for_each xs (λ x, lift (body x)) s = (for_each xs body, s).
Proof.
  induction xs as [|x xs IH]; [reflexivity|].
  simpl. unfold lift at 1. destruct (body x) as [[]|e]; [apply IH|reflexivity].
Qed.

(** With validators that are pure functions, the normalizer leaves the
    state alone and computes what its pure instance computes. *)
Lemma ensure_lift {S} name v n (sv lv : value → string → result unit) (s : S) :
  _ensure_scalar_or_list name v n
    (Some (λ x nm, lift (sv x nm))) (Some (λ x nm, lift (lv x nm))) s
  = (_ensure_scalar_or_list name v n (Some sv) (Some lv), s).
Proof.
  destruct v; simpl;
    try (unfold lift; destruct (sv _ name) as [[]|e]; reflexivity).
  destruct (Z.of_nat (length l) =? n); simpl; [|reflexivity].
  rewrite (for_each_lift (enumerate l) (λ iv, lv iv.2 (item_name name iv.1))).
  destruct (for_each _ _) as [[]|e]; reflexivity.
Qed.

Lemma ensure_scalar name v n (sv lv : value → string → result unit) :
  is_list v = false →
  _ensure_scalar_or_list name v n (Some sv) (Some lv)
  = (sv v name ;;; Ok (true, v)).
Proof. by destruct v. Qed.

(** *** Subscripts of replicated and of plain lists *)

Lemma getitem_list l (i : nat) v :
  l !! i = Some v → py_getitem (VList l) (Z.of_nat i) = Ok v.
Proof.
  intros Hl. unfold py_getitem, list_index.
  assert ((Z.of_nat i <? 0) = false) as Hneg by (apply Z.ltb_ge; lia).
  rewrite !Hneg, Nat2Z.id, Hl. reflexivity.
Qed.

Lemma getitem_repeat v n i :
  0 <= i < n → py_getitem (py_repeat v n) i = Ok v.
Proof.
  intros Hi. unfold py_repeat.
  rewrite <- (Z2Nat.id i) by lia. apply getitem_list.
  apply lookup_replicate_2. lia.
Qed.

Lemma len_repeat v n : 0 <= n → py_len (py_repeat v n) = Ok n.
Proof.
  intros Hn. unfold py_repeat, py_len. rewrite length_replicate.
  f_equal. lia.
Qed.

Lemma elem_of_range i n : i ∈ range n ↔ 0 <= i < n.
Proof. unfold range. rewrite elem_of_seqZ. lia. Qed.

Lemma range_cons n : 0 < n → range n = 0 :: seqZ 1 (n - 1).
Proof.
  intros Hn. unfold range. rewrite seqZ_cons by lia.
  f_equal.
Qed.

(** *** Feasibility checker *)

Lemma check_domain_ints err (L MIN MAX : value) i (hi lo len : Z) :
  py_getitem MAX i = Ok (VInt hi) →
  py_getitem MIN i = Ok (VInt lo) →
  py_getitem L i = Ok (VInt len) →
  check_domain err L MIN MAX i
  = (if hi - lo + 1 <? len
     then Raise (ValueError (err i (hi - lo + 1) (VInt len)))
     else Ok tt).
Proof.
  intros HMAX HMIN HL. unfold check_domain.
  rewrite HMAX, HMIN, HL. simpl.
  destruct (hi - lo + 1 <? len); reflexivity.
Qed.

(** In uniform form [R] is a list of [n] copies of the replacement
    argument, so the checker takes the per-sequence branch and tests the
    one argument against [False] at every index. *)
Lemma feasible_uniform_unfold length min_value max_value replacement n :
  0 <= n →
  _validate_no_replacement_feasible true
    length min_value max_value replacement n
  = for_each (range n) (λ i,
      if is_False replacement
      then check_domain InfeasibleAt (py_repeat length n)
             (py_repeat min_value n) (py_repeat max_value n) i
      else Ok tt).
Proof.
  intros Hn. unfold _validate_no_replacement_feasible.
  change (is_bool (py_repeat replacement n)) with false. cbv iota.
  rewrite len_repeat by lia. cbn [bind result_raising].
  rewrite Z.eqb_refl. cbn [guard ret result_raising].
  apply for_each_ext. intros i Hi%elem_of_range.
  rewrite getitem_repeat by lia. reflexivity.
Qed.

(** Uniform form, every field a scalar integer and replacement [False]:
    the check fails exactly when the domain is smaller than the length. *)
Lemma feasible_uniform_false n len lo hi :
  1 <= n →
  _validate_no_replacement_feasible true
    (VInt len) (VInt lo) (VInt hi) (VBool false) n
  = (if hi - lo + 1 <? len
     then Raise (ValueError (InfeasibleAt 0 (hi - lo + 1) (VInt len)))
     else Ok tt).
Proof.
  intros Hn. rewrite feasible_uniform_unfold by lia.
  cbn [is_False].
  destruct (hi - lo + 1 <? len) eqn:Hshort.
  - rewrite range_cons by lia. cbn [for_each].
    rewrite (check_domain_ints _ _ _ _ 0 hi lo len)
      by (apply getitem_repeat; lia).
    rewrite Hshort. reflexivity.
  - apply for_each_ok. intros i Hi%elem_of_range.
    rewrite (check_domain_ints _ _ _ _ i hi lo len)
      by (apply getitem_repeat; lia).
    rewrite Hshort. reflexivity.
Qed.

Lemma feasible_true is_uniform length min_value max_value n :
  0 <= n →
  _validate_no_replacement_feasible
    is_uniform length min_value max_value (VBool true) n = Ok tt.
Proof.
  intros Hn. destruct is_uniform; [|reflexivity].
  rewrite feasible_uniform_unfold by lia.
  apply for_each_ok. reflexivity.
Qed.

(** *** The tools are their validation phase followed by the call *)

Ltac run_cbn :=
  cbn [bind M_raising result_raising guard ret raise lift].

Ltac split_run :=
  run_cbn;
  repeat (match goal with
          | |- context [guard ?b _] => destruct b
          | |- context [match ?r with Ok _ => _ | Raise _ => _ end] =>
              lazymatch r with
              | context [match _ with _ => _ end] => fail
              | _ => destruct r as [?|?]
              end
          end; run_cbn);
  try reflexivity.

Lemma generate_integers_run n mn mx rep base pgr log :
  generate_integers n mn mx rep base pgr log
  = call_and_reshape "generateIntegers" "values"
      (integers_request n mn mx rep base pgr) log.
Proof.
  unfold generate_integers, integers_request, call_and_reshape.
  split_run.
Qed.

Lemma generate_decimal_fractions_run n places rep pgr log :
  generate_decimal_fractions n places rep pgr log
  = call_and_reshape "generateDecimalFractions" "fractions"
      (decimal_fractions_request n places rep pgr) log.
Proof.
  unfold generate_decimal_fractions, decimal_fractions_request,
    call_and_reshape.
  split_run.
Qed.

Lemma generate_gaussians_run n mean sd digits pgr log :
  generate_gaussians n mean sd digits pgr log
  = call_and_reshape "generateGaussians" "values"
      (gaussians_request n mean sd digits pgr) log.
Proof.
  unfold generate_gaussians, gaussians_request, call_and_reshape.
  split_run.
Qed.

Lemma generate_strings_run n len chars rep pgr log :
  generate_strings n len chars rep pgr log
  = call_and_reshape "generateStrings" "strings"
      (strings_request n len chars rep pgr) log.
Proof.
  unfold generate_strings, strings_request, call_and_reshape.
  split_run.
Qed.

Lemma generate_uuids_run n pgr log :
  generate_uuids n pgr log
  = call_and_reshape "generateUUIDs" "uuids" (uuids_request n pgr) log.
Proof.
  unfold generate_uuids, uuids_request, call_and_reshape.
  split_run.
Qed.

Lemma generate_blobs_run n size format pgr log :
  generate_blobs n size format pgr log
  = call_and_reshape "generateBlobs" "blobs"
      (blobs_request n size format pgr) log.
Proof.
  unfold generate_blobs, blobs_request, call_and_reshape.
  split_run.
Qed.

Lemma generate_integer_sequences_run n len mn mx rep base pgr log :
  generate_integer_sequences n len mn mx rep base pgr log
  = call_and_reshape "generateIntegerSequences" "sequences"
      (sequences_request n len mn mx rep base pgr) log.
Proof.
  unfold generate_integer_sequences, sequences_request, call_and_reshape,
    int_range_validator, int_range_check.
  run_cbn.
  destruct (_validate_int_range (VInt n) "n" 1 1000) as [[]|e]; [|reflexivity].
  rewrite ensure_lift.
  destruct (_ensure_scalar_or_list "length" len n _ _) as [l|e];
    [|reflexivity].
  destruct (lengths_total_check n l) as [[]|e]; [|reflexivity].
  rewrite ensure_lift.
  destruct (_ensure_scalar_or_list "min" mn n _ _) as [m|e]; [|reflexivity].
  rewrite ensure_lift.
  destruct (_ensure_scalar_or_list "max" mx n _ _) as [x|e]; [|reflexivity].
  destruct (min_max_check n m x) as [[]|e]; [|reflexivity].
  rewrite ensure_lift.
  destruct (_ensure_scalar_or_list "replacement" rep n _ _) as [r|e];
    [|reflexivity].
  rewrite ensure_lift.
  destruct (_ensure_scalar_or_list "base" base n _ _) as [b|e]; [|reflexivity].
  split_run.
Qed.

Lemma call_log method primary (r : request) log :
  (call_and_reshape method primary (Ok r) log).2
  = log ++ [RpcCall method r.2].
Proof.
  unfold call_and_reshape, _random_org_rpc. run_cbn.
  destruct (remote _) as [v|e]; reflexivity.
Qed.

Lemma in_range_true lo x hi : lo <= x <= hi → in_range lo x hi = true.
Proof.
  intros Hx. unfold in_range. apply andb_true_intro.
  split; apply Z.leb_le; lia.
Qed.

Lemma validate_int_range_ok z name lo hi :
  lo <= z <= hi → _validate_int_range (VInt z) name lo hi = Ok tt.
Proof.
  intros Hz. unfold _validate_int_range. cbn [as_int].
  rewrite in_range_true by lia. reflexivity.
Qed.

Lemma ensure_scalar_ok name v n (sv lv : value → string → result unit) :
  is_list v = false → sv v name = Ok tt →
  _ensure_scalar_or_list name v n (Some sv) (Some lv) = Ok (true, v).
Proof. intros Hv Hsv. rewrite ensure_scalar, Hsv by done. reflexivity. Qed.

Lemma elem_of_enumerate {A} (l : list A) (p : nat * A) :
  p ∈ enumerate l → l !! p.1 = Some p.2.
Proof.
  intros [i Hi]%list_elem_of_lookup_1. unfold enumerate in Hi.
  rewrite list_lookup_imap in Hi.
  destruct (l !! i) as [x|] eqn:Hl; simplify_eq/=. exact Hl.
Qed.

Lemma min_max_uniform n lo hi :
  lo <= hi → min_max_check n (true, VInt lo) (true, VInt hi) = Ok tt.
Proof.
  intros Hle. unfold min_max_check. cbn.
  apply for_each_ok. intros [i [a b]] Hp%elem_of_enumerate. cbn in *.
  apply lookup_zip_with_Some in Hp as (x & y & Heq & Hx & Hy).
  apply list_elem_of_lookup_2, elem_of_replicate_inv in Hx, Hy.
  simplify_eq. cbn.
  assert ((hi <? lo) = false) as -> by (apply Z.ltb_ge; lia). reflexivity.
Qed.

(** The validation phase of a call whose five fields are all scalars, with
    every per-field rule met: what is left is the feasibility check. *)
Lemma sequences_request_uniform n len lo hi (r : bool) base pgr_arg pgr :
  1 <= n <= 1000 → 1 <= len <= 10000 → n * len <= 10000 →
  -1000000000 <= lo <= 1000000000 → -1000000000 <= hi <= 1000000000 →
  lo <= hi →
  is_list base = false → _validate_base base "base" = Ok tt →
  _validate_pregenerated_randomization pgr_arg = Ok pgr →
  sequences_request n (VInt len) (VInt lo) (VInt hi) (VBool r) base pgr_arg
  = (_validate_no_replacement_feasible true
       (VInt len) (VInt lo) (VInt hi) (VBool r) n ;;;
     Ok ([("base", JV base); ("replacement", JV (VBool r))], pgr,
         with_pgr pgr (list_to_map [
           ("n", JV (VInt n)); ("length", JV (VInt len));
           ("min", JV (VInt lo)); ("max", JV (VInt hi));
           ("replacement", JV (VBool r)); ("base", JV base)]))).
Proof.
  intros Hn Hlen Htotal Hlo Hhi Hle Hbase Hbase_ok Hpgr.
  unfold sequences_request, int_range_check.
  rewrite validate_int_range_ok by lia. cbn [bind result_raising].
  rewrite !ensure_scalar_ok
    by (try reflexivity; try assumption; apply validate_int_range_ok; lia).
  cbn [bind result_raising fst snd].
  unfold lengths_total_check. cbn [fst snd as_int].
  rewrite in_range_true by nia. cbn [guard ret bind result_raising].
  rewrite min_max_uniform by lia. rewrite Hpgr.
  reflexivity.
Qed.

(** *** Integer sequences: feasibility and the cap on the lengths *)

(** C3: uniform scalar fields, min 0, max 4, replacement [False].  With
    length 5 the feasibility check passes and the call is made; with
    length 6 the check, and the tool with it, ends in the infeasible-sampling
    error for sequence 0 (domain 5, length 6) and no call is made.  In this
    form the check passes exactly when the length is at most max - min + 1. *)
Theorem feasibility_domain_of_five n base pgr_arg pgr log :
  1 <= n <= 1000 →
  is_list base = false → _validate_base base "base" = Ok tt →
  _validate_pregenerated_randomization pgr_arg = Ok pgr →
  _validate_no_replacement_feasible true
    (VInt 5) (VInt 0) (VInt 4) (VBool false) n = Ok tt
  ∧ _validate_no_replacement_feasible true
      (VInt 6) (VInt 0) (VInt 4) (VBool false) n
    = Raise (ValueError (InfeasibleAt 0 5 (VInt 6)))
  ∧ (generate_integer_sequences n
       (VInt 5) (VInt 0) (VInt 4) (VBool false) base pgr_arg log).2
    = log ++ [RpcCall "generateIntegerSequences"
                (with_pgr pgr (list_to_map [
                   ("n", JV (VInt n)); ("length", JV (VInt 5));
                   ("min", JV (VInt 0)); ("max", JV (VInt 4));
                   ("replacement", JV (VBool false)); ("base", JV base)]))]
  ∧ generate_integer_sequences n
      (VInt 6) (VInt 0) (VInt 4) (VBool false) base pgr_arg log
    = (Raise (ValueError (InfeasibleAt 0 5 (VInt 6))), log)
  ∧ (∀ len lo hi,
       _validate_no_replacement_feasible true
         (VInt len) (VInt lo) (VInt hi) (VBool false) n = Ok tt
       ↔ len <= hi - lo + 1).
Proof.
  intros Hn Hbase Hbase_ok Hpgr.
  assert (∀ len lo hi,
    _validate_no_replacement_feasible true
      (VInt len) (VInt lo) (VInt hi) (VBool false) n = Ok tt
    ↔ len <= hi - lo + 1) as Hrule.
  { intros len lo hi. rewrite feasible_uniform_false by lia.
    destruct (hi - lo + 1 <? len) eqn:Hshort.
    - apply Z.ltb_lt in Hshort. split; [discriminate|lia].
    - apply Z.ltb_ge in Hshort. split; [lia|reflexivity]. }
  assert (_validate_no_replacement_feasible true
            (VInt 6) (VInt 0) (VInt 4) (VBool false) n
          = Raise (ValueError (InfeasibleAt 0 5 (VInt 6)))) as Hsix.
  { rewrite feasible_uniform_false by lia. reflexivity. }
  assert (_validate_no_replacement_feasible true
            (VInt 5) (VInt 0) (VInt 4) (VBool false) n = Ok tt) as Hfive.
  { apply Hrule. lia. }
  split; [exact Hfive|]. split; [exact Hsix|].
  split; [|split; [|exact Hrule]].
  - rewrite generate_integer_sequences_run.
    rewrite (sequences_request_uniform n 5 0 4 false base pgr_arg pgr)
      by (assumption || lia).
    rewrite Hfive. cbn [bind result_raising]. apply call_log.
  - rewrite generate_integer_sequences_run.
    rewrite (sequences_request_uniform n 6 0 4 false base pgr_arg pgr)
      by (assumption || lia).
    rewrite Hsix. reflexivity.
Qed.

(** *** generate_integers *)

(** C9: [generate_integers] looks at [replacement] nowhere before the call.
    With [n], [min], [max] and [base] within their rules and a valid
    randomization spec, the call to the service is made with the arguments
    as given, whatever [replacement] holds: [False] with a domain smaller
    than [n], or a value that is not a boolean at all. *)
Theorem generate_integers_ignores_replacement
    n min_value max_value replacement base pgr_arg pgr log :
  1 <= n <= 10000 →
  -1000000000 <= min_value <= 1000000000 →
  -1000000000 <= max_value <= 1000000000 →
  min_value <= max_value →
  base ∈ [2; 8; 10; 16] →
  _validate_pregenerated_randomization pgr_arg = Ok pgr →
  (generate_integers n min_value max_value replacement base pgr_arg log).2
  = log ++ [RpcCall "generateIntegers"
              (with_pgr pgr (list_to_map [
                 ("n", JV (VInt n)); ("min", JV (VInt min_value));
                 ("max", JV (VInt max_value));
                 ("replacement", JV replacement);
                 ("base", JV (VInt base))]))].
Proof.
  intros Hn Hmin Hmax Hle Hbase Hpgr.
  rewrite generate_integers_run. unfold integers_request.
  rewrite !in_range_true by lia.
  assert ((max_value <? min_value) = false) as -> by (apply Z.ltb_ge; lia).
  assert (existsb (Z.eqb base) [2; 8; 10; 16] = true) as ->.
  { set_unfold in Hbase. destruct Hbase as [->|[->|[->|[->|[]]]]]; reflexivity. }
  rewrite Hpgr. cbn [guard negb ret bind result_raising]. apply call_log.
Qed.

Lemma sum_from_ints acc ks :
  sum_from acc (VInt <$> ks) = Ok (acc + sum_of ks).
Proof.
  revert acc. induction ks as [|k ks IH]; intros acc; cbn.
  - f_equal. lia.
  - rewrite IH. unfold sum_of. f_equal. lia.
Qed.

Lemma ensure_value name v n (sv lv : option (value → string → result unit)) r :
  _ensure_scalar_or_list name v n sv lv = Ok r → r = (negb (is_list v), v).
Proof.
  unfold _ensure_scalar_or_list. intros Hr.
  destruct v; cbn in Hr;
    try (destruct sv as [f|]; [destruct (f _ name) as [[]|]|];
         cbn in Hr; by simplify_eq).
  destruct (_ =? n); cbn in Hr; [|discriminate].
  destruct lv as [f|]; [destruct (for_each _ _) as [[]|]|];
    cbn in Hr; by simplify_eq.
Qed.

Lemma sequences_raise n len mn mx rep base pgr log e :
  sequences_request n len mn mx rep base pgr = Raise e →
  generate_integer_sequences n len mn mx rep base pgr log = (Raise e, log).
Proof. intros Hreq. rewrite generate_integer_sequences_run, Hreq. reflexivity. Qed.

Lemma sequences_total_raises n len mn mx rep base pgr :
  (∀ r, _ensure_scalar_or_list "length" len n
          (int_range_check 1 10000) (int_range_check 1 10000) = Ok r →
        is_ok (lengths_total_check n r) = false) →
  ∃ e, sequences_request n len mn mx rep base pgr = Raise e.
Proof.
  intros Htotal. unfold sequences_request.
  destruct (_validate_int_range (VInt n) "n" 1 1000) as [[]|e]; [|by eexists].
  cbn [bind result_raising].
  destruct (_ensure_scalar_or_list "length" len n _ _) as [r|e] eqn:Hlen;
    [|by eexists].
  specialize (Htotal r eq_refl).
  destruct (lengths_total_check n r) as [[]|e]; [discriminate|by eexists].
Qed.

(** C4: validation fails when the lengths sum to more than 10000: with a
    scalar length the sum is [n] times the scalar, with a list it is the sum
    of its items.  For [n = 2], lengths 6000 and 5000 end in the error on
    the total 11000 before any other field is looked at, and lengths 5000
    and 5000 pass the check on the sum. *)
Theorem lengths_sum_cap :
  (∀ n k mn mx rep base pgr log,
     10000 < n * k →
     ∃ e, generate_integer_sequences n (VInt k) mn mx rep base pgr log
          = (Raise e, log))
  ∧ (∀ n ks mn mx rep base pgr log,
       10000 < sum_of ks →
       ∃ e, generate_integer_sequences n (VList (VInt <$> ks))
              mn mx rep base pgr log
            = (Raise e, log))
  ∧ (∀ mn mx rep base pgr log,
       generate_integer_sequences 2 (VList [VInt 6000; VInt 5000])
         mn mx rep base pgr log
       = (Raise (ValueError (LengthsTotal 11000)), log))
  ∧ _validate_lengths_total (VList [VInt 5000; VInt 5000]) = Ok tt
  ∧ (∀ log,
       (generate_integer_sequences 2 (VList [VInt 5000; VInt 5000])
          (VInt 0) (VInt 5) (VBool true) (VInt 10) VNone log).2
       = log ++ [RpcCall "generateIntegerSequences" (list_to_map [
                   ("n", JV (VInt 2));
                   ("length", JV (VList [VInt 5000; VInt 5000]));
                   ("min", JV (VInt 0)); ("max", JV (VInt 5));
                   ("replacement", JV (VBool true));
                   ("base", JV (VInt 10))])]).
Proof.
  split; [|split; [|split; [|split]]].
  - intros n k mn mx rep base pgr log Hbig.
    destruct (sequences_total_raises n (VInt k) mn mx rep base pgr) as [e He].
    + intros r ->%ensure_value. cbn.
      assert (in_range 1 (n * k) 10000 = false) as ->; [|reflexivity].
      unfold in_range. apply andb_false_intro2, Z.leb_gt. lia.
    + exists e. by apply sequences_raise.
  - intros n ks mn mx rep base pgr log Hbig.
    destruct (sequences_total_raises n (VList (VInt <$> ks)) mn mx rep base pgr)
      as [e He].
    + intros r ->%ensure_value.
      unfold lengths_total_check, _validate_lengths_total, py_sum. cbn.
      rewrite sum_from_ints.
      assert (in_range 1 (0 + sum_of ks) 10000 = false)
        as ->; [|reflexivity].
      apply andb_false_intro2, Z.leb_gt. lia.
    + exists e. by apply sequences_raise.
  - intros mn mx rep base pgr log. by apply sequences_raise.
  - reflexivity.
  - intros log. rewrite generate_integer_sequences_run.
    assert (sequences_request 2 (VList [VInt 5000; VInt 5000])
              (VInt 0) (VInt 5) (VBool true) (VInt 10) VNone
            = Ok ([("base", JV (VInt 10)); ("replacement", JV (VBool true))],
                  None,
                  list_to_map [
                    ("n", JV (VInt 2));
                    ("length", JV (VList [VInt 5000; VInt 5000]));
                    ("min", JV (VInt 0)); ("max", JV (VInt 5));
                    ("replacement", JV (VBool true));
                    ("base", JV (VInt 10))])) as -> by reflexivity.
    apply call_log.
Qed.

(** *** Randomization-spec validator *)

Lemma has_key_lookup d k : has_key d k = bool_decide (d !! k ≠ None).
Proof.
  unfold has_key. apply bool_decide_ext. rewrite is_Some_alt.
  destruct (d !! k); split; done.
Qed.

(** What the validator does on a dict, by the two recognized keys alone. *)
Lemma validate_pgr_dict d :
  _validate_pregenerated_randomization (VDict d)
  = match d !! "date", d !! "id" with
    | Some _, Some _ => Raise (ValueError PgrBoth)
    | Some (VStr s), None =>
        if fullmatch_date s then Ok (Some {[ "date" := VStr s ]})
        else Raise (ValueError PgrDateFormat)
    | Some _, None => Raise (ValueError PgrDateNotStr)
    | None, Some (VStr s) =>
        if in_range 1 (str_len s) 64
        then Ok (Some {[ "id" := VStr s ]})
        else Raise (ValueError PgrIdLength)
    | None, Some _ => Raise (ValueError PgrIdNotStr)
    | None, None => Raise (ValueError PgrNeither)
    end.
Proof.
  unfold _validate_pregenerated_randomization. rewrite !has_key_lookup.
  destruct (d !! "date") as [v|], (d !! "id") as [w|]; cbn;
    try reflexivity.
  - by destruct v.
  - destruct v; try reflexivity. by destruct (fullmatch_date s).
  - destruct w; try reflexivity.
    by destruct (in_range 1 (str_len s) 64).
Qed.

Lemma ascii_digit_Nd c :
  c ∈ ["0"; "1"; "2"; "3"; "4"; "5"; "6"; "7"; "8"; "9"] →
  unicode_Nd c = true.
Proof using ascii_digits_Nd. apply ascii_digits_Nd. Qed.

(** C5: the randomization-spec validator returns [None] for [None]; on a
    dict it fails when both [date] and [id] are present, when neither is,
    when [date] is not a string that matches the pattern of four, two and
    two digits with hyphens between, and when [id] is not a string of 1 to
    64 characters.  The date 2024-06-01 passes, the same date with an [id]
    beside it fails, the empty [id] fails, every [id] of 64 characters
    passes and every [id] of 65 fails; so do a date with one-digit month
    and day, a date that is a number and an [id] that is a number. *)
Theorem randomization_spec_rules :
  _validate_pregenerated_randomization VNone = Ok None
  ∧ (∀ d, is_Some (d !! "date") → is_Some (d !! "id") →
       _validate_pregenerated_randomization (VDict d)
       = Raise (ValueError PgrBoth))
  ∧ (∀ d, d !! "date" = None → d !! "id" = None →
       _validate_pregenerated_randomization (VDict d)
       = Raise (ValueError PgrNeither))
  ∧ (∀ d v, d !! "date" = Some v →
       (∀ s, v = VStr s → fullmatch_date s = false) →
       is_ok (_validate_pregenerated_randomization (VDict d)) = false)
  ∧ (∀ d v, d !! "id" = Some v →
       (∀ s, v = VStr s → ¬ 1 <= str_len s <= 64) →
       is_ok (_validate_pregenerated_randomization (VDict d)) = false)
  ∧ _validate_pregenerated_randomization
      (VDict {[ "date" := VStr "2024-06-01" ]})
    = Ok (Some {[ "date" := VStr "2024-06-01" ]})
  ∧ _validate_pregenerated_randomization
      (VDict (<[ "id" := VStr "x" ]> {[ "date" := VStr "2024-06-01" ]}))
    = Raise (ValueError PgrBoth)
  ∧ _validate_pregenerated_randomization (VDict {[ "id" := VStr "" ]})
    = Raise (ValueError PgrIdLength)
  ∧ (∀ s, str_len s = 64 →
       _validate_pregenerated_randomization (VDict {[ "id" := VStr s ]})
       = Ok (Some {[ "id" := VStr s ]}))
  ∧ (∀ s, str_len s = 65 →
       _validate_pregenerated_randomization (VDict {[ "id" := VStr s ]})
       = Raise (ValueError PgrIdLength))
  ∧ str_len (string_times "x" 64) = 64
  ∧ str_len (string_times "x" 65) = 65
  ∧ _validate_pregenerated_randomization
      (VDict {[ "date" := VStr "2024-6-1" ]})
    = Raise (ValueError PgrDateFormat)
  ∧ _validate_pregenerated_randomization
      (VDict {[ "date" := VInt 20240601 ]})
    = Raise (ValueError PgrDateNotStr)
  ∧ _validate_pregenerated_randomization (VDict {[ "id" := VInt 7 ]})
    = Raise (ValueError PgrIdNotStr).
Proof using ascii_digits_Nd.
  repeat apply conj.
  - reflexivity.
  - intros d [v Hv] [w Hw]. rewrite validate_pgr_dict, Hv, Hw. by destruct v.
  - intros d Hdate Hid. by rewrite validate_pgr_dict, Hdate, Hid.
  - intros d v Hv Hbad. rewrite validate_pgr_dict, Hv.
    destruct (d !! "id"); [by destruct v|].
    destruct v; try reflexivity. by rewrite (Hbad s eq_refl).
  - intros d v Hv Hbad. rewrite validate_pgr_dict, Hv.
    destruct (d !! "date") as [w|]; [by destruct w|].
    destruct v; try reflexivity.
    destruct (in_range 1 (str_len s) 64) eqn:Hlen; [|reflexivity].
    exfalso. apply (Hbad s eq_refl).
    apply andb_prop in Hlen as [?%Z.leb_le ?%Z.leb_le]. lia.
  - rewrite validate_pgr_dict.
    assert (fullmatch_date "2024-06-01" = true) as Hdate.
    { unfold fullmatch_date.
      replace (code_points "2024-06-01")
        with ["2"; "0"; "2"; "4"; "-"; "0"; "6"; "-"; "0"; "1"]
        by (vm_compute; reflexivity).
      cbn [forallb].
      rewrite !ascii_digit_Nd by (repeat constructor). reflexivity. }
    change (({[ "date" := VStr "2024-06-01" ]} : gmap string value) !! "date")
      with (Some (VStr "2024-06-01")).
    change (({[ "date" := VStr "2024-06-01" ]} : gmap string value) !! "id")
      with (@None value).
    cbv iota beta. by rewrite Hdate.
  - by rewrite validate_pgr_dict.
  - by rewrite validate_pgr_dict.
  - intros s Hs. rewrite validate_pgr_dict.
    rewrite lookup_singleton_ne, lookup_singleton_eq by done.
    by rewrite Hs.
  - intros s Hs. rewrite validate_pgr_dict.
    rewrite lookup_singleton_ne, lookup_singleton_eq by done.
    by rewrite Hs.
  - reflexivity.
  - reflexivity.
  - by rewrite validate_pgr_dict.
  - by rewrite validate_pgr_dict.
  - by rewrite validate_pgr_dict.
Qed.

(** C10: keys other than [date] and [id] are never looked at.  A dict with
    [date] and without [id] fares exactly as the dict of its [date] entry
    alone, and when that entry is a date string the result is the dict
    holding only it; the same goes for [id]; a dict with neither key fails,
    whatever else it holds. *)
Theorem randomization_spec_ignores_other_keys (d : gmap string value) :
  (∀ v, d !! "date" = Some v → d !! "id" = None →
     _validate_pregenerated_randomization (VDict d)
     = _validate_pregenerated_randomization (VDict {[ "date" := v ]}))
  ∧ (∀ s, d !! "date" = Some (VStr s) → d !! "id" = None →
       fullmatch_date s = true →
       _validate_pregenerated_randomization (VDict d)
       = Ok (Some {[ "date" := VStr s ]}))
  ∧ (∀ v, d !! "id" = Some v → d !! "date" = None →
       _validate_pregenerated_randomization (VDict d)
       = _validate_pregenerated_randomization (VDict {[ "id" := v ]}))
  ∧ (∀ s, d !! "id" = Some (VStr s) → d !! "date" = None →
       1 <= str_len s <= 64 →
       _validate_pregenerated_randomization (VDict d)
       = Ok (Some {[ "id" := VStr s ]}))
  ∧ (d !! "date" = None → d !! "id" = None →
       _validate_pregenerated_randomization (VDict d)
       = Raise (ValueError PgrNeither))
  ∧ _validate_pregenerated_randomization
      (VDict (<[ "note" := VInt 1 ]> {[ "id" := VStr "abc" ]}))
    = Ok (Some {[ "id" := VStr "abc" ]})
  ∧ _validate_pregenerated_randomization
      (VDict (<[ "note" := VInt 1 ]> {[ "seed" := VStr "abc" ]}))
    = Raise (ValueError PgrNeither).
Proof.
  repeat apply conj.
  - intros v Hdate Hid. rewrite !validate_pgr_dict, Hdate, Hid.
    by rewrite lookup_singleton_eq, lookup_singleton_ne.
  - intros s Hdate Hid Hs. by rewrite validate_pgr_dict, Hdate, Hid, Hs.
  - intros v Hid Hdate. rewrite !validate_pgr_dict, Hdate, Hid.
    by rewrite lookup_singleton_eq, lookup_singleton_ne.
  - intros s Hid Hdate Hs. rewrite validate_pgr_dict, Hdate, Hid.
    by rewrite in_range_true.
  - intros Hdate Hid. by rewrite validate_pgr_dict, Hdate, Hid.
  - by rewrite validate_pgr_dict.
  - by rewrite validate_pgr_dict.
Qed.

(** *** Scalar [True] as replacement *)

Lemma for_each_raise_inv {A} (xs : list A) (body : A → result unit) e :
  for_each xs body = Raise e → ∃ x, x ∈ xs ∧ body x = Raise e.
Proof.
  induction xs as [|y xs IH]; intros Hrun; [discriminate|].
  cbn in Hrun. destruct (body y) as [[]|e'] eqn:Hy.
  - destruct (IH Hrun) as (x & Hx & Hbody).
    exists x. split; [by apply list_elem_of_further|exact Hbody].
  - exists y. split; [apply list_elem_of_here|congruence].
Qed.

Ltac raise_cases H :=
  cbn in H; simplify_eq/=; repeat (case_match; simplify_eq/=); try done.

Lemma int_range_not_infeasible v name lo hi e :
  _validate_int_range v name lo hi = Raise e → infeasible e = false.
Proof. unfold _validate_int_range, guard. intros H. raise_cases H. Qed.

Lemma ensure_not_infeasible name v n (sv lv : value → string → result unit) e :
  (∀ x nm e', sv x nm = Raise e' → infeasible e' = false) →
  (∀ x nm e', lv x nm = Raise e' → infeasible e' = false) →
  _ensure_scalar_or_list name v n (Some sv) (Some lv) = Raise e →
  infeasible e = false.
Proof.
  intros Hsv Hlv Hrun.
  destruct v;
    try (rewrite ensure_scalar in Hrun by done;
         destruct (sv _ name) as [[]|e'] eqn:Hv; cbn in Hrun;
         [discriminate|]; injection Hrun as <-; by eapply Hsv).
  cbn in Hrun. destruct (Z.of_nat (length l) =? n); cbn in Hrun.
  - destruct (for_each _ _) as [[]|e'] eqn:Hloop; cbn in Hrun;
      [discriminate|]. injection Hrun as <-.
    apply for_each_raise_inv in Hloop as (x & _ & Hx). by eapply Hlv.
  - by injection Hrun as <-.
Qed.

Lemma lengths_total_not_infeasible n len e :
  lengths_total_check n len = Raise e → infeasible e = false.
Proof.
  unfold lengths_total_check, _validate_lengths_total, py_sum, guard.
  intros H. destruct len as [[] v]; cbn in H.
  - raise_cases H.
  - destruct (py_iter v) as [items|e'] eqn:Hiter; cbn in H.
    + destruct (sum_from 0 items) as [total|e'] eqn:Hsum; cbn in H.
      * raise_cases H.
      * injection H as <-. clear Hiter. revert Hsum. generalize 0.
        induction items as [|x items IH]; intros acc Hsum; [discriminate|].
        cbn in Hsum. destruct (as_int x); [by eapply IH|].
        by injection Hsum as <-.
    + injection H as <-. unfold py_iter in Hiter. raise_cases Hiter.
Qed.

Lemma min_max_not_infeasible n mn mx e :
  min_max_check n mn mx = Raise e → infeasible e = false.
Proof.
  unfold min_max_check. intros H.
  destruct (py_iter _) as [mins|e'] eqn:Hmins; cbn in H.
  - destruct (py_iter (_as_list n mx.2 mx.1)) as [maxs|e''] eqn:Hmaxs;
      cbn in H.
    + apply for_each_raise_inv in H as (p & _ & Hp).
      unfold py_gt, guard in Hp. raise_cases Hp.
    + injection H as <-. unfold py_iter in Hmaxs. raise_cases Hmaxs.
  - injection H as <-. unfold py_iter in Hmins. raise_cases Hmins.
Qed.

Lemma pgr_not_infeasible pgr e :
  _validate_pregenerated_randomization pgr = Raise e → infeasible e = false.
Proof.
  destruct pgr as [| | | | |d].
  1-5: cbn; intros H; raise_cases H.
  rewrite validate_pgr_dict. intros H. raise_cases H.
Qed.

Lemma guard_not_infeasible b m e :
  guard (m := result) b (ValueError m) = Raise e →
  infeasible (ValueError m) = false → infeasible e = false.
Proof. destruct b; [discriminate|]. by intros [= <-]. Qed.

(** C2: with the single scalar [True] as replacement the feasibility check
    returns normally, whatever the lengths, minimums and maximums are and
    whichever of the two forms the call is in: no domain size is compared.
    So whenever the validation of such a call to the tool ends in an
    exception, that exception is not an infeasible-sampling error. *)
Theorem feasible_scalar_true :
  (∀ is_uniform length min_value max_value n,
     0 <= n →
     _validate_no_replacement_feasible
       is_uniform length min_value max_value (VBool true) n = Ok tt)
  ∧ (∀ n length min_value max_value base pgr e,
       sequences_request n length min_value max_value (VBool true) base pgr
       = Raise e →
       infeasible e = false).
Proof.
  split; [exact feasible_true|].
  intros n length min_value max_value base pgr e.
  unfold sequences_request, int_range_check.
  destruct (_validate_int_range (VInt n) "n" 1 1000) as [[]|e0] eqn:Hn;
    cbn [bind result_raising];
    [|intros [= <-]; by eapply int_range_not_infeasible].
  assert (0 <= n) as Hn0.
  { unfold _validate_int_range in Hn. cbn [as_int] in Hn.
    destruct (in_range 1 n 1000) eqn:Hr; [|discriminate].
    apply andb_prop in Hr as [?%Z.leb_le _]. lia. }
  destruct (_ensure_scalar_or_list "length" _ _ _ _) as [len|e0] eqn:Hlen;
    [|intros [= <-]; eapply ensure_not_infeasible in Hlen; [done|..];
      intros ???; apply int_range_not_infeasible].
  destruct (lengths_total_check n len) as [[]|e0] eqn:Htotal;
    [|intros [= <-]; by eapply lengths_total_not_infeasible].
  destruct (_ensure_scalar_or_list "min" _ _ _ _) as [mn|e0] eqn:Hmin;
    [|intros [= <-]; eapply ensure_not_infeasible in Hmin; [done|..];
      intros ???; apply int_range_not_infeasible].
  destruct (_ensure_scalar_or_list "max" _ _ _ _) as [mx|e0] eqn:Hmax;
    [|intros [= <-]; eapply ensure_not_infeasible in Hmax; [done|..];
      intros ???; apply int_range_not_infeasible].
  destruct (min_max_check n mn mx) as [[]|e0] eqn:Hmm;
    [|intros [= <-]; by eapply min_max_not_infeasible].
  destruct (_ensure_scalar_or_list "replacement" _ _ _ _) as [rep|e0] eqn:Hrep;
    [|intros [= <-]; eapply ensure_not_infeasible in Hrep; [done|..];
      intros x nm e' He'; by eapply guard_not_infeasible].
  destruct (_ensure_scalar_or_list "base" _ _ _ _) as [bs|e0] eqn:Hbs;
    [|intros [= <-]; eapply ensure_not_infeasible in Hbs; [done|..];
      intros x nm e' He'; by eapply guard_not_infeasible].
  destruct (_validate_pregenerated_randomization pgr) as [p|e0] eqn:Hpgr;
    [|intros [= <-]; by eapply pgr_not_infeasible].
  apply ensure_value in Hrep as ->. cbn [fst snd].
  rewrite feasible_true by lia. discriminate.
Qed.

(** *** Field normalizer *)

Lemma for_each_accept {S A} (xs : list A) (body : A → M S unit) :
  (∀ x s, x ∈ xs → (body x s).1 = Ok tt) →
  ∀ s, (for_each xs body s).1 = Ok tt.
Proof.
  induction xs as [|x xs IH]; intros Hall s; [reflexivity|].
  cbn [for_each bind M_raising].
  pose proof (Hall x s (list_elem_of_here _ _)) as Hx.
  destruct (body x s) as [[[]|e] s1]; cbn in Hx; [|discriminate].
  apply IH. intros y s2 Hy. apply Hall. by apply list_elem_of_further.
Qed.

(** C8: take an item count [n], a validator and a scalar [v] that the
    validator accepts under every name.  Normalizing [v] succeeds and
    returns [v] itself, flagged scalar; normalizing the list of [n] copies
    of [v] succeeds and returns that list itself, flagged list; item for
    item the two hold the same value.  A list whose length is not [n] ends
    in the shape error with the state as it was, whatever the validators
    are: none of them has run. *)
Theorem normalize_scalar_and_list {S}
    (validator : value → string → M S unit) name n v s :
  0 <= n → is_list v = false →
  (∀ nm s', (validator v nm s').1 = Ok tt) →
  (_ensure_scalar_or_list name v n (Some validator) (Some validator) s).1
  = Ok (true, v)
  ∧ (_ensure_scalar_or_list name (py_repeat v n) n
       (Some validator) (Some validator) s).1
    = Ok (false, py_repeat v n)
  ∧ (∀ i, 0 <= i < n →
       py_getitem (_as_list n v true) i = Ok v
       ∧ py_getitem (_as_list n (py_repeat v n) false) i = Ok v)
  ∧ (∀ l sv lv (s' : S),
       Z.of_nat (length l) ≠ n →
       _ensure_scalar_or_list name (VList l) n sv lv s'
       = (Raise (ValueError (ListLength name n)), s')).
Proof.
  intros Hn Hv Hok. repeat apply conj.
  - pose proof (Hok name s) as Hs.
    destruct v; try discriminate; cbn;
      destruct (validator _ name s) as [[[]|e] s1]; cbn in Hs;
      by simplify_eq.
  - unfold py_repeat. cbn [_ensure_scalar_or_list].
    rewrite length_replicate, Z2Nat.id, Z.eqb_refl by lia.
    cbn [guard ret bind M_raising].
    pose proof (for_each_accept (enumerate (replicate (Z.to_nat n) v))
                  (λ iv, validator iv.2 (item_name name iv.1))) as Hloop.
    destruct (for_each (m := M S) _ _ s) as [[[]|e] s1] eqn:Hrun.
    + reflexivity.
    + assert (∀ (p : nat * value) s2,
                p ∈ enumerate (replicate (Z.to_nat n) v) →
                (validator p.2 (item_name name p.1) s2).1 = Ok tt) as Hitems.
      { intros p s2 Hp%elem_of_enumerate.
        apply list_elem_of_lookup_2, elem_of_replicate_inv in Hp.
        rewrite Hp. apply Hok. }
      specialize (Hloop Hitems s). rewrite Hrun in Hloop. discriminate.
  - intros i Hi. split; apply getitem_repeat; lia.
  - intros l sv lv s' Hlen. cbn [_ensure_scalar_or_list].
    assert ((Z.of_nat (length l) =? n) = false) as -> by by apply Z.eqb_neq.
    reflexivity.
Qed.

(** *** Error mapper *)

Lemma hint_codes_NoDup : NoDup (hint_table.*1).
Proof. apply (bool_decide_unpack _). by vm_compute. Qed.

Lemma hint_texts_NoDup : NoDup (hint_table.*2).
Proof. apply (bool_decide_unpack _). by vm_compute. Qed.

Lemma hints_lookup c h : (c, h) ∈ hint_table ↔ hints !! c = Some h.
Proof. apply elem_of_list_to_map, hint_codes_NoDup. Qed.

Lemma hints_lookup_None c : c ∉ hint_table.*1 → hints !! c = None.
Proof. apply not_elem_of_list_to_map_1. Qed.

Lemma extra_clauses_spec (d : gmap string value) :
  extra_clauses (Some d)
  = clause_of d "advisoryDelay" advisory_clause
    ++ clause_of d "bitsLeft" bits_clause
    ++ clause_of d "requestsLeft" requests_clause.
Proof.
  unfold extra_clauses, dict_truthy.
  destruct (Nat.eqb (size d) 0) eqn:Hsize; [|reflexivity].
  apply Nat.eqb_eq, map_size_empty_iff in Hsize. subst d.
  unfold clause_of. by rewrite !lookup_empty.
Qed.

Lemma map_error_hashable code msg data :
  hashable code = true →
  _map_random_org_error code msg data
  = Ok (py_join " "
          (match as_int code with
           | Some c => default (fallback_hint code msg) (hints !! c)
           | None => fallback_hint code msg
           end :: extra_clauses data)).
Proof.
  intros Hcode. unfold _map_random_org_error, dict_get.
  rewrite Hcode. reflexivity.
Qed.

(** C6, for codes that can be dictionary keys: the mapper returns a string
    for every such code (None, a boolean, an integer or a string), every
    message and every data; for each of the eleven listed codes the string
    starts from that code's hint, and the eleven hints differ from one
    another; for any other code it starts from the fallback text, which
    holds the code and the message as given; the clauses for advisoryDelay,
    bitsLeft and requestsLeft follow, one per key present, in that order.
    Code 429 with advisoryDelay 1500 gives a string holding the rate-limit
    hint and 1500; code -1 gives a string holding -1. *)
Theorem map_error_hints :
  (∀ code msg data,
     hashable code = true →
     ∃ text, _map_random_org_error code msg data = Ok text)
  ∧ (∀ c h msg data,
       (c, h) ∈ hint_table →
       _map_random_org_error (VInt c) msg data
       = Ok (py_join " " (h :: extra_clauses data)))
  ∧ hint_table.*1
    = [400; 401; 402; 403; 413; 429; 503; -32600; -32601; -32602; -32603]
  ∧ NoDup (hint_table.*2)
  ∧ (∀ code msg data,
       hashable code = true →
       (∀ c, as_int code = Some c → c ∉ hint_table.*1) →
       _map_random_org_error code msg data
       = Ok (py_join " "
               (("调用失败（代码：" +:+ py_str code +:+ "）。原始信息：" +:+ msg)
                :: extra_clauses data)))
  ∧ (∀ d : gmap string value,
       extra_clauses (Some d)
       = match d !! "advisoryDelay" with
         | Some v => ["建议等待 " +:+ py_str v +:+ " ms 后再试。"]
         | None => []
         end
         ++ match d !! "bitsLeft" with
            | Some v => ["当前 bitsLeft=" +:+ py_str v +:+ "。"]
            | None => []
            end
         ++ match d !! "requestsLeft" with
            | Some v => ["当前 requestsLeft=" +:+ py_str v +:+ "。"]
            | None => []
            end)
  ∧ extra_clauses None = []
  ∧ (∀ msg, ∃ text,
       _map_random_org_error (VInt 429) msg
         (Some {[ "advisoryDelay" := VInt 1500 ]}) = Ok text
       ∧ contains "请求过于频繁（429）。请按照 advisoryDelay 做退避重试。" text
         = true
       ∧ contains "1500" text = true)
  ∧ (∀ msg, ∃ text,
       _map_random_org_error (VInt (-1)) msg None = Ok text
       ∧ contains "-1" text = true).
Proof.
  repeat apply conj.
  - intros code msg data Hcode. rewrite map_error_hashable by done.
    by eexists.
  - intros c h msg data Hin%hints_lookup.
    rewrite map_error_hashable by done. cbn [as_int]. by rewrite Hin.
  - reflexivity.
  - exact hint_texts_NoDup.
  - intros code msg data Hcode Hother. rewrite map_error_hashable by done.
    destruct (as_int code) as [c|] eqn:Hc; [|reflexivity].
    by rewrite (hints_lookup_None c (Hother c eq_refl)).
  - exact extra_clauses_spec.
  - reflexivity.
  - intros msg. eexists. split; [reflexivity|]. split; by vm_compute.
  - intros msg. eexists. split; [reflexivity|]. by vm_compute.
Qed.

(** *** Mixed forms in the feasibility checker

    The checker is handed [is_len_scalar] as [is_uniform] (line 355) and
    takes the form of all four fields from it. *)

(** With a scalar length, a replacement given per sequence is wrapped into
    a list of lists; none of its entries is [False], so nothing is checked. *)
Lemma feasible_scalar_length_list_flags length min_value max_value flags n :
  0 <= n →
  _validate_no_replacement_feasible true
    length min_value max_value (VList flags) n = Ok tt.
Proof.
  intros Hn. rewrite feasible_uniform_unfold by lia.
  apply for_each_ok. reflexivity.
Qed.

(** C1, at mixed forms.  Scalar length 3 and domain [0, 1] with both
    per-sequence flags [False]: the domain 2 is smaller than the length, and
    the check passes, as it does for every scalar length with per-sequence
    flags.  List lengths [1, 1] with scalar domain [0, 5] and scalar
    replacement [False]: every domain 6 covers its length, and the check
    ends in a [TypeError] from subscripting the scalar maximum.  With all
    four fields as lists the first input is refused.  Both inputs get
    through every earlier step of the tool: the validation phase accepts
    the first and ends in the [TypeError] on the second. *)
Theorem feasibility_mixed_forms :
  _validate_no_replacement_feasible true
    (VInt 3) (VInt 0) (VInt 1) (VList [VBool false; VBool false]) 2 = Ok tt
  ∧ (∀ length min_value max_value flags n,
       0 <= n →
       _validate_no_replacement_feasible true
         length min_value max_value (VList flags) n = Ok tt)
  ∧ _validate_no_replacement_feasible false
      (VList [VInt 1; VInt 1]) (VInt 0) (VInt 5) (VBool false) 2
    = Raise (TypeError NotSubscriptable)
  ∧ _validate_no_replacement_feasible false
      (VList [VInt 3; VInt 3]) (VList [VInt 0; VInt 0])
      (VList [VInt 1; VInt 1]) (VList [VBool false; VBool false]) 2
    = Raise (ValueError (InfeasibleAt 0 2 (VInt 3)))
  ∧ is_ok (sequences_request 2 (VInt 3) (VInt 0) (VInt 1)
             (VList [VBool false; VBool false]) (VInt 10) VNone) = true
  ∧ sequences_request 2 (VList [VInt 1; VInt 1]) (VInt 0) (VInt 5)
      (VBool false) (VInt 10) VNone
    = Raise (TypeError NotSubscriptable).
Proof.
  repeat apply conj; try reflexivity.
  intros length min_value max_value flags n Hn.
  by apply feasible_scalar_length_list_flags.
Qed.

(** C7, at the same call: [n = 2], length 3, domain [0, 1], replacement
    [False] for both sequences.  No draw of 3 distinct values from 2 exists,
    yet the validation phase ends normally and the service is called. *)
Theorem infeasible_call_reaches_service log :
  (generate_integer_sequences 2 (VInt 3) (VInt 0) (VInt 1)
     (VList [VBool false; VBool false]) (VInt 10) VNone log).2
  = log ++ [RpcCall "generateIntegerSequences" (list_to_map [
              ("n", JV (VInt 2)); ("length", JV (VInt 3));
              ("min", JV (VInt 0)); ("max", JV (VInt 1));
              ("replacement", JV (VList [VBool false; VBool false]));
              ("base", JV (VInt 10))])].
Proof.
  rewrite generate_integer_sequences_run.
  assert (sequences_request 2 (VInt 3) (VInt 0) (VInt 1)
            (VList [VBool false; VBool false]) (VInt 10) VNone
          = Ok ([("base", JV (VInt 10));
                 ("replacement", JV (VList [VBool false; VBool false]))],
                None,
                list_to_map [
                  ("n", JV (VInt 2)); ("length", JV (VInt 3));
                  ("min", JV (VInt 0)); ("max", JV (VInt 1));
                  ("replacement", JV (VList [VBool false; VBool false]));
                  ("base", JV (VInt 10))])) as -> by reflexivity.
  apply call_log.
Qed.

(** *** Validation comes before the call *)

Lemma call_outcome method primary (req : result request) log :
  (is_ok req = false
   ∧ failed_fast (call_and_reshape method primary req log) log)
  ∨ (is_ok req = true
     ∧ made_call (call_and_reshape method primary req log) log method).
Proof.
  destruct req as [r|e].
  - right. split; [reflexivity|]. exists r.2. apply call_log.
  - left. split; [reflexivity|]. by exists e.
Qed.

Lemma failed_fast_no_call {A} (run : result A * list rpc_call) log method :
  failed_fast run log → ¬ made_call run log method.
Proof.
  intros [e ->] [params Hlog]. cbn in Hlog.
  apply (f_equal length) in Hlog. rewrite length_app in Hlog.
  cbn in Hlog. lia.
Qed.


(** *** The feasibility checker where all four fields share one form *)

Lemma for_each_ok_iff {A} (xs : list A) (body : A → result unit) :
  for_each xs body = Ok tt ↔ ∀ x, x ∈ xs → body x = Ok tt.
Proof.
  split; [|apply for_each_ok].
  induction xs as [|y xs IH]; intros Hrun x Hx.
  - by apply elem_of_nil in Hx.
  - cbn in Hrun. destruct (body y) as [[]|e] eqn:Hy; [|discriminate].
    apply elem_of_cons in Hx as [->|Hx]; [exact Hy|by apply IH].
Qed.

Lemma getitem_ints (zs : list Z) (i : nat) z :
  zs !! i = Some z → py_getitem (VList (VInt <$> zs)) (Z.of_nat i) = Ok (VInt z).
Proof. intros Hz. apply getitem_list. by rewrite list_lookup_fmap, Hz. Qed.

(** Multiform throughout: lengths, minimums, maximums and flags are lists
    of [n] integers and booleans.  The check passes exactly when every
    sequence whose own flag is [False] has a domain that covers its
    length. *)
Theorem feasible_multiform n (ls los his : list Z) (fs : list bool) :
  Z.of_nat (length ls) = n → Z.of_nat (length los) = n →
  Z.of_nat (length his) = n → Z.of_nat (length fs) = n →
  _validate_no_replacement_feasible false
    (VList (VInt <$> ls)) (VList (VInt <$> los)) (VList (VInt <$> his))
    (VList (VBool <$> fs)) n = Ok tt
  ↔ ∀ i len lo hi,
      fs !! i = Some false → ls !! i = Some len →
      los !! i = Some lo → his !! i = Some hi →
      len <= hi - lo + 1.
Proof.
  intros Hls Hlos Hhis Hfs.
  unfold _validate_no_replacement_feasible. cbn [is_bool py_len].
  rewrite length_fmap, Hfs. cbn [bind result_raising].
  rewrite Z.eqb_refl. cbn [guard ret result_raising].
  rewrite for_each_ok_iff. split.
  - intros Hall i len lo hi Hf Hlen Hlo Hhi.
    assert (Z.of_nat i ∈ range n) as Hi.
    { apply elem_of_range. apply lookup_lt_Some in Hf. lia. }
    specialize (Hall _ Hi). cbn beta in Hall.
    rewrite (getitem_list _ i (VBool false)) in Hall
      by (by rewrite list_lookup_fmap, Hf).
    cbn [bind result_raising is_False] in Hall.
    rewrite (check_domain_ints _ _ _ _ _ hi lo len) in Hall
      by (by apply getitem_ints).
    destruct (hi - lo + 1 <? len) eqn:Hshort; [discriminate|].
    apply Z.ltb_ge in Hshort. lia.
  - intros Hrule i Hi%elem_of_range.
    destruct (lookup_lt_is_Some_2 fs (Z.to_nat i)) as [f Hf]; [lia|].
    destruct (lookup_lt_is_Some_2 ls (Z.to_nat i)) as [len Hlen]; [lia|].
    destruct (lookup_lt_is_Some_2 los (Z.to_nat i)) as [lo Hlo]; [lia|].
    destruct (lookup_lt_is_Some_2 his (Z.to_nat i)) as [hi Hhi]; [lia|].
    rewrite <- (Z2Nat.id i) by lia.
    rewrite (getitem_list _ _ (VBool f)) by (by rewrite list_lookup_fmap, Hf).
    cbn [bind result_raising].
    destruct f; [reflexivity|]. cbn [is_False].
    rewrite (check_domain_ints _ _ _ _ _ hi lo len)
      by (by apply getitem_ints).
    specialize (Hrule _ _ _ _ Hf Hlen Hlo Hhi).
    assert ((hi - lo + 1 <? len) = false) as -> by (apply Z.ltb_ge; lia).
    reflexivity.
Qed.

(** *** The rules of the tools without multiform fields *)

Lemma made_call_iff method primary (req : result request) log :
  made_call (call_and_reshape method primary req log) log method
  ↔ is_ok req = true.
Proof.
  destruct (call_outcome method primary req log) as [[Hreq H]|[Hreq H]].
  - split; [|congruence]. intros Hcall.
    by apply (failed_fast_no_call _ _ method) in H.
  - by split.
Qed.

Lemma in_range_spec lo x hi : in_range lo x hi = true ↔ lo <= x <= hi.
Proof.
  unfold in_range. rewrite andb_true_iff, !Z.leb_le. reflexivity.
Qed.

Lemma is_ok_then {B} (c : result unit) (k : result B) :
  is_ok (c ;;; k) = is_ok c && is_ok k.
Proof. by destruct c as [[]|e]. Qed.

Lemma is_ok_guard b e : is_ok (guard (m := result) b e) = b.
Proof. by destruct b. Qed.

Lemma is_ok_int_range z name lo hi :
  is_ok (_validate_int_range (VInt z) name lo hi) = in_range lo z hi.
Proof. unfold _validate_int_range. cbn [as_int]. apply is_ok_guard. Qed.

Lemma is_ok_with_pgr {A B} (c : result A) (f : A → B) :
  is_ok (x <- c ;; Ok (f x)) = is_ok c.
Proof. by destruct c. Qed.

Lemma is_ok_validate_bool v name :
  is_ok (_validate_bool v name) = is_bool v.
Proof. apply is_ok_guard. Qed.

Lemma existsb_elem_of {A} (eqb : A → A → bool) x (l : list A) :
  (∀ y, eqb x y = true ↔ x = y) →
  existsb (eqb x) l = true ↔ x ∈ l.
Proof.
  intros Heqb. induction l as [|y l IH]; cbn.
  - rewrite elem_of_nil. split; [discriminate|tauto].
  - rewrite orb_true_iff, elem_of_cons, Heqb, IH. reflexivity.
Qed.

Lemma is_ok_characters chars :
  is_ok (characters_check chars) = true
  ↔ ∃ s, chars = VStr s ∧ 1 <= str_len s <= 128.
Proof.
  unfold characters_check.
  destruct chars as [| | |s| |];
    try (split; [discriminate|intros (s' & Hs' & _); discriminate]).
  rewrite is_ok_guard, in_range_spec. split.
  - intros Hlen. by exists s.
  - intros (s' & Hs' & Hlen). by simplify_eq.
Qed.

Ltac rules_of_request :=
  rewrite ?is_ok_then, ?is_ok_with_pgr, ?is_ok_guard, ?is_ok_int_range,
    ?is_ok_validate_bool;
  rewrite ?andb_true_iff, ?in_range_spec, ?negb_true_iff, ?Z.ltb_ge,
    ?Z.eqb_eq.

(** For the six tools whose fields are all scalars, the call is made
    exactly when every rule of the tool holds: the ranges of the counts and
    sizes, the enumerations, the boolean type of [replacement] where the
    tool checks it, and a valid randomization spec. *)
Theorem calls_made_under_rules pgr log :
  let pgr_ok := is_ok (_validate_pregenerated_randomization pgr) = true in
  (∀ n mn mx rep base,
     made_call (generate_integers n mn mx rep base pgr log) log
       "generateIntegers"
     ↔ 1 <= n <= 10000
       ∧ -1000000000 <= mn <= 1000000000
       ∧ -1000000000 <= mx <= 1000000000
       ∧ mn <= mx ∧ base ∈ [2; 8; 10; 16] ∧ pgr_ok)
  ∧ (∀ n places rep,
       made_call (generate_decimal_fractions n places rep pgr log) log
         "generateDecimalFractions"
       ↔ 1 <= n <= 10000 ∧ 1 <= places <= 14 ∧ is_bool rep = true ∧ pgr_ok)
  ∧ (∀ n mean sd digits,
       made_call (generate_gaussians n mean sd digits pgr log) log
         "generateGaussians"
       ↔ 1 <= n <= 10000 ∧ float_in_range mean = true
         ∧ float_in_range sd = true ∧ 2 <= digits <= 14 ∧ pgr_ok)
  ∧ (∀ n len chars rep,
       made_call (generate_strings n len chars rep pgr log) log
         "generateStrings"
       ↔ 1 <= n <= 10000 ∧ 1 <= len <= 32
         ∧ (∃ s, chars = VStr s ∧ 1 <= str_len s <= 128)
         ∧ is_bool rep = true ∧ pgr_ok)
  ∧ (∀ n,
       made_call (generate_uuids n pgr log) log "generateUUIDs"
       ↔ 1 <= n <= 1000 ∧ pgr_ok)
  ∧ (∀ n size format,
       made_call (generate_blobs n size format pgr log) log "generateBlobs"
       ↔ 1 <= n <= 100 ∧ 1 <= size <= 1048576 ∧ size mod 8 = 0
         ∧ n * size <= 1048576 ∧ format ∈ ["base64"; "hex"] ∧ pgr_ok).
Proof.
  clear ascii_digits_Nd str_container.
  intros pgr_ok. subst pgr_ok. repeat apply conj; intros.
  - rewrite generate_integers_run, made_call_iff. unfold integers_request.
    rules_of_request.
    rewrite (existsb_elem_of Z.eqb) by apply Z.eqb_eq. tauto.
  - rewrite generate_decimal_fractions_run, made_call_iff.
    unfold decimal_fractions_request. rules_of_request. tauto.
  - rewrite generate_gaussians_run, made_call_iff.
    unfold gaussians_request. rules_of_request. tauto.
  - rewrite generate_strings_run, made_call_iff.
    unfold strings_request. rules_of_request.
    rewrite is_ok_characters. tauto.
  - rewrite generate_uuids_run, made_call_iff.
    unfold uuids_request. rules_of_request. tauto.
  - rewrite generate_blobs_run, made_call_iff.
    unfold blobs_request. rules_of_request.
    rewrite (existsb_elem_of String.eqb) by apply String.eqb_eq. tauto.
Qed.

(** *** The RPC client down to the wire *)

Lemma has_key_Some d k (v : value) : d !! k = Some v → has_key d k = true.
Proof. intros Hk. unfold has_key. apply bool_decide_eq_true. by exists v. Qed.

Lemma has_key_None (d : gmap string value) k :
  d !! k = None → has_key d k = false.
Proof.
  intros Hk. unfold has_key. apply bool_decide_eq_false.
  rewrite Hk. by intros [v Hv].
Qed.

Lemma has_error_dict d :
  has_error (VDict d)
  = Ok (match d !! "error" with Some e => truthy e | None => false end).
Proof.
  unfold has_error. cbn [py_in py_getkey].
  destruct (d !! "error") as [e|] eqn:He.
  - by rewrite (has_key_Some _ _ e).
  - by rewrite has_key_None.
Qed.

Lemma response_not_dict data :
  (∀ d, data ≠ VDict d) → ∃ f, rpc_response data = Raise (TypeError f).
Proof.
  intros Hd. unfold rpc_response, has_error.
  destruct data as [| | |s|l|d]; cbn [py_in]; try by eexists.
  - destruct (contains "error" s); cbn; by eexists.
  - destruct (existsb _ l); cbn; by eexists.
  - by destruct (Hd d).
Qed.

Lemma map_error_raises code msg data e :
  _map_random_org_error code msg data = Raise e → e = TypeError Unhashable.
Proof.
  unfold _map_random_org_error, dict_get.
  destruct (hashable code); cbn; intros He; by simplify_eq.
Qed.

Ltac not_a_dict H :=
  match type of H with
  | rpc_response ?x = _ =>
      destruct (response_not_dict x) as [? Hfault]; [done|];
      rewrite Hfault in H
  end.

(** The body of lines 88-96 on a dict, by the entry under [error]. *)
Lemma response_dict d :
  rpc_response (VDict d)
  = match d !! "error" with
    | Some e =>
        if truthy e
        then friendly <- friendly_of e ;; Raise (RuntimeError friendly)
        else py_getkey (VDict d) "result"
    | None => py_getkey (VDict d) "result"
    end.
Proof.
  unfold rpc_response. rewrite has_error_dict. cbn [bind result_raising].
  destruct (d !! "error") as [e|] eqn:He; [|reflexivity].
  destruct (truthy e); [|reflexivity].
  cbn [py_getkey]. by rewrite He.
Qed.

Lemma dict_truthy_nonempty (d : gmap string value) :
  dict_truthy d = true ↔ d ≠ ∅.
Proof.
  unfold dict_truthy. rewrite negb_true_iff, Nat.eqb_neq.
  by rewrite map_size_empty_iff.
Qed.

(** With a missing or empty key nothing is posted and the missing-key
    error is raised.  With a key, one request is posted: to the endpoint
    of line 12, as JSON-RPC 2.0, with the method as given and the clock
    reading as id; its parameters are the caller's, and under [apiKey] the
    key of the environment, unless the caller's parameters hold an [apiKey]
    entry of their own, which is the one posted.  The outcome is that of
    the exchange. *)
Theorem client_posts_one_request env method params wire :
  let key := environ env !! API_KEY_ENV in
  (key = None ∨ key = Some "" →
   _random_org_rpc_wire env method params wire
   = (Raise (RuntimeError missing_key_text), wire))
  ∧ (∀ k, key = Some k → k ≠ "" →
       ∃ sent,
         _random_org_rpc_wire env method params wire
         = (rpc_exchange (network env sent), wire ++ [sent])
         ∧ posted_url sent = "https://api.random.org/json-rpc/4/invoke"
         ∧ payload_jsonrpc (posted_json sent) = "2.0"
         ∧ payload_method (posted_json sent) = method
         ∧ payload_id (posted_json sent) = clock_ms env
         ∧ (∀ name, name ≠ "apiKey" →
              payload_params (posted_json sent) !! name = params !! name)
         ∧ payload_params (posted_json sent) !! "apiKey"
           = Some (default (JV (VStr k)) (params !! "apiKey"))).
Proof.
  intros key. subst key. unfold _random_org_rpc_wire. split.
  - intros [-> | ->]; reflexivity.
  - intros k -> Hk.
    assert (String.eqb k "" = false) as -> by by apply String.eqb_neq.
    eexists. split; [reflexivity|]. cbn.
    repeat split.
    + intros name Hname. unfold keyed_params.
      destruct (params !! name) as [v|] eqn:Hp.
      * by apply lookup_union_Some_l.
      * apply lookup_union_None. split; [done|].
        by apply lookup_singleton_ne.
    + unfold keyed_params.
      destruct (params !! "apiKey") as [v|] eqn:Hp; cbn.
      * by apply lookup_union_Some_l.
      * rewrite lookup_union_r by done. apply lookup_singleton_eq.
Qed.

(** The client returns normally exactly on a body that is a dict with a
    [result] entry and no [error] entry that counts as true: [None],
    [False], 0, the empty string, list or dict under [error] are no error.
    What it returns is the [result] entry. *)
Theorem response_result_iff data v :
  rpc_response data = Ok v
  ↔ ∃ d, data = VDict d ∧ d !! "result" = Some v
         ∧ (∀ e, d !! "error" = Some e → truthy e = false).
Proof.
  split.
  - intros Hrun.
    destruct data as [| | |s|l|d]; try by not_a_dict Hrun.
    exists d. split; [reflexivity|].
    rewrite response_dict in Hrun.
    assert (py_getkey (VDict d) "result" = Ok v → d !! "result" = Some v)
      as Hres.
    { cbn. destruct (d !! "result"); by inversion 1. }
    destruct (d !! "error") as [e|] eqn:He.
    + destruct (truthy e) eqn:Ht.
      * destruct (friendly_of e); discriminate.
      * split; [by apply Hres|]. intros e' ?. by simplify_eq.
    + split; [by apply Hres|]. intros e' ?. discriminate.
  - intros (d & -> & Hres & Herr). rewrite response_dict.
    assert (py_getkey (VDict d) "result" = Ok v) as Hget.
    { cbn. by rewrite Hres. }
    destruct (d !! "error") as [e|] eqn:He; [|exact Hget].
    by rewrite (Herr e).
Qed.

(** The client raises its [RuntimeError] on a decoded body exactly when
    the body is a dict whose [error] entry is a dict that is not empty and
    whose code can be a dictionary key; the text is the mapper's for that
    code, the message ([str()] of it, the empty string when absent) and
    the [data] entry when that is a dict.  An absent code counts as
    [None]. *)
Theorem response_runtime_error_iff data text :
  rpc_response data = Raise (RuntimeError text)
  ↔ ∃ d err, data = VDict d ∧ d !! "error" = Some (VDict err) ∧ err ≠ ∅
      ∧ _map_random_org_error (default VNone (err !! "code"))
          (py_str (default (VStr "") (err !! "message")))
          (match default (VDict ∅) (err !! "data") with
           | VDict dd => Some dd
           | _ => None
           end) = Ok text.
Proof.
  split.
  - intros Hrun.
    destruct data as [| | |s|l|d]; try by not_a_dict Hrun.
    rewrite response_dict in Hrun.
    assert (py_getkey (VDict d) "result" ≠ Raise (RuntimeError text))
      as Hres.
    { cbn. by destruct (d !! "result"). }
    destruct (d !! "error") as [e|] eqn:He; [|done].
    destruct (truthy e) eqn:Ht; [|done].
    destruct e as [| | | | |err]; try discriminate.
    exists d, err. split; [reflexivity|]. split; [exact He|].
    split; [by apply dict_truthy_nonempty|].
    unfold friendly_of in Hrun.
    cbn [py_get py_get_or bind result_raising] in Hrun.
    destruct (_map_random_org_error _ _ _) as [t|e] eqn:Hmap.
    + by simplify_eq.
    + apply map_error_raises in Hmap. by simplify_eq.
  - intros (d & err & -> & He & Hne & Htext).
    rewrite response_dict, He. cbn [truthy].
    apply dict_truthy_nonempty in Hne. rewrite Hne.
    unfold friendly_of. cbn [py_get py_get_or bind result_raising].
    by rewrite Htext.
Qed.

(** The other ways a decoded body ends: a body that is no dict raises
    [TypeError]; a dict without an error that counts and without [result]
    raises [KeyError]; an [error] entry that counts as true and is no dict
    raises [AttributeError]; an error object whose code is a list or a
    dict raises the mapper's [TypeError]. *)
Theorem response_faults :
  (∀ data, (∀ d, data ≠ VDict d) →
     ∃ f, rpc_response data = Raise (TypeError f))
  ∧ (∀ d, (∀ e, d !! "error" = Some e → truthy e = false) →
       d !! "result" = None →
       rpc_response (VDict d) = Raise (KeyError "result"))
  ∧ (∀ d e, d !! "error" = Some e → truthy e = true →
       (∀ err, e ≠ VDict err) →
       rpc_response (VDict d) = Raise AttributeError)
  ∧ (∀ d err c, d !! "error" = Some (VDict err) → err ≠ ∅ →
       err !! "code" = Some c → hashable c = false →
       rpc_response (VDict d) = Raise (TypeError Unhashable)).
Proof.
  split; [exact response_not_dict|]. repeat split.
  - intros d Herr Hres. rewrite response_dict.
    assert (py_getkey (VDict d) "result" = Raise (KeyError "result"))
      as Hget.
    { cbn. by rewrite Hres. }
    destruct (d !! "error") as [e|] eqn:He; [|exact Hget].
    by rewrite (Herr e).
  - intros d e He Ht Hnd. rewrite response_dict, He, Ht.
    destruct e as [| | | | |err]; try reflexivity. by destruct (Hnd err).
  - intros d err c He Hne Hc Hhash. rewrite response_dict, He.
    cbn [truthy]. apply dict_truthy_nonempty in Hne. rewrite Hne.
    unfold friendly_of. cbn [py_get py_get_or bind result_raising].
    rewrite Hc. change (default VNone (Some c)) with c.
    unfold _map_random_org_error, dict_get. by rewrite Hhash.
Qed.

Lemma client_texts_NoDup :
  NoDup (missing_key_text :: network_text :: parse_text :: hint_table.*2).
Proof. apply (bool_decide_unpack _). by vm_compute. Qed.

(** Every failure of the exchange that the client handles comes out as a
    [RuntimeError].  An HTTP status of the hint table gives that hint and
    nothing else; any other status gives the fallback text with the status
    and the text of the HTTP error; a transport failure and a body that is
    not JSON give their own fixed texts.  These texts, the hints and the
    missing-key text differ from one another. *)
Theorem exchange_failures :
  (∀ c h text, (c, h) ∈ hint_table →
     rpc_exchange (HTTPStatusError c text) = Raise (RuntimeError h))
  ∧ (∀ c text, c ∉ hint_table.*1 →
       rpc_exchange (HTTPStatusError c text)
       = Raise (RuntimeError
                  ("调用失败（代码：" +:+ pretty c +:+ "）。原始信息：" +:+ text)))
  ∧ rpc_exchange RequestError
    = Raise (RuntimeError
               "网络请求失败：无法连接到 Random.org。请检查本机网络与防火墙。")
  ∧ rpc_exchange JSONDecodeError
    = Raise (RuntimeError "响应解析失败：收到的不是合法的 JSON。")
  ∧ (∀ outcome, (∀ data, outcome ≠ Decoded data) →
       ∃ text, rpc_exchange outcome = Raise (RuntimeError text))
  ∧ NoDup (missing_key_text :: network_text :: parse_text :: hint_table.*2).
Proof.
  assert (∀ c text,
            rpc_exchange (HTTPStatusError c text)
            = Raise (RuntimeError
                       (default (fallback_hint (VInt c) text) (hints !! c))))
    as Hstatus.
  { intros c text. unfold rpc_exchange.
    by rewrite map_error_hashable. }
  repeat split.
  - intros c h text Hc%hints_lookup. by rewrite Hstatus, Hc.
  - intros c text Hc%hints_lookup_None. by rewrite Hstatus, Hc.
  - intros [c text| | |data] Hout; try by eexists.
    by destruct (Hout data).
  - exact client_texts_NoDup.
Qed.

(** *** The exceptions of the client in the tools *)

Lemma call_raises method primary (r : request) log e :
  remote (log ++ [RpcCall method r.2]) = Raise e →
  call_and_reshape method primary (Ok r) log
  = (Raise e, log ++ [RpcCall method r.2]).
Proof.
  intros Hremote. unfold call_and_reshape, _random_org_rpc. run_cbn.
  by rewrite Hremote.
Qed.

Lemma made_call_request method primary (req : result request) log :
  made_call (call_and_reshape method primary req log) log method →
  ∃ r, req = Ok r.
Proof.
  intros Hcall%made_call_iff. destruct req as [r|e]; [by exists r|done].
Qed.

Lemma pass_through method primary (req : result request) log e :
  (∀ call, remote (log ++ [call]) = Raise e) →
  made_call (call_and_reshape method primary req log) log method →
  (call_and_reshape method primary req log).1 = Raise e.
Proof.
  intros Hremote [r ->]%made_call_request.
  by rewrite (call_raises _ _ _ _ e).
Qed.

(** An exception of the RPC client reaches the caller of every tool as it
    is: no tool catches it, wraps it or turns it into a result.  So a call
    that has passed validation and whose request fails ends in the
    client's own exception. *)
Theorem client_errors_pass_through log e :
  (∀ call, remote (log ++ [call]) = Raise e) →
  (∀ n mn mx rep base pgr,
     let run := generate_integers n mn mx rep base pgr log in
     made_call run log "generateIntegers" → run.1 = Raise e)
  ∧ (∀ n len mn mx rep base pgr,
       let run := generate_integer_sequences n len mn mx rep base pgr log in
       made_call run log "generateIntegerSequences" → run.1 = Raise e)
  ∧ (∀ n places rep pgr,
       let run := generate_decimal_fractions n places rep pgr log in
       made_call run log "generateDecimalFractions" → run.1 = Raise e)
  ∧ (∀ n mean sd digits pgr,
       let run := generate_gaussians n mean sd digits pgr log in
       made_call run log "generateGaussians" → run.1 = Raise e)
  ∧ (∀ n len chars rep pgr,
       let run := generate_strings n len chars rep pgr log in
       made_call run log "generateStrings" → run.1 = Raise e)
  ∧ (∀ n pgr,
       let run := generate_uuids n pgr log in
       made_call run log "generateUUIDs" → run.1 = Raise e)
  ∧ (∀ n size format pgr,
       let run := generate_blobs n size format pgr log in
       made_call run log "generateBlobs" → run.1 = Raise e)
  ∧ get_usage log = (Raise e, log ++ [RpcCall "getUsage" ∅]).
Proof.
  intros Hremote. repeat apply conj; intros.
  - subst run. revert H. rewrite generate_integers_run. by apply pass_through.
  - subst run. revert H. rewrite generate_integer_sequences_run.
    by apply pass_through.
  - subst run. revert H. rewrite generate_decimal_fractions_run.
    by apply pass_through.
  - subst run. revert H. rewrite generate_gaussians_run.
    by apply pass_through.
  - subst run. revert H. rewrite generate_strings_run. by apply pass_through.
  - subst run. revert H. rewrite generate_uuids_run. by apply pass_through.
  - subst run. revert H. rewrite generate_blobs_run. by apply pass_through.
  - unfold get_usage, _random_org_rpc. by rewrite Hremote.
Qed.

Lemma key_missing_raises env wire method params :
  environ env !! API_KEY_ENV = None ∨ environ env !! API_KEY_ENV = Some "" →
  (_random_org_rpc_wire env method params wire).1
  = Raise (RuntimeError missing_key_text).
Proof. unfold _random_org_rpc_wire. by intros [-> | ->]. Qed.

Lemma call_without_key env wire method primary (req : result request) log :
  served_from env wire log →
  environ env !! API_KEY_ENV = None ∨ environ env !! API_KEY_ENV = Some "" →
  call_and_reshape method primary req log
  = match req with
    | Ok r => (Raise (RuntimeError missing_key_text),
               log ++ [RpcCall method r.2])
    | Raise e => (Raise e, log)
    end.
Proof.
  intros Hserved Hkey. destruct req as [r|e]; [|reflexivity].
  apply call_raises. rewrite Hserved. by apply key_missing_raises.
Qed.

(** With no API key in the environment, or an empty one, every tool still
    validates its arguments first: a call that breaks a rule ends in its
    validation error as it would with a key, and a call that passes ends
    in the missing-key [RuntimeError].  [get_usage], which validates
    nothing, always ends in it. *)
Theorem missing_key_after_validation env wire log :
  served_from env wire log →
  environ env !! API_KEY_ENV = None ∨ environ env !! API_KEY_ENV = Some "" →
  let after_validation (req : result request) method :=
    match req with
    | Ok r => (Raise (RuntimeError missing_key_text),
               log ++ [RpcCall method r.2])
    | Raise e => (Raise e, log)
    end in
  (∀ n mn mx rep base pgr,
     generate_integers n mn mx rep base pgr log
     = after_validation (integers_request n mn mx rep base pgr)
         "generateIntegers")
  ∧ (∀ n len mn mx rep base pgr,
       generate_integer_sequences n len mn mx rep base pgr log
       = after_validation (sequences_request n len mn mx rep base pgr)
           "generateIntegerSequences")
  ∧ (∀ n places rep pgr,
       generate_decimal_fractions n places rep pgr log
       = after_validation (decimal_fractions_request n places rep pgr)
           "generateDecimalFractions")
  ∧ (∀ n mean sd digits pgr,
       generate_gaussians n mean sd digits pgr log
       = after_validation (gaussians_request n mean sd digits pgr)
           "generateGaussians")
  ∧ (∀ n len chars rep pgr,
       generate_strings n len chars rep pgr log
       = after_validation (strings_request n len chars rep pgr)
           "generateStrings")
  ∧ (∀ n pgr,
       generate_uuids n pgr log
       = after_validation (uuids_request n pgr) "generateUUIDs")
  ∧ (∀ n size format pgr,
       generate_blobs n size format pgr log
       = after_validation (blobs_request n size format pgr) "generateBlobs")
  ∧ get_usage log
    = (Raise (RuntimeError missing_key_text),
       log ++ [RpcCall "getUsage" ∅]).
Proof.
  intros Hserved Hkey after_validation. subst after_validation.
  repeat apply conj; intros.
  - rewrite generate_integers_run. by eapply call_without_key.
  - rewrite generate_integer_sequences_run. by eapply call_without_key.
  - rewrite generate_decimal_fractions_run. by eapply call_without_key.
  - rewrite generate_gaussians_run. by eapply call_without_key.
  - rewrite generate_strings_run. by eapply call_without_key.
  - rewrite generate_uuids_run. by eapply call_without_key.
  - rewrite generate_blobs_run. by eapply call_without_key.
  - unfold get_usage, _random_org_rpc. rewrite Hserved.
    by rewrite key_missing_raises.
Qed.

(** *** generate_integer_sequences: what an accepted call satisfies *)

Lemma bind_ok_inv {A B} (c : result A) (k : A → result B) r :
  (x <- c ;; k x) = Ok r → ∃ a, c = Ok a ∧ k a = Ok r.
Proof. destruct c as [a|e]; [by exists a|discriminate]. Qed.

Lemma then_ok_inv {B} (c : result unit) (k : result B) r :
  (c ;;; k) = Ok r → c = Ok tt ∧ k = Ok r.
Proof. destruct c as [[]|e]; [done|discriminate]. Qed.

Lemma int_range_ok_inv v name lo hi :
  _validate_int_range v name lo hi = Ok tt →
  ∃ z, as_int v = Some z ∧ lo <= z <= hi.
Proof.
  unfold _validate_int_range. destruct (as_int v) as [z|]; [|discriminate].
  intros Hg. exists z. split; [reflexivity|].
  apply in_range_spec. by destruct (in_range lo z hi).
Qed.

Lemma validate_bool_ok_inv v name :
  _validate_bool v name = Ok tt → ∃ b, v = VBool b.
Proof. destruct v; try discriminate. by eexists. Qed.

Lemma validate_base_ok_inv v name :
  _validate_base v name = Ok tt →
  ∃ z, as_int v = Some z ∧ z ∈ [2; 8; 10; 16].
Proof.
  unfold _validate_base, py_eq_int.
  destruct (as_int v) as [z|]; [|discriminate].
  intros Hg. exists z. split; [reflexivity|].
  apply (existsb_elem_of Z.eqb); [apply Z.eqb_eq|].
  by destruct (existsb _ _).
Qed.

Lemma lookup_enumerate {A} (l : list A) i x :
  l !! i = Some x → (i, x) ∈ enumerate l.
Proof.
  intros Hl. apply (list_elem_of_lookup_2 _ i). unfold enumerate.
  by rewrite list_lookup_imap, Hl.
Qed.

Lemma length_per_sequence n v :
  0 <= n → (∀ l, v = VList l → Z.of_nat (length l) = n) →
  Z.of_nat (length (per_sequence n v)) = n.
Proof.
  intros Hn Hl. destruct v; cbn; rewrite ?length_replicate; try lia.
  by apply Hl.
Qed.

(** What the normalizer has checked when it returns: the shape of the
    field and every value the field gives to a sequence. *)
Lemma ensure_ok_inv name v n (f : value → string → result unit) r :
  0 <= n →
  _ensure_scalar_or_list name v n (Some f) (Some f) = Ok r →
  r = (negb (is_list v), v)
  ∧ Z.of_nat (length (per_sequence n v)) = n
  ∧ Forall (λ x, ∃ nm, f x nm = Ok tt) (per_sequence n v).
Proof.
  intros Hn Hrun. split; [by eapply ensure_value|].
  destruct (is_list v) eqn:Hv.
  - destruct v as [| | | |l|]; try discriminate. cbn in Hrun |- *.
    destruct (Z.of_nat (length l) =? n) eqn:Hlen; [|discriminate].
    apply Z.eqb_eq in Hlen. split; [exact Hlen|].
    cbn in Hrun.
    destruct (for_each _ _) as [[]|e] eqn:Hloop; [|discriminate].
    apply Forall_lookup. intros i x Hx.
    exists (item_name name i).
    by apply (proj1 (for_each_ok_iff _ _) Hloop (i, x)), lookup_enumerate.
  - rewrite ensure_scalar in Hrun by done.
    apply then_ok_inv in Hrun as [Hf _].
    assert (per_sequence n v = replicate (Z.to_nat n) v) as ->
      by by destruct v.
    rewrite length_replicate. split; [lia|].
    apply Forall_replicate. by exists name.
Qed.

Lemma Forall_as_int (P : Z → Prop) (xs : list value) :
  Forall (λ x, ∃ z, as_int x = Some z ∧ P z) xs →
  ∃ zs, as_int <$> xs = Some <$> zs ∧ Forall P zs.
Proof.
  induction 1 as [|x xs (z & Hz & HP) _ (zs & Hzs & HPs)].
  - by exists [].
  - exists (z :: zs). cbn. rewrite Hz, Hzs. by split; [|constructor].
Qed.

Lemma sum_from_as_int acc xs zs :
  as_int <$> xs = Some <$> zs → sum_from acc xs = Ok (acc + sum_of zs).
Proof.
  revert acc zs. induction xs as [|x xs IH]; intros acc [|z zs] Hzs;
    try discriminate; cbn in *.
  - f_equal. lia.
  - injection Hzs as Hx Hzs. rewrite Hx, (IH _ zs) by done.
    unfold sum_of. f_equal. lia.
Qed.

Lemma sum_of_replicate k z : sum_of (replicate k z) = Z.of_nat k * z.
Proof. unfold sum_of. induction k as [|k IH]; cbn [replicate foldr]; lia. Qed.

(** Lines 314-319 once the lengths are known to be integers: one test of
    their sum. *)
Lemma lengths_total_ints n v lens :
  1 <= n → as_int <$> per_sequence n v = Some <$> lens →
  lengths_total_check n (negb (is_list v), v)
  = guard (in_range 1 (sum_of lens) 10000)
      (ValueError (LengthsTotal (sum_of lens))).
Proof.
  intros Hn Hlens. unfold lengths_total_check. cbn [fst snd].
  destruct (is_list v) eqn:Hv; cbn [negb].
  - destruct v as [| | | |l|]; try discriminate. cbn in Hlens.
    unfold _validate_lengths_total, py_sum. cbn [py_iter bind result_raising].
    by rewrite (sum_from_as_int 0 l lens).
  - assert (per_sequence n v = replicate (Z.to_nat n) v) as Hper
      by by destruct v.
    rewrite Hper, fmap_replicate in Hlens.
    assert (∃ k, as_int v = Some k) as [k Hk].
    { destruct (Z.to_nat n) eqn:Hnat; [lia|].
      destruct lens as [|k lens]; [discriminate|].
      injection Hlens as Hk _. by exists k. }
    rewrite Hk in Hlens |- *.
    assert (lens = replicate (Z.to_nat n) k) as ->.
    { apply (inj (fmap Some)). by rewrite fmap_replicate. }
    rewrite sum_of_replicate, Z2Nat.id by lia. reflexivity.
Qed.

Lemma iter_as_list n v :
  py_iter (_as_list n v (negb (is_list v))) = Ok (per_sequence n v).
Proof. by destruct v. Qed.

Lemma min_max_ok_inv n mn mx los his :
  as_int <$> per_sequence n mn = Some <$> los →
  as_int <$> per_sequence n mx = Some <$> his →
  length los = length his →
  min_max_check n (negb (is_list mn), mn) (negb (is_list mx), mx) = Ok tt →
  Forall2 Z.le los his.
Proof.
  intros Hlos Hhis Hlen Hrun. unfold min_max_check in Hrun.
  cbn [fst snd] in Hrun. rewrite !iter_as_list in Hrun.
  cbn [bind result_raising] in Hrun.
  apply Forall2_same_length_lookup_2; [exact Hlen|].
  intros i lo hi Hlo Hhi.
  assert (as_int <$> per_sequence n mn !! i = Some (Some lo)) as Ha.
  { by rewrite <- list_lookup_fmap, Hlos, list_lookup_fmap, Hlo. }
  assert (as_int <$> per_sequence n mx !! i = Some (Some hi)) as Hb.
  { by rewrite <- list_lookup_fmap, Hhis, list_lookup_fmap, Hhi. }
  destruct (per_sequence n mn !! i) as [a|] eqn:Hmn; [|discriminate].
  destruct (per_sequence n mx !! i) as [b|] eqn:Hmx; [|discriminate].
  cbn in Ha, Hb. simplify_eq.
  pose proof (proj1 (for_each_ok_iff _ _) Hrun (i, (a, b))) as Hbody.
  cbn [fst snd] in Hbody. unfold py_gt in Hbody.
  rewrite Ha, Hb in Hbody. cbn [bind result_raising] in Hbody.
  destruct (hi <? lo) eqn:Hgt.
  - exfalso. cut (Raise (ValueError (SeqMinGtMax i a b)) = Ok tt); [done|].
    apply Hbody, lookup_enumerate, lookup_zip_with_Some. by exists a, b.
  - by apply Z.ltb_ge.
Qed.

Lemma ensure_ints_inv name v n lo hi r :
  0 <= n →
  _ensure_scalar_or_list name v n
    (int_range_check lo hi) (int_range_check lo hi) = Ok r →
  r = (negb (is_list v), v)
  ∧ ∃ zs, as_int <$> per_sequence n v = Some <$> zs
          ∧ Z.of_nat (length zs) = n
          ∧ Forall (λ z, lo <= z <= hi) zs.
Proof.
  intros Hn Hrun. unfold int_range_check in Hrun.
  apply ensure_ok_inv in Hrun as (Hr & Hlen & Hitems); [|done].
  split; [exact Hr|].
  destruct (Forall_as_int (λ z, lo <= z <= hi) (per_sequence n v))
    as (zs & Hzs & Hrange).
  { eapply Forall_impl; [exact Hitems|].
    intros x [nm Hx]. by eapply int_range_ok_inv. }
  exists zs. split; [exact Hzs|]. split; [|exact Hrange].
  apply (f_equal length) in Hzs. rewrite !length_fmap in Hzs. lia.
Qed.

Lemma sequences_request_inv n len mn mx rep base pgr_arg r :
  sequences_request n len mn mx rep base pgr_arg = Ok r →
  1 <= n <= 1000
  ∧ ∃ lens los his reps bases spec,
      (as_int <$> per_sequence n len = Some <$> lens
       ∧ as_int <$> per_sequence n mn = Some <$> los
       ∧ as_int <$> per_sequence n mx = Some <$> his
       ∧ per_sequence n rep = VBool <$> reps
       ∧ as_int <$> per_sequence n base = Some <$> bases)
      ∧ (Z.of_nat (length lens) = n ∧ Z.of_nat (length los) = n
         ∧ Z.of_nat (length his) = n ∧ Z.of_nat (length reps) = n
         ∧ Z.of_nat (length bases) = n)
      ∧ (Forall (λ k, 1 <= k <= 10000) lens
         ∧ sum_of lens <= 10000
         ∧ Forall (λ z, -1000000000 <= z <= 1000000000) los
         ∧ Forall (λ z, -1000000000 <= z <= 1000000000) his
         ∧ Forall2 Z.le los his
         ∧ Forall (λ b, b ∈ [2; 8; 10; 16]) bases)
      ∧ _validate_pregenerated_randomization pgr_arg = Ok spec
      ∧ _validate_no_replacement_feasible
          (negb (is_list len)) len mn mx rep n = Ok tt
      ∧ r = ([("base", JV base); ("replacement", JV rep)], spec,
             with_pgr spec (list_to_map [
               ("n", JV (VInt n)); ("length", JV len); ("min", JV mn);
               ("max", JV mx); ("replacement", JV rep);
               ("base", JV base)])).
Proof.
  intros Hrun. unfold sequences_request in Hrun.
  apply then_ok_inv in Hrun as [Hn Hrun].
  apply int_range_ok_inv in Hn as (? & [= <-] & Hn).
  split; [exact Hn|].
  apply bind_ok_inv in Hrun as (r_len & Hlen & Hrun).
  apply ensure_ints_inv in Hlen as (-> & lens & Hlens & Hlens_n & Hlens_ok);
    [|lia].
  apply then_ok_inv in Hrun as [Htotal Hrun].
  rewrite (lengths_total_ints n len lens) in Htotal by (done || lia).
  apply bind_ok_inv in Hrun as (r_mn & Hmn & Hrun).
  apply ensure_ints_inv in Hmn as (-> & los & Hlos & Hlos_n & Hlos_ok);
    [|lia].
  apply bind_ok_inv in Hrun as (r_mx & Hmx & Hrun).
  apply ensure_ints_inv in Hmx as (-> & his & Hhis & Hhis_n & Hhis_ok);
    [|lia].
  apply then_ok_inv in Hrun as [Hminmax Hrun].
  apply (min_max_ok_inv n mn mx los his) in Hminmax; [|done|done|lia].
  apply bind_ok_inv in Hrun as (r_rep & Hrep & Hrun).
  apply ensure_ok_inv in Hrep as (-> & Hrep_n & Hrep_ok); [|lia].
  apply bind_ok_inv in Hrun as (r_base & Hbase & Hrun).
  apply ensure_ok_inv in Hbase as (-> & Hbase_n & Hbase_ok); [|lia].
  apply bind_ok_inv in Hrun as (spec & Hspec & Hrun).
  apply then_ok_inv in Hrun as [Hfeasible Hrun].
  cbn [fst snd] in *. injection Hrun as <-.
  assert (∃ reps, per_sequence n rep = VBool <$> reps) as [reps Hreps].
  { clear -Hrep_ok. induction Hrep_ok as [|x xs [nm Hx] _ [reps Hreps]].
    - by exists [].
    - apply validate_bool_ok_inv in Hx as [b ->].
      exists (b :: reps). cbn. by rewrite Hreps. }
  destruct (Forall_as_int (λ b, b ∈ [2; 8; 10; 16]) (per_sequence n base))
    as (bases & Hbases & Hbases_ok).
  { eapply Forall_impl; [exact Hbase_ok|].
    intros x [nm Hx]. by eapply validate_base_ok_inv. }
  exists lens, los, his, reps, bases, spec.
  repeat split; try done.
  - rewrite Hreps, length_fmap in Hrep_n. exact Hrep_n.
  - apply (f_equal length) in Hbases. rewrite !length_fmap in Hbases. lia.
  - unfold guard in Htotal.
    destruct (in_range 1 (sum_of lens) 10000) eqn:Hin; [|discriminate].
    apply in_range_spec in Hin. lia.
Qed.

(** Every call of [generate_integer_sequences] that reaches the service
    has [n] in [1, 1000] and, sequence by sequence, an integer length in
    [1, 10000], integer bounds in [-1e9, 1e9] with the minimum not above
    the maximum, a boolean replacement flag and a base among 2, 8, 10 and
    16; the lengths sum to at most 10000.  A scalar field stands for [n]
    copies of itself and a list field has exactly [n] items.  The
    parameters sent are the arguments as given, under the names of the
    API. *)
Theorem sequences_call_rules n len mn mx rep base pgr_arg log :
  made_call (generate_integer_sequences n len mn mx rep base pgr_arg log)
    log "generateIntegerSequences" →
  1 <= n <= 1000
  ∧ (∃ lens los his reps bases,
       (as_int <$> per_sequence n len = Some <$> lens
        ∧ as_int <$> per_sequence n mn = Some <$> los
        ∧ as_int <$> per_sequence n mx = Some <$> his
        ∧ per_sequence n rep = VBool <$> reps
        ∧ as_int <$> per_sequence n base = Some <$> bases)
       ∧ (Z.of_nat (length lens) = n ∧ Z.of_nat (length los) = n
          ∧ Z.of_nat (length his) = n ∧ Z.of_nat (length reps) = n
          ∧ Z.of_nat (length bases) = n)
       ∧ Forall (λ k, 1 <= k <= 10000) lens
       ∧ sum_of lens <= 10000
       ∧ Forall (λ z, -1000000000 <= z <= 1000000000) los
       ∧ Forall (λ z, -1000000000 <= z <= 1000000000) his
       ∧ Forall2 Z.le los his
       ∧ Forall (λ b, b ∈ [2; 8; 10; 16]) bases)
  ∧ (∃ spec,
       _validate_pregenerated_randomization pgr_arg = Ok spec
       ∧ (generate_integer_sequences n len mn mx rep base pgr_arg log).2
         = log ++ [RpcCall "generateIntegerSequences"
                     (with_pgr spec (list_to_map [
                        ("n", JV (VInt n)); ("length", JV len);
                        ("min", JV mn); ("max", JV mx);
                        ("replacement", JV rep); ("base", JV base)]))]).
Proof.
  rewrite generate_integer_sequences_run.
  intros Hcall. destruct (made_call_request _ _ _ _ Hcall) as [r Hr].
  rewrite Hr, call_log.
  apply sequences_request_inv in Hr
    as (Hn & lens & los & his & reps & bases & spec
        & Hfields & Hlengths & Hrules & Hspec & _ & ->).
  split; [exact Hn|]. split.
  - exists lens, los, his, reps, bases.
    exact (conj Hfields (conj Hlengths Hrules)).
  - by exists spec.
Qed.

Lemma scalar_ints n z zs :
  as_int <$> per_sequence n (VInt z) = Some <$> zs →
  zs = replicate (Z.to_nat n) z.
Proof.
  cbn. rewrite fmap_replicate. cbn. intros Hzs.
  apply (inj (fmap Some)). by rewrite fmap_replicate.
Qed.

Lemma Forall_replicate_inv {A} (P : A → Prop) k x :
  (0 < k)%nat → Forall P (replicate k x) → P x.
Proof. destruct k; [lia|]. cbn. by inversion 2. Qed.

(** In uniform form, where every field is one scalar, the service is
    called exactly when [n] is in [1, 1000], the length in [1, 10000] with
    [n] times the length at most 10000, the bounds in [-1e9, 1e9] with the
    minimum not above the maximum, the base among 2, 8, 10 and 16, the
    randomization spec valid and, when replacement is [False], the length
    at most max - min + 1. *)
Theorem sequences_uniform_rules n len lo hi (rep : bool) base pgr log :
  made_call
    (generate_integer_sequences n (VInt len) (VInt lo) (VInt hi)
       (VBool rep) (VInt base) pgr log)
    log "generateIntegerSequences"
  ↔ 1 <= n <= 1000 ∧ 1 <= len <= 10000 ∧ n * len <= 10000
    ∧ -1000000000 <= lo <= 1000000000 ∧ -1000000000 <= hi <= 1000000000
    ∧ lo <= hi ∧ base ∈ [2; 8; 10; 16]
    ∧ is_ok (_validate_pregenerated_randomization pgr) = true
    ∧ (rep = false → len <= hi - lo + 1).
Proof.
  rewrite generate_integer_sequences_run, made_call_iff. split.
  - intros Hok.
    destruct (sequences_request _ _ _ _ _ _ _) as [r|e] eqn:Hr; [|done].
    apply sequences_request_inv in Hr
      as (Hn & lens & los & his & reps & bases & spec
          & (Hlens & Hlos & Hhis & _ & Hbases) & _
          & (Hlens_ok & Hsum & Hlos_ok & Hhis_ok & Hle & Hbases_ok)
          & Hspec & Hfeasible & _).
    apply scalar_ints in Hlens, Hlos, Hhis, Hbases. subst.
    assert (0 < Z.to_nat n)%nat as Hpos by lia.
    apply Forall_replicate_inv in Hlens_ok, Hlos_ok, Hhis_ok, Hbases_ok;
      try done.
    rewrite sum_of_replicate, Z2Nat.id in Hsum by lia.
    apply Forall2_lookup_lr with (i := 0%nat) (x := lo) (y := hi) in Hle;
      try (apply lookup_replicate_2; lia).
    rewrite Hspec. repeat split; try done || lia.
    intros ->. rewrite feasible_uniform_false in Hfeasible by lia.
    destruct (hi - lo + 1 <? len) eqn:Hshort; [discriminate|].
    by apply Z.ltb_ge.
  - intros (Hn & Hlen & Htotal & Hlo & Hhi & Hle & Hbase & Hpgr & Hfeasible).
    destruct (_validate_pregenerated_randomization pgr) as [spec|] eqn:Hspec;
      [|discriminate].
    erewrite sequences_request_uniform; try done.
    + destruct rep.
      * by rewrite feasible_true by lia.
      * rewrite feasible_uniform_false by lia.
        assert ((hi - lo + 1 <? len) = false) as ->; [|done].
        apply Z.ltb_ge. by apply Hfeasible.
    + unfold _validate_base, py_eq_int. cbn [as_int].
      change (λ k, base =? k) with (Z.eqb base).
      assert (existsb (Z.eqb base) [2; 8; 10; 16] = true) as ->; [|done].
      apply (existsb_elem_of Z.eqb); [apply Z.eqb_eq|done].
Qed.

(** *** generate_integer_sequences: multiform throughout *)

Lemma feasible_lists_iff n (ls los his : list Z) (fs : list bool) :
  Z.of_nat (length ls) = n → Z.of_nat (length los) = n →
  Z.of_nat (length his) = n → Z.of_nat (length fs) = n →
  _validate_no_replacement_feasible false
    (VList (VInt <$> ls)) (VList (VInt <$> los)) (VList (VInt <$> his))
    (VList (VBool <$> fs)) n = Ok tt
  ↔ ∀ i len lo hi,
      fs !! i = Some false → ls !! i = Some len →
      los !! i = Some lo → his !! i = Some hi →
      len <= hi - lo + 1.
Proof.
  intros Hls Hlos Hhis Hfs.
  unfold _validate_no_replacement_feasible. cbn [is_bool py_len].
  rewrite length_fmap, Hfs. cbn [bind result_raising].
  rewrite Z.eqb_refl. cbn [guard ret result_raising].
  rewrite for_each_ok_iff.
  assert (∀ i, 0 <= i < n →
            ∃ f len lo hi,
              fs !! Z.to_nat i = Some f ∧ ls !! Z.to_nat i = Some len
              ∧ los !! Z.to_nat i = Some lo ∧ his !! Z.to_nat i = Some hi)
    as Hat.
  { intros i Hi.
    destruct (lookup_lt_is_Some_2 fs (Z.to_nat i)) as [f Hf]; [lia|].
    destruct (lookup_lt_is_Some_2 ls (Z.to_nat i)) as [len Hlen]; [lia|].
    destruct (lookup_lt_is_Some_2 los (Z.to_nat i)) as [lo Hlo]; [lia|].
    destruct (lookup_lt_is_Some_2 his (Z.to_nat i)) as [hi Hhi]; [lia|].
    by exists f, len, lo, hi. }
  split.
  - intros Hall i len lo hi Hf Hlen Hlo Hhi.
    assert (Z.of_nat i ∈ range n) as Hi.
    { apply elem_of_range. apply lookup_lt_Some in Hf. lia. }
    specialize (Hall _ Hi). cbn beta in Hall.
    rewrite (getitem_list _ i (VBool false)) in Hall
      by (by rewrite list_lookup_fmap, Hf).
    cbn [bind result_raising is_False] in Hall.
    rewrite (check_domain_ints _ _ _ _ _ hi lo len) in Hall
      by (by apply getitem_ints).
    destruct (hi - lo + 1 <? len) eqn:Hshort; [discriminate|].
    by apply Z.ltb_ge.
  - intros Hrule i Hi%elem_of_range.
    destruct (Hat i Hi) as (f & len & lo & hi & Hf & Hlen & Hlo & Hhi).
    rewrite <- (Z2Nat.id i) by lia.
    rewrite (getitem_list _ _ (VBool f))
      by (by rewrite list_lookup_fmap, Hf).
    cbn [bind result_raising].
    destruct f; [reflexivity|]. cbn [is_False].
    rewrite (check_domain_ints _ _ _ _ _ hi lo len)
      by (by apply getitem_ints).
    assert ((hi - lo + 1 <? len) = false) as ->; [|reflexivity].
    apply Z.ltb_ge. by apply (Hrule (Z.to_nat i)).
Qed.

Lemma ensure_list_ok name (l : list value) n
    (f : value → string → result unit) :
  Z.of_nat (length l) = n → Forall (λ x, ∀ nm, f x nm = Ok tt) l →
  _ensure_scalar_or_list name (VList l) n (Some f) (Some f)
  = Ok (false, VList l).
Proof.
  intros Hlen Hall. unfold _ensure_scalar_or_list.
  apply Z.eqb_eq in Hlen. rewrite Hlen.
  cbn [guard ret bind result_raising].
  rewrite for_each_ok; [reflexivity|].
  intros [i x] Hix%elem_of_enumerate. cbn [fst snd] in *.
  rewrite Forall_lookup in Hall. by eapply Hall.
Qed.

Lemma ensure_int_list_ok name (zs : list Z) n lo hi :
  Z.of_nat (length zs) = n → Forall (λ z, lo <= z <= hi) zs →
  _ensure_scalar_or_list name (VList (VInt <$> zs)) n
    (int_range_check lo hi) (int_range_check lo hi)
  = Ok (false, VList (VInt <$> zs)).
Proof.
  intros Hlen Hall. apply ensure_list_ok; [by rewrite length_fmap|].
  apply Forall_fmap. eapply Forall_impl; [exact Hall|].
  intros z Hz nm. by apply validate_int_range_ok.
Qed.

Lemma min_max_lists_ok n (los his : list Z) :
  Forall2 Z.le los his →
  min_max_check n (false, VList (VInt <$> los)) (false, VList (VInt <$> his))
  = Ok tt.
Proof.
  intros Hle. unfold min_max_check. cbn [fst snd _as_list py_iter].
  cbn [bind result_raising].
  apply for_each_ok. intros [i [a b]] Hp%elem_of_enumerate. cbn in *.
  apply lookup_zip_with_Some in Hp as (x & y & Heq & Hx & Hy).
  simplify_eq.
  rewrite list_lookup_fmap in Hx, Hy.
  destruct (los !! i) as [lo|] eqn:Hlo; [|discriminate].
  destruct (his !! i) as [hi|] eqn:Hhi; [|discriminate].
  cbn in Hx, Hy. simplify_eq. cbn.
  pose proof (Forall2_lookup_lr _ _ _ _ _ _ Hle Hlo Hhi) as Hi.
  assert ((hi <? lo) = false) as -> by (apply Z.ltb_ge; lia). reflexivity.
Qed.

Lemma ints_inj (zs zs' : list Z) (n : Z) :
  as_int <$> per_sequence n (VList (VInt <$> zs)) = Some <$> zs' → zs' = zs.
Proof.
  cbn. rewrite <- list_fmap_compose. intros Heq.
  symmetry. by apply (inj (fmap Some)).
Qed.

(** In multiform throughout, where every field is a list, of integers or
    of booleans, the service is called exactly when [n] is in [1, 1000],
    every list has [n] items, every length is in [1, 10000] and the
    lengths sum to at most 10000, the bounds are in [-1e9, 1e9] with each
    minimum not above its maximum, every base is among 2, 8, 10 and 16, the
    randomization spec is valid and every sequence whose own flag is
    [False] has a length of at most max - min + 1. *)
Theorem sequences_multiform_rules
    n (lens los his bases : list Z) (reps : list bool) pgr log :
  made_call
    (generate_integer_sequences n (VList (VInt <$> lens))
       (VList (VInt <$> los)) (VList (VInt <$> his))
       (VList (VBool <$> reps)) (VList (VInt <$> bases)) pgr log)
    log "generateIntegerSequences"
  ↔ 1 <= n <= 1000
    ∧ (Z.of_nat (length lens) = n ∧ Z.of_nat (length los) = n
       ∧ Z.of_nat (length his) = n ∧ Z.of_nat (length reps) = n
       ∧ Z.of_nat (length bases) = n)
    ∧ (Forall (λ k, 1 <= k <= 10000) lens
       ∧ sum_of lens <= 10000
       ∧ Forall (λ z, -1000000000 <= z <= 1000000000) los
       ∧ Forall (λ z, -1000000000 <= z <= 1000000000) his
       ∧ Forall2 Z.le los his
       ∧ Forall (λ b, b ∈ [2; 8; 10; 16]) bases)
    ∧ is_ok (_validate_pregenerated_randomization pgr) = true
    ∧ (∀ i len lo hi,
         reps !! i = Some false → lens !! i = Some len →
         los !! i = Some lo → his !! i = Some hi →
         len <= hi - lo + 1).
Proof.
  rewrite generate_integer_sequences_run, made_call_iff. split.
  - intros Hok.
    destruct (sequences_request _ _ _ _ _ _ _) as [r|e] eqn:Hr; [|done].
    apply sequences_request_inv in Hr
      as (Hn & lens' & los' & his' & reps' & bases' & spec
          & (Hlens & Hlos & Hhis & Hreps & Hbases) & Hlengths
          & Hrules & Hspec & Hfeasible & _).
    apply ints_inj in Hlens, Hlos, Hhis, Hbases.
    assert (Inj (=) (=) VBool) as Hinj by (by intros b b' [= ->]).
    cbn in Hreps. apply (inj (fmap VBool)) in Hreps. subst.
    split; [exact Hn|]. split; [exact Hlengths|]. split; [exact Hrules|].
    rewrite Hspec. split; [reflexivity|].
    destruct Hlengths as (? & ? & ? & ? & _).
    by apply (feasible_lists_iff n lens los his reps').
  - intros (Hn & (Hlens & Hlos & Hhis & Hreps & Hbases)
            & (Hlens_ok & Hsum & Hlos_ok & Hhis_ok & Hle & Hbases_ok)
            & Hpgr & Hfeasible).
    destruct (_validate_pregenerated_randomization pgr) as [spec|] eqn:Hspec;
      [|discriminate].
    unfold sequences_request.
    rewrite validate_int_range_ok by lia. cbn [bind result_raising].
    rewrite !ensure_int_list_ok by done. cbn [bind result_raising].
    rewrite (lengths_total_ints n (VList (VInt <$> lens)) lens)
      by (lia || by cbn; rewrite <- list_fmap_compose).
    assert (1 <= sum_of lens).
    { assert (Z.of_nat (length lens) <= sum_of lens); [|lia].
      clear -Hlens_ok. unfold sum_of.
      induction Hlens_ok as [|k ks Hk _ IH]; cbn [length foldr]; lia. }
    rewrite in_range_true by lia. cbn [guard ret bind result_raising].
    cbn [is_list negb]. rewrite min_max_lists_ok by done.
    cbn [bind result_raising].
    rewrite (ensure_list_ok "replacement" (VBool <$> reps))
      by (rewrite ?length_fmap; try done;
          apply Forall_fmap, Forall_true; by intros b nm).
    cbn [bind result_raising].
    rewrite (ensure_list_ok "base" (VInt <$> bases)).
    2:{ by rewrite length_fmap. }
    2:{ apply Forall_fmap. eapply Forall_impl; [exact Hbases_ok|].
        intros b Hb nm. unfold _validate_base, py_eq_int. cbn [as_int].
        change (λ k, b =? k) with (Z.eqb b).
        assert (existsb (Z.eqb b) [2; 8; 10; 16] = true) as ->; [|done].
        apply (existsb_elem_of Z.eqb); [apply Z.eqb_eq|done]. }
    cbn [bind result_raising fst snd]. rewrite Hspec.
    cbn [bind result_raising].
    by rewrite (proj2 (feasible_lists_iff n lens los his reps
                         Hlens Hlos Hhis Hreps) Hfeasible).
Qed.

(** *** What the tools hand back after the call *)

(** A validated randomization spec is a dict that is not empty, so
    [pgr or None] is [pgr]. *)
Lemma validated_spec_or_None pgr_arg spec :
  _validate_pregenerated_randomization pgr_arg = Ok spec →
  pgr_or_None spec = match spec with Some d => VDict d | None => VNone end.
Proof.
  intros Hpgr. destruct spec as [d|]; [|reflexivity].
  unfold pgr_or_None.
  assert (dict_truthy d = true) as ->; [|reflexivity].
  destruct pgr_arg as [| | | | |d0]; try discriminate.
  rewrite validate_pgr_dict in Hpgr.
  repeat (case_match; simplify_eq/=); try done;
    unfold guard in Hpgr; repeat (case_match; simplify_eq/=);
    apply dict_truthy_nonempty, insert_non_empty.
Qed.

Lemma call_hands_back method primary echoed pgr_arg spec params log
    res rnd data :
  NoDup (primary :: echoed.*1
         ++ ["pregeneratedRandomization"; "bitsUsed"; "bitsLeft";
             "requestsLeft"; "advisoryDelay"]) →
  _validate_pregenerated_randomization pgr_arg = Ok spec →
  remote (log ++ [RpcCall method params]) = Ok (VDict res) →
  res !! "random" = Some (VDict rnd) → rnd !! "data" = Some data →
  ∃ out,
    call_and_reshape method primary (Ok (echoed, spec, params)) log
    = (Ok out, log ++ [RpcCall method params])
    ∧ handed_back out primary echoed spec res data.
Proof.
  intros Hkeys Hpgr Hremote Hrandom Hdata.
  unfold call_and_reshape, _random_org_rpc. run_cbn. cbn [fst snd].
  rewrite Hremote. unfold random_data, reshape. cbn [py_getkey].
  rewrite Hrandom. cbn [bind result_raising py_getkey]. rewrite Hdata.
  cbn [bind result_raising py_get].
  rewrite (validated_spec_or_None pgr_arg) by done.
  eexists. split; [reflexivity|].
  set (fields := [(primary, JV data)] ++ echoed ++ _).
  assert (fields.*1 = primary :: echoed.*1
            ++ ["pregeneratedRandomization"; "bitsUsed"; "bitsLeft";
                "requestsLeft"; "advisoryDelay"]) as Hfst.
  { subst fields. by rewrite fmap_app, fmap_app. }
  assert (∀ k v, (k, v) ∈ fields →
            (list_to_map fields : gmap string json) !! k = Some v) as Hin.
  { intros k v Hkv. apply elem_of_list_to_map_1; [by rewrite Hfst|done]. }
  assert (∀ kv, kv ∈ echoed ++
            [("pregeneratedRandomization",
              JV (match spec with Some d => VDict d | None => VNone end));
             ("bitsUsed", JV (default VNone (res !! "bitsUsed")));
             ("bitsLeft", JV (default VNone (res !! "bitsLeft")));
             ("requestsLeft", JV (default VNone (res !! "requestsLeft")));
             ("advisoryDelay", JV (default VNone (res !! "advisoryDelay")))]
            → kv ∈ fields) as Hrest.
  { intros kv Hkv. subst fields. apply elem_of_app. by right. }
  repeat split.
  - apply Hin. subst fields. apply elem_of_app. left. apply list_elem_of_here.
  - intros k v Hkv. apply Hin, Hrest, elem_of_app. by left.
  - apply Hin, Hrest, elem_of_app. right. apply list_elem_of_here.
  - intros k Hk. apply Hin, Hrest, elem_of_app. right.
    repeat (apply elem_of_cons in Hk as [->|Hk];
            [repeat (apply list_elem_of_here || apply list_elem_of_further)|]).
    by apply elem_of_nil in Hk.
  - intros k [v Hk]. rewrite <- Hfst.
    apply elem_of_list_to_map_2 in Hk.
    apply list_elem_of_fmap. by exists (k, v).
Qed.

Ltac request_ok H Hspec :=
  repeat (apply then_ok_inv in H as [_ H]);
  rewrite Hspec in H; injection H as <-.

Ltac hands_back Hspec Hremote :=
  match goal with
  | Hrandom : ?res !! "random" = Some (VDict ?rnd),
    Hdata : ?rnd !! "data" = Some ?data
    |- ∃ out, (call_and_reshape ?m ?p (Ok (?ech, ?sp, ?params)) ?log).1
              = Ok out ∧ _ =>
      match type of Hspec with
      | _validate_pregenerated_randomization ?pa = _ =>
          destruct (call_hands_back m p ech pa sp params log res rnd data)
            as (out & Hrun & Hout);
          [apply (bool_decide_unpack _); by vm_compute
          |exact Hspec|apply Hremote|exact Hrandom|exact Hdata|];
          exists out; split; [exact (f_equal fst Hrun)|exact Hout]
      end
  end.

(** When the service answers with a result that holds [random.data], a
    tool that has made its call returns a mapping with exactly these
    entries: the data under the tool's own key, the arguments the tool
    echoes, the randomization spec as validated ([None] when none was
    given, never an empty dict), and the four quota fields, each with the
    entry of the result or [None] when the result has none.  [get_usage]
    returns the result itself. *)
Theorem tools_hand_back pgr_arg spec res rnd data log :
  _validate_pregenerated_randomization pgr_arg = Ok spec →
  (∀ call, remote (log ++ [call]) = Ok (VDict res)) →
  res !! "random" = Some (VDict rnd) → rnd !! "data" = Some data →
  let returns (run : result (gmap string json) * list rpc_call)
        method primary echoed :=
    made_call run log method →
    ∃ out, run.1 = Ok out ∧ handed_back out primary echoed spec res data in
  (∀ n mn mx rep base,
     returns (generate_integers n mn mx rep base pgr_arg log)
       "generateIntegers" "values"
       [("base", JV (VInt base)); ("replacement", JV rep)])
  ∧ (∀ n len mn mx rep base,
       returns (generate_integer_sequences n len mn mx rep base pgr_arg log)
         "generateIntegerSequences" "sequences"
         [("base", JV base); ("replacement", JV rep)])
  ∧ (∀ n places rep,
       returns (generate_decimal_fractions n places rep pgr_arg log)
         "generateDecimalFractions" "fractions"
         [("decimalPlaces", JV (VInt places)); ("replacement", JV rep)])
  ∧ (∀ n mean sd digits,
       returns (generate_gaussians n mean sd digits pgr_arg log)
         "generateGaussians" "values"
         [("mean", JFloat mean); ("standardDeviation", JFloat sd);
          ("significantDigits", JV (VInt digits))])
  ∧ (∀ n len chars rep,
       returns (generate_strings n len chars rep pgr_arg log)
         "generateStrings" "strings"
         [("length", JV (VInt len)); ("characters", JV chars);
          ("replacement", JV rep)])
  ∧ (∀ n,
       returns (generate_uuids n pgr_arg log) "generateUUIDs" "uuids" [])
  ∧ (∀ n size format,
       returns (generate_blobs n size format pgr_arg log)
         "generateBlobs" "blobs"
         [("size", JV (VInt size)); ("format", JV (VStr format))])
  ∧ get_usage log = (Ok (VDict res), log ++ [RpcCall "getUsage" ∅]).
Proof.
  intros Hspec Hremote Hrandom Hdata returns. subst returns.
  repeat apply conj; intros *.
  - rewrite generate_integers_run. intros [r Hr]%made_call_request.
    rewrite Hr. unfold integers_request in Hr. request_ok Hr Hspec.
    hands_back Hspec Hremote.
  - rewrite generate_integer_sequences_run. intros [r Hr]%made_call_request.
    rewrite Hr. apply sequences_request_inv in Hr
      as (_ & ? & ? & ? & ? & ? & spec' & _ & _ & _ & Hspec' & _ & ->).
    rewrite Hspec in Hspec'. injection Hspec' as <-.
    hands_back Hspec Hremote.
  - rewrite generate_decimal_fractions_run.
    intros [r Hr]%made_call_request.
    rewrite Hr. unfold decimal_fractions_request in Hr. request_ok Hr Hspec.
    hands_back Hspec Hremote.
  - rewrite generate_gaussians_run. intros [r Hr]%made_call_request.
    rewrite Hr. unfold gaussians_request in Hr. request_ok Hr Hspec.
    hands_back Hspec Hremote.
  - rewrite generate_strings_run. intros [r Hr]%made_call_request.
    rewrite Hr. unfold strings_request in Hr. request_ok Hr Hspec.
    hands_back Hspec Hremote.
  - rewrite generate_uuids_run. intros [r Hr]%made_call_request.
    rewrite Hr. unfold uuids_request in Hr. request_ok Hr Hspec.
    hands_back Hspec Hremote.
  - rewrite generate_blobs_run. intros [r Hr]%made_call_request.
    rewrite Hr. unfold blobs_request in Hr. request_ok Hr Hspec.
    hands_back Hspec Hremote.
  - unfold get_usage, _random_org_rpc. by rewrite Hremote.
Qed.

(** *** The exceptions of validation *)

Lemma bind_raise_inv {A B} (c : result A) (k : A → result B) e :
  (x <- c ;; k x) = Raise e →
  c = Raise e ∨ ∃ a, c = Ok a ∧ k a = Raise e.
Proof.
  destruct c as [a|e']; cbn; intros H.
  - right. by exists a.
  - left. by injection H as ->.
Qed.

Lemma guard_raise_inv b m e :
  guard (m := result) b (ValueError m) = Raise e →
  b = false ∧ e = ValueError m.
Proof. destruct b; [discriminate|]. by intros [= <-]. Qed.

Lemma int_range_raises v name lo hi e :
  _validate_int_range v name lo hi = Raise e → sound_error e.
Proof.
  unfold _validate_int_range.
  destruct (as_int v) as [z|] eqn:Hz; [|intros [= <-]; by split].
  intros [Hin ->]%guard_raise_inv. split; [reflexivity|].
  exists z. split; [exact Hz|]. rewrite <- in_range_spec. by rewrite Hin.
Qed.

Lemma validate_bool_raises v name e :
  _validate_bool v name = Raise e → sound_error e.
Proof. unfold _validate_bool. intros [_ ->]%guard_raise_inv. by split. Qed.

Lemma validate_base_raises v name e :
  _validate_base v name = Raise e → sound_error e.
Proof. unfold _validate_base. intros [_ ->]%guard_raise_inv. by split. Qed.

Lemma ensure_raises name v n (f : value → string → result unit) e :
  (∀ x nm e', f x nm = Raise e' → sound_error e') →
  _ensure_scalar_or_list name v n (Some f) (Some f) = Raise e →
  sound_error e.
Proof.
  intros Hf Hrun.
  destruct (is_list v) eqn:Hv.
  - destruct v as [| | | |l|]; try discriminate. cbn in Hrun.
    destruct (Z.of_nat (length l) =? n); cbn in Hrun;
      [|injection Hrun as <-; by split].
    destruct (for_each _ _) as [[]|e'] eqn:Hloop; cbn in Hrun;
      [discriminate|]. injection Hrun as <-.
    apply for_each_raise_inv in Hloop as (x & _ & Hx). by eapply Hf.
  - rewrite ensure_scalar in Hrun by done.
    destruct (f v name) as [[]|e'] eqn:Hfv; cbn in Hrun; [discriminate|].
    injection Hrun as <-. by eapply Hf.
Qed.

Lemma pgr_raises pgr e :
  _validate_pregenerated_randomization pgr = Raise e → sound_error e.
Proof.
  destruct pgr as [| | | | |d].
  1-5: cbn; intros H; simplify_eq; by split.
  rewrite validate_pgr_dict. intros H.
  repeat (case_match; simplify_eq/=); try (by split);
    unfold guard in H; repeat (case_match; simplify_eq/=); by split.
Qed.

Lemma min_max_raises n mn mx e :
  min_max_check n (negb (is_list mn), mn) (negb (is_list mx), mx) = Raise e →
  sound_error e.
Proof.
  unfold min_max_check. cbn [fst snd]. rewrite !iter_as_list.
  cbn [bind result_raising].
  intros (p & _ & Hp)%for_each_raise_inv.
  unfold py_gt in Hp.
  destruct (as_int p.2.1) as [x|] eqn:Hx; [|injection Hp as <-; by split].
  destruct (as_int p.2.2) as [y|] eqn:Hy; [|injection Hp as <-; by split].
  cbn [bind result_raising] in Hp.
  apply guard_raise_inv in Hp as [Hgt ->]. split; [reflexivity|].
  exists x, y. repeat split; try done.
  apply negb_false_iff, Z.ltb_lt in Hgt. exact Hgt.
Qed.

(** A field that has passed the normalizer as integers is subscripted
    without [IndexError]: a list has [n] items, and a scalar is an integer,
    which cannot be subscripted at all. *)
Lemma getitem_raises n v zs i e :
  0 <= i < n →
  as_int <$> per_sequence n v = Some <$> zs → Z.of_nat (length zs) = n →
  py_getitem v i = Raise e → ∃ f, e = TypeError f.
Proof.
  intros Hi Hzs Hlen Hget.
  assert (∀ x, as_int x = None →
            as_int <$> replicate (Z.to_nat n) x ≠ Some <$> zs) as Hnone.
  { intros x Hx Heq. destruct (Z.to_nat n) eqn:Hn; [lia|].
    destruct zs; cbn in Heq; [discriminate|]. by rewrite Hx in Heq. }
  destruct v as [| | |s|l|d]; cbn in Hzs;
    try (exfalso; eapply Hnone; [|exact Hzs]; reflexivity);
    try (injection Hget as <-; by eexists).
  exfalso. apply (f_equal length) in Hzs. rewrite !length_fmap in Hzs.
  destruct (l !! Z.to_nat i) as [x|] eqn:Hx.
  - rewrite <- (Z2Nat.id i) in Hget by lia.
    by rewrite (getitem_list _ _ x) in Hget.
  - apply lookup_ge_None in Hx. lia.
Qed.

Lemma check_domain_raises err L MIN MAX i e :
  err = Infeasible ∨ err = InfeasibleAt →
  (∀ e', py_getitem MAX i = Raise e' → ∃ f, e' = TypeError f) →
  (∀ e', py_getitem MIN i = Raise e' → ∃ f, e' = TypeError f) →
  (∀ e', py_getitem L i = Raise e' → ∃ f, e' = TypeError f) →
  check_domain err L MIN MAX i = Raise e → sound_error e.
Proof.
  intros Herr HMAX HMIN HL. unfold check_domain.
  destruct (py_getitem MAX i) as [hi|e'];
    [|destruct (HMAX e' eq_refl) as [f ->]; intros [= <-]; by split].
  destruct (py_getitem MIN i) as [lo|e'];
    [|destruct (HMIN e' eq_refl) as [f ->]; intros [= <-]; by split].
  cbn [bind result_raising]. unfold py_sub.
  destruct (as_int hi) as [x|]; [|intros [= <-]; by split].
  destruct (as_int lo) as [y|]; [|intros [= <-]; by split].
  cbn [bind result_raising].
  destruct (py_getitem L i) as [len|e'];
    [|destruct (HL e' eq_refl) as [f ->]; intros [= <-]; by split].
  cbn [bind result_raising]. unfold py_int_lt.
  destruct (as_int len) as [k|] eqn:Hk; [|intros [= <-]; by split].
  cbn [bind result_raising].
  intros [Hshort ->]%guard_raise_inv.
  apply negb_false_iff, Z.ltb_lt in Hshort.
  destruct Herr as [-> | ->]; (split; [reflexivity|by exists k]).
Qed.

Lemma getitem_repeat_raises v n i e :
  0 <= i < n → py_getitem (py_repeat v n) i = Raise e → ∃ f, e = TypeError f.
Proof. intros Hi. by rewrite getitem_repeat. Qed.

Lemma feasible_raises n len mn mx rep lens los his reps e :
  1 <= n →
  as_int <$> per_sequence n len = Some <$> lens → Z.of_nat (length lens) = n →
  as_int <$> per_sequence n mn = Some <$> los → Z.of_nat (length los) = n →
  as_int <$> per_sequence n mx = Some <$> his → Z.of_nat (length his) = n →
  per_sequence n rep = VBool <$> reps → Z.of_nat (length reps) = n →
  _validate_no_replacement_feasible (negb (is_list len)) len mn mx rep n
  = Raise e →
  sound_error e.
Proof.
  intros Hn Hlens Hlens_n Hlos Hlos_n Hhis Hhis_n Hreps Hreps_n.
  destruct (is_list len) eqn:Hlen; cbn [negb].
  - unfold _validate_no_replacement_feasible.
    assert (∀ err i e', i ∈ range n →
              check_domain err len mn mx i = Raise e' →
              err = Infeasible ∨ err = InfeasibleAt → sound_error e')
      as Hcheck.
    { intros err i e' Hi%elem_of_range Hrun Herr.
      eapply check_domain_raises; [exact Herr|..|exact Hrun];
        intros e''; by eapply getitem_raises. }
    destruct rep as [|b| | |rl|]; cbn in Hreps;
      try (destruct (Z.to_nat n) eqn:Hnat; [lia|];
           destruct reps; discriminate).
    + cbn [is_bool is_True]. destruct b; [discriminate|].
      intros (i & Hi & Hrun)%for_each_raise_inv.
      eapply Hcheck; [exact Hi|exact Hrun|by left].
    + cbn [is_bool py_len bind result_raising]. subst rl.
      rewrite length_fmap, Hreps_n, Z.eqb_refl.
      cbn [guard ret bind result_raising].
      intros (i & Hi & Hrun)%for_each_raise_inv.
      destruct (py_getitem _ i) as [r|e'] eqn:Hr.
      * cbn [bind result_raising] in Hrun.
        destruct (is_False r); [|discriminate].
        eapply Hcheck; [exact Hi|exact Hrun|by right].
      * exfalso. apply elem_of_range in Hi.
        destruct (reps !! Z.to_nat i) as [b|] eqn:Hb.
        -- rewrite <- (Z2Nat.id i) in Hr by lia.
           rewrite (getitem_list _ _ (VBool b)) in Hr; [done|].
           by rewrite list_lookup_fmap, Hb.
        -- apply lookup_ge_None in Hb. lia.
  - rewrite feasible_uniform_unfold by lia.
    intros (i & Hi%elem_of_range & Hrun)%for_each_raise_inv.
    destruct (is_False rep); [|discriminate].
    eapply check_domain_raises; [by right|..|exact Hrun];
      intros e'; by apply getitem_repeat_raises.
Qed.

(** Every exception of the validation phase of
    [generate_integer_sequences] is a [ValueError] or a [TypeError], and
    what it reports holds. *)
Lemma sequences_request_raises n len mn mx rep base pgr_arg e :
  sequences_request n len mn mx rep base pgr_arg = Raise e → sound_error e.
Proof.
  unfold sequences_request.
  destruct (_validate_int_range (VInt n) "n" 1 1000) as [[]|e0] eqn:Hn;
    cbn [bind result_raising];
    [|intros [= <-]; by eapply int_range_raises].
  apply int_range_ok_inv in Hn as (? & [= <-] & Hn).
  assert (∀ lo hi x nm e',
            (λ v nm, _validate_int_range v nm lo hi) x nm = Raise e' →
            sound_error e') as Hints.
  { intros lo hi x nm e'. apply int_range_raises. }
  destruct (_ensure_scalar_or_list "length" _ _ _ _) as [r_len|e0] eqn:Hlen;
    [|intros [= <-]; eapply ensure_raises; [apply Hints|exact Hlen]].
  apply ensure_ints_inv in Hlen as (-> & lens & Hlens & Hlens_n & Hlens_ok);
    [|lia].
  rewrite (lengths_total_ints n len lens) by (done || lia).
  destruct (guard _ _) as [[]|e0] eqn:Htotal.
  2:{ intros [= <-]. apply guard_raise_inv in Htotal as [Hin ->].
      split; [reflexivity|]. cbn.
      assert (1 <= sum_of lens); [|unfold in_range in Hin; lia].
      assert (Z.of_nat (length lens) <= sum_of lens); [|lia].
      clear -Hlens_ok. unfold sum_of.
      induction Hlens_ok as [|k ks Hk _ IH]; cbn [length foldr]; lia. }
  cbn [bind result_raising].
  destruct (_ensure_scalar_or_list "min" _ _ _ _) as [r_mn|e0] eqn:Hmn;
    [|intros [= <-]; eapply ensure_raises; [apply Hints|exact Hmn]].
  apply ensure_ints_inv in Hmn as (-> & los & Hlos & Hlos_n & _); [|lia].
  destruct (_ensure_scalar_or_list "max" _ _ _ _) as [r_mx|e0] eqn:Hmx;
    [|intros [= <-]; eapply ensure_raises; [apply Hints|exact Hmx]].
  apply ensure_ints_inv in Hmx as (-> & his & Hhis & Hhis_n & _); [|lia].
  destruct (min_max_check _ _ _) as [[]|e0] eqn:Hmm;
    [|intros [= <-]; by eapply min_max_raises].
  destruct (_ensure_scalar_or_list "replacement" _ _ _ _)
    as [r_rep|e0] eqn:Hrep;
    [|intros [= <-]; eapply ensure_raises; [|exact Hrep];
      intros x nm e'; apply validate_bool_raises].
  apply ensure_ok_inv in Hrep as (-> & Hrep_n & Hrep_ok); [|lia].
  destruct (_ensure_scalar_or_list "base" _ _ _ _) as [r_base|e0] eqn:Hbase;
    [|intros [= <-]; eapply ensure_raises; [|exact Hbase];
      intros x nm e'; apply validate_base_raises].
  destruct (_validate_pregenerated_randomization pgr_arg) as [spec|e0]
    eqn:Hspec;
    [|intros [= <-]; by eapply pgr_raises].
  cbn [fst snd].
  destruct (_validate_no_replacement_feasible _ _ _ _ _ _) as [[]|e0]
    eqn:Hfeasible; [discriminate|].
  intros [= <-].
  assert (∃ reps, per_sequence n rep = VBool <$> reps) as [reps Hreps].
  { clear -Hrep_ok. induction Hrep_ok as [|x xs [nm Hx] _ [reps Hreps]].
    - by exists [].
    - apply validate_bool_ok_inv in Hx as [b ->].
      exists (b :: reps). cbn. by rewrite Hreps. }
  eapply (feasible_raises n len mn mx rep lens los his reps);
    try done; try lia.
  rewrite Hreps, length_fmap in Hrep_n. exact Hrep_n.
Qed.

Lemma failed_fast_request method primary (req : result request) log e :
  call_and_reshape method primary req log = (Raise e, log) → req = Raise e.
Proof.
  destruct req as [r|e']; [|by intros [= <-]].
  intros Hrun. apply (f_equal snd) in Hrun. rewrite call_log in Hrun.
  apply (f_equal length) in Hrun. rewrite length_app in Hrun.
  cbn in Hrun. lia.
Qed.

Ltac step_raises H :=
  first
    [ apply int_range_raises in H as [H _]; exact H
    | apply validate_bool_raises in H as [H _]; exact H
    | apply pgr_raises in H as [H _]; exact H
    | apply guard_raise_inv in H as [_ ->]; reflexivity
    | discriminate H ].

Ltac request_raises H :=
  repeat (apply bind_raise_inv in H as [H | (? & _ & H)]);
  step_raises H.

Lemma characters_raises chars e :
  characters_check chars = Raise e → is_validation_error e = true.
Proof.
  destruct chars; cbn; try by intros [= <-].
  by intros [_ ->]%guard_raise_inv.
Qed.

(** A run of a tool that ends before its call to the service ends in a
    [ValueError] or a [TypeError]: no validation step raises anything
    else, so a [RuntimeError] is never a verdict on the arguments. *)
Theorem validation_raises_value_or_type_error log e :
  (∀ n mn mx rep base pgr,
     generate_integers n mn mx rep base pgr log = (Raise e, log) →
     is_validation_error e = true)
  ∧ (∀ n len mn mx rep base pgr,
       generate_integer_sequences n len mn mx rep base pgr log
       = (Raise e, log) →
       is_validation_error e = true)
  ∧ (∀ n places rep pgr,
       generate_decimal_fractions n places rep pgr log = (Raise e, log) →
       is_validation_error e = true)
  ∧ (∀ n mean sd digits pgr,
       generate_gaussians n mean sd digits pgr log = (Raise e, log) →
       is_validation_error e = true)
  ∧ (∀ n len chars rep pgr,
       generate_strings n len chars rep pgr log = (Raise e, log) →
       is_validation_error e = true)
  ∧ (∀ n pgr,
       generate_uuids n pgr log = (Raise e, log) →
       is_validation_error e = true)
  ∧ (∀ n size format pgr,
       generate_blobs n size format pgr log = (Raise e, log) →
       is_validation_error e = true).
Proof.
  repeat apply conj; intros *.
  - rewrite generate_integers_run. intros H%failed_fast_request.
    unfold integers_request in H. request_raises H.
  - rewrite generate_integer_sequences_run. intros H%failed_fast_request.
    by apply sequences_request_raises in H as [H _].
  - rewrite generate_decimal_fractions_run. intros H%failed_fast_request.
    unfold decimal_fractions_request in H. request_raises H.
  - rewrite generate_gaussians_run. intros H%failed_fast_request.
    unfold gaussians_request in H. request_raises H.
  - rewrite generate_strings_run. intros H%failed_fast_request.
    unfold strings_request in H.
    repeat (apply bind_raise_inv in H as [H | (? & _ & H)]);
      first [by apply characters_raises in H | step_raises H].
  - rewrite generate_uuids_run. intros H%failed_fast_request.
    unfold uuids_request in H. request_raises H.
  - rewrite generate_blobs_run. intros H%failed_fast_request.
    unfold blobs_request in H. request_raises H.
Qed.

(** When [generate_integer_sequences] ends before its call in a
    [ValueError] that reports numbers, the numbers bear the message out:
    a reported total of the lengths is above 10000 (the lower bound of
    that test never fails), a reported value is an integer outside the
    range reported with it, a reported minimum is above the reported
    maximum, and a reported domain is smaller than the reported length. *)
Theorem sequences_error_reports_hold n len mn mx rep base pgr log e :
  generate_integer_sequences n len mn mx rep base pgr log = (Raise e, log) →
  report_holds e.
Proof.
  rewrite generate_integer_sequences_run. intros H%failed_fast_request.
  by apply sequences_request_raises in H as [_ H].
Qed.

(** *** The first failure of a loop *)

Lemma for_each_first_raise {A} (pre : list A) x post
    (body : A → result unit) e :
  (∀ y, y ∈ pre → body y = Ok tt) → body x = Raise e →
  for_each (pre ++ x :: post) body = Raise e.
Proof.
  intros Hpre Hx. induction pre as [|y pre IH]; cbn.
  - by rewrite Hx.
  - rewrite (Hpre y) by apply list_elem_of_here. cbn.
    apply IH. intros z Hz. apply Hpre. by apply list_elem_of_further.
Qed.

Lemma enumerate_split {A} (l : list A) i x :
  l !! i = Some x →
  enumerate l
  = enumerate (take i l) ++ (i, x) :: imap (λ j y, (i + S j, y)%nat)
                                        (drop (S i) l).
Proof.
  intros Hx. unfold enumerate.
  rewrite <- (take_drop_middle l i x) at 1 by done.
  rewrite imap_app. f_equal.
  assert (length (take i l) = i) as Hlen.
  { rewrite length_take. apply lookup_lt_Some in Hx. lia. }
  rewrite imap_cons, Hlen, Nat.add_0_r.
  apply (f_equal (cons (i, x))).
  apply imap_ext. intros j y _. cbn. by rewrite Nat.add_succ_r.
Qed.

Lemma range_split n i :
  0 <= i < n → range n = range i ++ i :: seqZ (i + 1) (n - i - 1).
Proof.
  intros Hi. unfold range.
  replace n with (i + (n - i)) at 1 by lia.
  rewrite seqZ_app by lia. f_equal.
  rewrite seqZ_cons by lia.
  replace (0 + i) with i by lia. replace (Z.succ i) with (i + 1) by lia.
  by replace (Z.pred (n - i)) with (n - i - 1) by lia.
Qed.

(** A list of [n] items goes through the item validator in order, each
    item under the name of the field followed by its index in brackets.
    The list itself is returned, flagged as a list, exactly when every
    item passes; otherwise the exception is that of the first item that
    fails.  With no item validator the items are not looked at. *)
Theorem normalize_list_items_in_order name (l : list value) n
    (sv lv : value → string → result unit) :
  Z.of_nat (length l) = n →
  (_ensure_scalar_or_list name (VList l) n (Some sv) (Some lv)
   = Ok (false, VList l)
   ↔ ∀ i x, l !! i = Some x → lv x (item_name name i) = Ok tt)
  ∧ (∀ i x e,
       l !! i = Some x → lv x (item_name name i) = Raise e →
       (∀ j y, (j < i)%nat → l !! j = Some y →
               lv y (item_name name j) = Ok tt) →
       _ensure_scalar_or_list name (VList l) n (Some sv) (Some lv)
       = Raise e)
  ∧ _ensure_scalar_or_list name (VList l) n (Some sv) None
    = Ok (false, VList l).
Proof.
  intros Hlen. unfold _ensure_scalar_or_list.
  apply Z.eqb_eq in Hlen. rewrite Hlen.
  cbn [guard ret bind result_raising]. repeat split.
  - intros Hrun i x Hx.
    destruct (for_each _ _) as [[]|e] eqn:Hloop; [|discriminate].
    by apply (proj1 (for_each_ok_iff _ _) Hloop (i, x)), lookup_enumerate.
  - intros Hall. rewrite for_each_ok; [reflexivity|].
    intros [i x] Hix%elem_of_enumerate. by apply Hall.
  - intros i x e Hx Hfail Hbefore.
    rewrite (enumerate_split l i x) by done.
    rewrite (for_each_first_raise _ _ _ _ e); [reflexivity| |exact Hfail].
    intros [j y] Hjy%elem_of_enumerate. cbn [fst snd] in *.
    apply lookup_take_Some in Hjy as [Hy Hj]. by apply (Hbefore j y).
Qed.

(** Multiform throughout: when some sequence with its own flag [False]
    has a domain smaller than its length, the check ends in the error for
    the first such sequence, with its index, its domain and its length. *)
Theorem feasible_multiform_first_failure
    n (ls los his : list Z) (fs : list bool) i len lo hi :
  Z.of_nat (length ls) = n → Z.of_nat (length los) = n →
  Z.of_nat (length his) = n → Z.of_nat (length fs) = n →
  fs !! i = Some false → ls !! i = Some len →
  los !! i = Some lo → his !! i = Some hi →
  hi - lo + 1 < len →
  (∀ j len' lo' hi', (j < i)%nat →
     fs !! j = Some false → ls !! j = Some len' →
     los !! j = Some lo' → his !! j = Some hi' →
     len' <= hi' - lo' + 1) →
  _validate_no_replacement_feasible false
    (VList (VInt <$> ls)) (VList (VInt <$> los)) (VList (VInt <$> his))
    (VList (VBool <$> fs)) n
  = Raise (ValueError (InfeasibleAt (Z.of_nat i) (hi - lo + 1) (VInt len))).
Proof.
  intros Hls Hlos Hhis Hfs Hf Hlen Hlo Hhi Hshort Hbefore.
  unfold _validate_no_replacement_feasible. cbn [is_bool py_len].
  rewrite length_fmap, Hfs. cbn [bind result_raising].
  rewrite Z.eqb_refl. cbn [guard ret result_raising].
  assert (0 <= Z.of_nat i < n) as Hi.
  { apply lookup_lt_Some in Hf. lia. }
  rewrite (range_split n (Z.of_nat i)) by done.
  apply for_each_first_raise.
  - intros j Hj%elem_of_range.
    destruct (lookup_lt_is_Some_2 fs (Z.to_nat j)) as [f' Hf']; [lia|].
    destruct (lookup_lt_is_Some_2 ls (Z.to_nat j)) as [len' Hlen']; [lia|].
    destruct (lookup_lt_is_Some_2 los (Z.to_nat j)) as [lo' Hlo']; [lia|].
    destruct (lookup_lt_is_Some_2 his (Z.to_nat j)) as [hi' Hhi']; [lia|].
    rewrite <- (Z2Nat.id j) by lia.
    rewrite (getitem_list _ _ (VBool f'))
      by (by rewrite list_lookup_fmap, Hf').
    cbn [bind result_raising].
    destruct f'; [reflexivity|]. cbn [is_False].
    rewrite (check_domain_ints _ _ _ _ _ hi' lo' len')
      by (by apply getitem_ints).
    assert (len' <= hi' - lo' + 1) by (apply (Hbefore (Z.to_nat j)); done || lia).
    assert ((hi' - lo' + 1 <? len') = false) as -> by (apply Z.ltb_ge; lia).
    reflexivity.
  - rewrite (getitem_list _ _ (VBool false))
      by (by rewrite list_lookup_fmap, Hf).
    cbn [bind result_raising is_False].
    rewrite (check_domain_ints _ _ _ _ _ hi lo len)
      by (by apply getitem_ints).
    assert ((hi - lo + 1 <? len) = true) as -> by (apply Z.ltb_lt; lia).
    reflexivity.
Qed.

(** *** Randomization spec: what the validator returns *)

(** What the validator returns for a dict is a dict of one entry, a date
    that matches the pattern or an id of 1 to 64 characters, and the
    validator returns that dict again when given it; it returns [None]
    for [None] only. *)
Theorem randomization_spec_normal_form pgr :
  (∀ d, _validate_pregenerated_randomization pgr = Ok (Some d) →
     ((∃ s, d = {[ "date" := VStr s ]} ∧ fullmatch_date s = true)
      ∨ (∃ s, d = {[ "id" := VStr s ]} ∧ 1 <= str_len s <= 64))
     ∧ _validate_pregenerated_randomization (VDict d) = Ok (Some d))
  ∧ (_validate_pregenerated_randomization pgr = Ok None ↔ pgr = VNone).
Proof.
  split.
  - intros d Hrun. destruct pgr as [| | | | |d0]; try discriminate.
    rewrite validate_pgr_dict in Hrun.
    destruct (d0 !! "date") as [[| | |s| |]|], (d0 !! "id") as [[| | |t| |]|];
      try discriminate.
    + destruct (fullmatch_date s) eqn:Hs; [|discriminate].
      injection Hrun as <-. split; [left; by exists s|].
      rewrite validate_pgr_dict, lookup_singleton_eq, lookup_singleton_ne
        by done.
      by rewrite Hs.
    + destruct (in_range 1 (str_len t) 64) eqn:Ht; [|discriminate].
      injection Hrun as <-. split.
      * right. exists t. split; [reflexivity|]. by apply in_range_spec.
      * rewrite validate_pgr_dict, lookup_singleton_eq, lookup_singleton_ne
          by done.
        by rewrite Ht.
  - split; [|by intros ->].
    destruct pgr as [| | | | |d0]; try done.
    rewrite validate_pgr_dict. intros Hrun.
    repeat (case_match; simplify_eq/=).
Qed.

Lemma code_points_head c s :
  ∃ p ps, code_points (String c s) = String c p :: ps.
Proof.
  cbn [code_points]. destruct (code_points s) as [|[|c' p'] ps'].
  - by eexists _, _.
  - by eexists _, _.
  - destruct (is_continuation c'); by eexists _, _.
Qed.

(** A character that does not continue a code point starts one. *)
Lemma code_points_cons c c' s :
  is_continuation c' = false →
  code_points (String c (String c' s))
  = String c EmptyString :: code_points (String c' s).
Proof.
  intros Hc'. destruct (code_points_head c' s) as (p & ps & Hcp).
  change (code_points (String c (String c' s)))
    with (match code_points (String c' s) with
          | String c'' p :: ps =>
              if is_continuation c'' then String c (String c'' p) :: ps
              else String c EmptyString :: String c'' p :: ps
          | ps => String c EmptyString :: ps
          end).
  by rewrite Hcp, Hc'.
Qed.

Lemma ascii_digit_plain c :
  ascii_digit c = true →
  is_continuation c = false
  ∧ String c EmptyString
    ∈ ["0"; "1"; "2"; "3"; "4"; "5"; "6"; "7"; "8"; "9"].
Proof.
  destruct c as [[] [] [] [] [] [] [] []]; vm_compute; try discriminate;
    intros _; (split; [reflexivity|]);
    repeat (apply list_elem_of_here || apply list_elem_of_further).
Qed.

Lemma fullmatch_ascii_digits (y1 y2 y3 y4 m1 m2 d1 d2 : ascii) :
  Forall (λ c, ascii_digit c = true) [y1; y2; y3; y4; m1; m2; d1; d2] →
  fullmatch_date
    (String y1 (String y2 (String y3 (String y4 (String "-"
       (String m1 (String m2 (String "-"
          (String d1 (String d2 EmptyString))))))))))
  = true.
Proof using ascii_digits_Nd.
  intros Hall.
  repeat match goal with
         | H : Forall _ (_ :: _) |- _ =>
             apply Forall_cons in H as [?%ascii_digit_plain H]
         end.
  repeat match goal with H : _ ∧ _ |- _ => destruct H end.
  unfold fullmatch_date.
  rewrite !code_points_cons by (assumption || reflexivity).
  change (code_points (String d2 EmptyString)) with [String d2 EmptyString].
  cbn [forallb].
  rewrite !ascii_digit_Nd by assumption. reflexivity.
Qed.

(** A dict whose only entry of the two is a date of ASCII digits in the
    pattern. *)
Lemma date_spec_ok d (y1 y2 y3 y4 m1 m2 d1 d2 : ascii) :
  d !! "date"
  = Some (VStr (String y1 (String y2 (String y3 (String y4 (String "-"
             (String m1 (String m2 (String "-"
                (String d1 (String d2 EmptyString))))))))))) →
  d !! "id" = None →
  Forall (λ c, ascii_digit c = true) [y1; y2; y3; y4; m1; m2; d1; d2] →
  is_ok (_validate_pregenerated_randomization (VDict d)) = true.
Proof using ascii_digits_Nd.
  intros Hdate Hid Hall.
  by rewrite validate_pgr_dict, Hdate, Hid, fullmatch_ascii_digits.
Qed.

(** The date check looks at the pattern and at nothing else.  A date that
    passes has ten characters, the fifth and the eighth a hyphen; and every
    string of four, two and two ASCII digits with hyphens between passes,
    whether or not the calendar has such a day: 2023-02-31 is one. *)
Theorem date_check_is_pattern_only :
  (∀ s, fullmatch_date s = true →
     str_len s = 10
     ∧ code_points s !! 4%nat = Some "-"
     ∧ code_points s !! 7%nat = Some "-")
  ∧ (∀ y1 y2 y3 y4 m1 m2 d1 d2 : ascii,
       Forall (λ c, ascii_digit c = true) [y1; y2; y3; y4; m1; m2; d1; d2] →
       fullmatch_date
         (String y1 (String y2 (String y3 (String y4 (String "-"
            (String m1 (String m2 (String "-"
               (String d1 (String d2 EmptyString))))))))))
       = true)
  ∧ _validate_pregenerated_randomization
      (VDict {[ "date" := VStr "2023-02-31" ]})
    = Ok (Some {[ "date" := VStr "2023-02-31" ]}).
Proof using ascii_digits_Nd.
  split; [|split; [exact fullmatch_ascii_digits|]].
  - intros s. unfold fullmatch_date, str_len.
    destruct (code_points s)
      as [|c1 [|c2 [|c3 [|c4 [|c5 [|c6 [|c7 [|c8 [|c9 [|c10 [|c11 t]]]]]]]]]]];
      try discriminate.
    intros Hmatch. repeat (apply andb_prop in Hmatch as [Hmatch ?]).
    repeat match goal with
           | H : String.eqb _ _ = true |- _ => apply String.eqb_eq in H
           end.
    by subst.
  - rewrite validate_pgr_dict, lookup_singleton_eq, lookup_singleton_ne by done.
    rewrite (fullmatch_ascii_digits "2" "0" "2" "3" "0" "2" "3" "1")%char;
      [reflexivity|].
    repeat constructor.
Qed.

(** *** generate_gaussians: the numbers that pass *)

Lemma SFcompare_finite_refl s m e :
  SFcompare (S754_finite s m e) (S754_finite s m e) = Some Eq.
Proof.
  unfold SFcompare.
  destruct s; rewrite Z.compare_refl, ?Pos.compare_refl; reflexivity.
Qed.

Lemma float_in_range_finite x :
  float_in_range x = true →
  PrimFloat.is_nan x = false ∧ PrimFloat.is_infinity x = false.
Proof.
  unfold float_in_range, PrimFloat.is_nan, PrimFloat.is_infinity.
  rewrite !leb_spec, !eqb_spec, abs_spec.
  destruct (Prim2SF x) as [s|s| |s m e].
  - intros _. by destruct s.
  - destruct s; intros H; vm_compute in H; discriminate.
  - intros H; vm_compute in H; discriminate.
  - intros _. unfold SFeqb. rewrite SFcompare_finite_refl.
    split; [reflexivity|]. by destruct s.
Qed.

Lemma guard_ok_inv b e : guard (m := result) b e = Ok tt → b = true.
Proof. by destruct b. Qed.

(** The chained comparison of lines 454-457 is false on NaN and on the
    infinities, so a call of [generate_gaussians] that reaches the service
    has a mean and a standard deviation that are numbers and finite.  The
    sign of the standard deviation is not looked at: zero and -1 pass. *)
Theorem gaussians_take_finite_numbers :
  (∀ x, float_in_range x = true →
     PrimFloat.is_nan x = false ∧ PrimFloat.is_infinity x = false)
  ∧ (∀ n mean sd digits pgr log,
       made_call (generate_gaussians n mean sd digits pgr log) log
         "generateGaussians" →
       (PrimFloat.is_nan mean = false ∧ PrimFloat.is_infinity mean = false)
       ∧ PrimFloat.is_nan sd = false ∧ PrimFloat.is_infinity sd = false)
  ∧ float_in_range 0%float = true
  ∧ float_in_range (-1)%float = true.
Proof.
  split; [exact float_in_range_finite|]. split; [|by vm_compute].
  intros n mean sd digits pgr log.
  rewrite generate_gaussians_run. intros [r Hr]%made_call_request.
  unfold gaussians_request in Hr.
  apply then_ok_inv in Hr as [_ Hr].
  apply then_ok_inv in Hr as [Hmean%guard_ok_inv Hr].
  apply then_ok_inv in Hr as [Hsd%guard_ok_inv _].
  split; by apply float_in_range_finite.
Qed.

(** *** The key that is posted *)

Lemma with_pgr_lookup spec (params : gmap string json) k :
  k ≠ "pregeneratedRandomization" → with_pgr spec params !! k = params !! k.
Proof.
  intros Hk. destruct spec; [|reflexivity]. cbn.
  by rewrite lookup_insert_ne.
Qed.

Lemma keyed_params_fresh api_key (params : gmap string json) :
  params !! "apiKey" = None →
  keyed_params api_key params !! "apiKey" = Some (JV (VStr api_key))
  ∧ delete "apiKey" (keyed_params api_key params) = params.
Proof.
  intros Hfresh. unfold keyed_params. split.
  - rewrite lookup_union_r by done. apply lookup_singleton_eq.
  - rewrite delete_union, delete_singleton_eq, (right_id_L ∅ (∪)).
    by apply delete_id.
Qed.

Ltac no_api_key H :=
  repeat (apply then_ok_inv in H as [_ H]);
  apply bind_ok_inv in H as (? & _ & [= <-]); cbn [snd];
  rewrite with_pgr_lookup by done;
  cbn [list_to_map foldr uncurry]; rewrite !lookup_insert_ne by done;
  apply lookup_empty.

(** No tool puts an [apiKey] entry of its own among the parameters of its
    call.  So what the client posts under [apiKey] for a call of a tool is
    the key of the environment, and taking that entry away leaves the
    parameters as the tool built them; [get_usage] posts the key and
    nothing else. *)
Theorem tools_post_environment_key api_key :
  let keyed (req : result request) :=
    ∀ r, req = Ok r →
      r.2 !! "apiKey" = None
      ∧ keyed_params api_key r.2 !! "apiKey" = Some (JV (VStr api_key))
      ∧ delete "apiKey" (keyed_params api_key r.2) = r.2 in
  (∀ n mn mx rep base pgr, keyed (integers_request n mn mx rep base pgr))
  ∧ (∀ n len mn mx rep base pgr,
       keyed (sequences_request n len mn mx rep base pgr))
  ∧ (∀ n places rep pgr,
       keyed (decimal_fractions_request n places rep pgr))
  ∧ (∀ n mean sd digits pgr, keyed (gaussians_request n mean sd digits pgr))
  ∧ (∀ n len chars rep pgr, keyed (strings_request n len chars rep pgr))
  ∧ (∀ n pgr, keyed (uuids_request n pgr))
  ∧ (∀ n size format pgr, keyed (blobs_request n size format pgr))
  ∧ keyed_params api_key ∅ = {[ "apiKey" := JV (VStr api_key) ]}.
Proof.
  intros keyed. subst keyed.
  assert (∀ params : gmap string json,
            params !! "apiKey" = None →
            params !! "apiKey" = None
            ∧ keyed_params api_key params !! "apiKey"
              = Some (JV (VStr api_key))
            ∧ delete "apiKey" (keyed_params api_key params) = params)
    as Hfresh.
  { intros params Hp. split; [exact Hp|]. by apply keyed_params_fresh. }
  repeat apply conj; try (intros * Hr; apply Hfresh).
  - unfold integers_request in Hr. no_api_key Hr.
  - apply sequences_request_inv in Hr
      as (_ & ? & ? & ? & ? & ? & spec & _ & _ & _ & _ & _ & ->).
    cbn [snd]. rewrite with_pgr_lookup by done.
    cbn [list_to_map foldr uncurry]. rewrite !lookup_insert_ne by done.
    apply lookup_empty.
  - unfold decimal_fractions_request in Hr. no_api_key Hr.
  - unfold gaussians_request in Hr. no_api_key Hr.
  - unfold strings_request in Hr. no_api_key Hr.
  - unfold uuids_request in Hr. no_api_key Hr.
  - unfold blobs_request in Hr. no_api_key Hr.
  - unfold keyed_params. by rewrite (left_id_L ∅ (∪)).
Qed.

(** *** The catalogue of examples *)

Lemma is_ok_inv {A} (x : result A) : is_ok x = true → ∃ r, x = Ok r.
Proof. destruct x as [r|e]; [by exists r|discriminate]. Qed.

Ltac bound_call :=
  match goal with
  | |- context [bind_arguments ?t ?a] =>
      let c := eval vm_compute in (bind_arguments t a) in
      replace (bind_arguments t a) with c by (vm_compute; reflexivity)
  end.

Ltac request_passes :=
  first
    [ vm_compute; reflexivity
    | cbn [validation_of];
      unfold integers_request, decimal_fractions_request, gaussians_request,
        strings_request, uuids_request, blobs_request;
      rewrite ?is_ok_then, ?is_ok_with_pgr, ?andb_true_iff;
      repeat split; try (vm_compute; reflexivity);
      eapply date_spec_ok;
      [vm_compute; reflexivity|vm_compute; reflexivity|repeat constructor] ].

(** Every example of the catalogue is a call that its tool accepts: with
    the arguments of the example as keyword arguments, and the defaults of
    the signature for the rest, the whole validation phase of the tool
    passes, so that the call to the service is the next step.  The
    catalogue has examples for the seven generating tools. *)
Theorem catalogue_examples_pass :
  examples.*1
  = ["generate_blobs"; "generate_uuids"; "generate_strings";
     "generate_gaussians"; "generate_decimal_fractions";
     "generate_integers"; "generate_integer_sequences"]
  ∧ Forall (λ entry,
      Forall (λ ex, ∃ r, keyword_call entry.1 (arguments ex) = Some (Ok r))
        entry.2) examples.
Proof using ascii_digits_Nd.
  split; [reflexivity|].
  unfold examples.
  repeat (apply Forall_cons; split); try apply Forall_nil_2;
    cbn [fst snd arguments]; unfold keyword_call; bound_call;
    cbn [fmap option_fmap option_map];
    (cut (∀ req : result request, is_ok req = true →
            ∃ r, Some req = Some (Ok r));
     [intros Hcut; apply Hcut
     |intros req [r ->]%is_ok_inv; by exists r]);
    request_passes.
Qed.

End Server.

Lemma ascii_Nd_digits c :
  c ∈ ["0"; "1"; "2"; "3"; "4"; "5"; "6"; "7"; "8"; "9"] → ascii_Nd c = true.
Proof. intros Hc. by apply bool_decide_eq_true. Qed.

(** ** The theorems at concrete calls *)

(** Multiform lengths and domains with the scalar [True]: sequence 0 asks
    for 6 values out of 2, which drawing with replacement allows. *)
Lemma feasible_scalar_true_witness :
  _validate_no_replacement_feasible false
    (VList [VInt 6; VInt 1]) (VList [VInt 0; VInt 0])
    (VList [VInt 1; VInt 9]) (VBool true) 2 = Ok tt.
Proof.
  apply (proj1 (feasible_scalar_true ascii_Nd) false
           (VList [VInt 6; VInt 1]) (VList [VInt 0; VInt 0])
           (VList [VInt 1; VInt 9]) 2).
  lia.
Defined.

(** Three sequences, base 10, no randomization spec, an empty log. *)
Lemma feasibility_domain_of_five_witness :
  (generate_integer_sequences ascii_Nd service_down 3
     (VInt 5) (VInt 0) (VInt 4) (VBool false) (VInt 10) VNone []).2
  = [RpcCall "generateIntegerSequences" (list_to_map [
       ("n", JV (VInt 3)); ("length", JV (VInt 5));
       ("min", JV (VInt 0)); ("max", JV (VInt 4));
       ("replacement", JV (VBool false)); ("base", JV (VInt 10))])]
  ∧ generate_integer_sequences ascii_Nd service_down 3
      (VInt 6) (VInt 0) (VInt 4) (VBool false) (VInt 10) VNone []
    = (Raise (ValueError (InfeasibleAt 0 5 (VInt 6))), []).
Proof.
  destruct (feasibility_domain_of_five ascii_Nd service_down
              3 (VInt 10) VNone None [])
    as (_ & _ & Hfive & Hsix & _);
    [lia|reflexivity|reflexivity|reflexivity|].
  split; [exact Hfive|exact Hsix].
Defined.

(** The validator over the ASCII digits. *)
Lemma randomization_spec_rules_witness :
  _validate_pregenerated_randomization ascii_Nd
    (VDict {[ "date" := VStr "2024-06-01" ]})
  = Ok (Some {[ "date" := VStr "2024-06-01" ]})
  ∧ _validate_pregenerated_randomization ascii_Nd
      (VDict {[ "id" := VStr (string_times "x" 65) ]})
    = Raise (ValueError PgrIdLength).
Proof.
  destruct (randomization_spec_rules ascii_Nd ascii_Nd_digits)
    as (_ & _ & _ & _ & _ & Hdate & _ & _ & _ & Hlong & _ & Hlen & _).
  split; [exact Hdate|exact (Hlong _ Hlen)].
Defined.

(** The length field of a call with three sequences, first as the scalar 5
    and then as the list of three fives. *)
Lemma normalize_scalar_and_list_witness :
  (_ensure_scalar_or_list "length" (VInt 5) 3
     (int_range_validator 1 10000) (int_range_validator 1 10000) tt).1
  = Ok (true, VInt 5)
  ∧ (_ensure_scalar_or_list "length" (VList [VInt 5; VInt 5; VInt 5]) 3
       (int_range_validator 1 10000) (int_range_validator 1 10000) tt).1
    = Ok (false, VList [VInt 5; VInt 5; VInt 5])
  ∧ _ensure_scalar_or_list "length" (VList [VInt 5; VInt 5]) 3
      (int_range_validator 1 10000) (int_range_validator 1 10000) tt
    = (Raise (ValueError (ListLength "length" 3)), tt).
Proof.
  destruct (normalize_scalar_and_list (S := unit)
              (λ v nm, lift (_validate_int_range v nm 1 10000))
              "length" 3 (VInt 5) tt)
    as (Hscalar & Hlist & _ & Hshape);
    [lia|reflexivity|intros nm s'; reflexivity|].
  split; [exact Hscalar|]. split; [exact Hlist|].
  apply Hshape. cbn. lia.
Defined.

(** Ten values without replacement out of the five of [1, 5]. *)
Lemma generate_integers_ignores_replacement_witness :
  (generate_integers ascii_Nd service_down
     10 1 5 (VBool false) 10 VNone []).2
  = [RpcCall "generateIntegers" (list_to_map [
       ("n", JV (VInt 10)); ("min", JV (VInt 1)); ("max", JV (VInt 5));
       ("replacement", JV (VBool false)); ("base", JV (VInt 10))])].
Proof.
  apply (generate_integers_ignores_replacement ascii_Nd service_down
           10 1 5 (VBool false) 10 VNone None []);
    [lia|lia|lia|lia|repeat constructor|reflexivity].
Defined.

(** C6 as stated fails at a code that cannot be a dictionary key: with the
    empty list as code the lookup in the hint table raises [TypeError]. *)
Lemma map_error_unhashable_code :
  _map_random_org_error no_container_text (VList []) "" None
  = Raise (TypeError Unhashable).
Proof. reflexivity. Qed.

(** The multiform example of the server's own catalogue: lengths 4, 6, 3
    over the domains [0, 7], [100, 105], [-5, 5], flags False, True, False. *)
Lemma feasible_multiform_witness :
  _validate_no_replacement_feasible false
    (VList (VInt <$> [4; 6; 3])) (VList (VInt <$> [0; 100; -5]))
    (VList (VInt <$> [7; 105; 5])) (VList (VBool <$> [false; true; false])) 3
  = Ok tt
  ↔ ∀ (i : nat) (len lo hi : Z),
      [false; true; false] !! i = Some false → [4; 6; 3] !! i = Some len →
      [0; 100; -5] !! i = Some lo → [7; 105; 5] !! i = Some hi →
      len <= hi - lo + 1.
Proof.
  apply (feasible_multiform 3 [4; 6; 3] [0; 100; -5] [7; 105; 5]
           [false; true; false]); reflexivity.
Defined.

(** The service is down: a valid call for two UUIDs ends in the client's
    own exception, and so does [get_usage]. *)
Lemma client_errors_pass_through_witness :
  (generate_uuids ascii_Nd service_down 2 VNone []).1
  = Raise (RuntimeError "")
  ∧ get_usage service_down [] = (Raise (RuntimeError ""), [RpcCall "getUsage" ∅]).
Proof.
  destruct (client_errors_pass_through ascii_Nd service_down []
              (RuntimeError ""))
    as (_ & _ & _ & _ & _ & Huuids & _ & Husage); [reflexivity|].
  split; [|exact Husage].
  apply Huuids. by exists {[ "n" := JV (VInt 2) ]}.
Defined.

(** An empty environment: 2000 UUIDs are refused for their number, two
    UUIDs for the missing key. *)
Lemma missing_key_after_validation_witness :
  generate_uuids ascii_Nd (λ _, Raise (RuntimeError missing_key_text))
    2000 VNone []
  = (Raise (ValueError (OutOfRange "n" 1 1000 (VInt 2000))), [])
  ∧ generate_uuids ascii_Nd (λ _, Raise (RuntimeError missing_key_text))
      2 VNone []
    = (Raise (RuntimeError missing_key_text),
       [RpcCall "generateUUIDs" {[ "n" := JV (VInt 2) ]}]).
Proof.
  destruct (missing_key_after_validation ascii_Nd no_container_text
              (λ _, Raise (RuntimeError missing_key_text))
              (Environment ∅ 0 (λ _, RequestError)) [] [])
    as (_ & _ & _ & _ & _ & Huuids & _);
    [intros method params; reflexivity|by left|].
  split; apply Huuids.
Defined.

(** The multiform example of the server's own catalogue. *)
Lemma sequences_call_rules_witness :
  ∃ lens los his reps bases,
    (as_int <$> per_sequence 3 (VList [VInt 4; VInt 6; VInt 3])
     = Some <$> lens
     ∧ as_int <$> per_sequence 3 (VList [VInt 0; VInt 100; VInt (-5)])
       = Some <$> los
     ∧ as_int <$> per_sequence 3 (VList [VInt 7; VInt 105; VInt 5])
       = Some <$> his
     ∧ per_sequence 3 (VList [VBool false; VBool true; VBool false])
       = VBool <$> reps
     ∧ as_int <$> per_sequence 3 (VList [VInt 2; VInt 10; VInt 16])
       = Some <$> bases)
    ∧ (Z.of_nat (length lens) = 3 ∧ Z.of_nat (length los) = 3
       ∧ Z.of_nat (length his) = 3 ∧ Z.of_nat (length reps) = 3
       ∧ Z.of_nat (length bases) = 3)
    ∧ Forall (λ k, 1 <= k <= 10000) lens
    ∧ sum_of lens <= 10000
    ∧ Forall (λ z, -1000000000 <= z <= 1000000000) los
    ∧ Forall (λ z, -1000000000 <= z <= 1000000000) his
    ∧ Forall2 Z.le los his
    ∧ Forall (λ b, b ∈ [2; 8; 10; 16]) bases.
Proof.
  apply (sequences_call_rules ascii_Nd service_down 3
           (VList [VInt 4; VInt 6; VInt 3])
           (VList [VInt 0; VInt 100; VInt (-5)])
           (VList [VInt 7; VInt 105; VInt 5])
           (VList [VBool false; VBool true; VBool false])
           (VList [VInt 2; VInt 10; VInt 16]) VNone []).
  eexists. vm_compute. reflexivity.
Defined.

(** Two sequences of 6000 and 5000 values: the total reported, 11000, is
    above the cap. *)
Lemma sequences_error_reports_hold_witness :
  report_holds (ValueError (LengthsTotal 11000)).
Proof.
  apply (sequences_error_reports_hold ascii_Nd service_down 2
           (VList [VInt 6000; VInt 5000]) (VInt 0) (VInt 5) (VBool true)
           (VInt 10) VNone []).
  by vm_compute.
Defined.

(** Two UUIDs from a service whose result names the bits left and no
    other quota field. *)
Lemma tools_hand_back_witness :
  ∃ out,
    (generate_uuids ascii_Nd service_up 2 VNone []).1 = Ok out
    ∧ handed_back out "uuids" [] None sample_result
        (VList [VInt 3; VInt 5]).
Proof.
  destruct (tools_hand_back ascii_Nd service_up VNone None
              sample_result sample_random (VList [VInt 3; VInt 5]) [])
    as (_ & _ & _ & _ & _ & Huuids & _);
    [reflexivity|reflexivity|reflexivity|reflexivity|].
  apply Huuids. by exists {[ "n" := JV (VInt 2) ]}.
Defined.

(** Three lengths of which the second and the third are out of range: the
    error is that of the second, under the name length[1]. *)
Lemma normalize_list_items_in_order_witness :
  _ensure_scalar_or_list "length" (VList [VInt 5; VInt 0; VInt 20000]) 3
    (int_range_check 1 10000) (int_range_check 1 10000)
  = Raise (ValueError (OutOfRange "length[1]" 1 10000 (VInt 0))).
Proof.
  destruct (normalize_list_items_in_order "length"
              [VInt 5; VInt 0; VInt 20000] 3
              (λ v nm, _validate_int_range v nm 1 10000)
              (λ v nm, _validate_int_range v nm 1 10000))
    as (_ & Hfirst & _); [reflexivity|].
  apply (Hfirst 1%nat (VInt 0)); [reflexivity|reflexivity|].
  intros [|j] y Hj Hy; [|lia]. by injection Hy as <-.
Defined.

(** Three sequences without replacement: the first has room, the second
    asks for 5 values out of 3, the third for 9 out of 4. *)
Lemma feasible_multiform_first_failure_witness :
  _validate_no_replacement_feasible false
    (VList (VInt <$> [2; 5; 9])) (VList (VInt <$> [0; 0; 0]))
    (VList (VInt <$> [4; 2; 3])) (VList (VBool <$> [false; false; false])) 3
  = Raise (ValueError (InfeasibleAt 1 3 (VInt 5))).
Proof.
  apply (feasible_multiform_first_failure 3 [2; 5; 9] [0; 0; 0] [4; 2; 3]
           [false; false; false] 1 5 0 2);
    try reflexivity.
  intros [|j] len' lo' hi' Hj _ Hlen Hlo Hhi; [|lia].
  injection Hlen as <-. injection Hlo as <-. injection Hhi as <-. lia.
Defined.

(** The thirty-first of February, over the ASCII digits. *)
Lemma date_check_is_pattern_only_witness :
  _validate_pregenerated_randomization ascii_Nd
    (VDict {[ "date" := VStr "2023-02-31" ]})
  = Ok (Some {[ "date" := VStr "2023-02-31" ]}).
Proof.
  exact (proj2 (proj2 (date_check_is_pattern_only ascii_Nd ascii_Nd_digits))).
Defined.

(** The catalogue over the ASCII digits. *)
Lemma catalogue_examples_pass_witness :
  Forall (λ entry,
    Forall (λ ex, ∃ r, keyword_call ascii_Nd entry.1 (arguments ex)
                       = Some (Ok r))
      entry.2) examples.
Proof.
  exact (proj2 (catalogue_examples_pass ascii_Nd ascii_Nd_digits)).
Defined.
